(** * Tabular edit overlay and view engine: a shallow embedding of [views.py]

    The development follows the Django views that make up the core of the
    application:

    - [DataIngestionView.post]  (ingestion, sanitising of parsed cells);
    - [DataGridView.get] / [DataGridView.patch]  (pagination, cell edits);
    - [DataPreviewView.get]  (stride sampling for previews);
    - [FileUploadView.post]  (limits and storage path of an upload);

    first from the table or file a view works on, then as a whole, with
    the lookups of project, table and file that each view starts with.

    Python dictionaries whose iteration order is irrelevant are finite maps
    ([gmap]); request bodies, whose iteration order decides the order of the
    reported errors, are association lists.  Python floats are IEEE-754
    binary64 numbers, modelled by [spec_float] with [prec = 53] and
    [emax = 1024].

    What the views leave to their surroundings is a parameter: the
    built-ins on strings outside ASCII ([Unicode]), [str] on an arbitrary
    value, whether the database takes a record that is written
    ([Database]), the parser and the readers of ingestion
    ([Collaborators]), and the storage of uploads. *)

From Stdlib Require Import ZArith String Ascii List Lia Bool Sorted.
From Stdlib Require Import Reals Lra Psatz.
From Stdlib Require Import Floats.SpecFloat.
From stdpp Require Import gmap strings list pretty.

Local Set Warnings "-register-all".

(** ** Python values *)

(** The values that reach the views: decoded JSON.  Python's [bool] is a
    subclass of [int]; the two are kept apart here and the subclass relation
    is written out in [isinstance_int_float]. *)
Inductive json : Type :=
  | JNull
  | JBool (b : bool)
  | JInt (z : Z)
  | JFloat (f : spec_float)
  | JStr (s : string)
  | JArr (l : list json)
  | JObj (kv : list (string * json)).

Definition isinstance_str (v : json) : bool :=
  match v with JStr _ => true | _ => false end.

Definition isinstance_bool (v : json) : bool :=
  match v with JBool _ => true | _ => false end.

(** [isinstance(v, (int, float))]: true of booleans as well. *)
Definition isinstance_int_float (v : json) : bool :=
  match v with JInt _ | JFloat _ | JBool _ => true | _ => false end.

(** ** Binary64 arithmetic *)

Module PyFloat.

Definition prec : Z := 53.
Definition emax : Z := 1024.

Definition is_finite (f : spec_float) : bool :=
  match f with
  | S754_zero _ | S754_finite _ _ _ => true
  | S754_infinity _ | S754_nan => false
  end.

Definition is_nan (f : spec_float) : bool :=
  match f with S754_nan => true | _ => false end.

(** An integer as an unrounded binary number with exponent 0. *)
Definition exact_of_Z (z : Z) : spec_float :=
  match z with
  | Z0 => S754_zero false
  | Zpos p => S754_finite false p 0
  | Zneg p => S754_finite true p 0
  end.

(** [float(i)] for an integer [i]: the nearest binary64 number. *)
Definition of_int (i : Z) : spec_float :=
  binary_normalize prec emax i 0 false.

(** [n / d] on integers: the exact quotient, rounded once.  [None] stands
    for [ZeroDivisionError] and for the [OverflowError] raised when the
    quotient does not fit a float. *)
Definition truediv (n d : Z) : option spec_float :=
  if (d =? 0)%Z then None
  else
    let q := SFdiv prec emax (exact_of_Z n) (exact_of_Z d) in
    if is_finite q then Some q else None.

Definition mul (x y : spec_float) : spec_float := SFmul prec emax x y.

(** [int(x)] on a float: truncation towards zero; [None] stands for the
    [ValueError] (NaN) or [OverflowError] (infinity) that Python raises. *)
Definition to_int (x : spec_float) : option Z :=
  match x with
  | S754_zero _ => Some 0%Z
  | S754_finite s m e => Some (cond_Zopp s (Z.shiftl (Zpos m) e))
  | S754_infinity _ | S754_nan => None
  end.

(** A decimal numeral [(-1)^s * m * 10^e], rounded once to binary64. *)
Definition of_decimal (s : bool) (m : Z) (e : Z) : spec_float :=
  match m with
  | Zpos p =>
      match e with
      | Zneg _ =>
          SFdiv prec emax (S754_finite s p 0)
                (exact_of_Z (10 ^ (- e))%Z)
      | _ => binary_normalize prec emax (cond_Zopp s (Zpos p * 10 ^ e)%Z) 0 s
      end
  | _ => S754_zero s
  end.

End PyFloat.

(** ** String built-ins: [int(str)], [float(str)], [str.lower()], [str(int)]

    A Python string is kept as the bytes of its UTF-8 form, so it is ASCII
    exactly when every byte is below 128.  On ASCII strings [int] and
    [float] are modelled character by character.  On a string with a
    character outside ASCII they also read the decimal digits and the white
    space of other scripts, as the Unicode tables of the interpreter list
    them; what they return there, and which characters outside ASCII
    [str.isalnum] holds for, is a parameter of the development. *)

Record Unicode : Type := mkUnicode {
  (** [int(s)] for a string with a character outside ASCII *)
  int_wide : string -> option Z;
  (** [float(s)] for such a string *)
  float_wide : string -> option spec_float;
  (** [c.isalnum()] for a code point outside ASCII *)
  alnum_wide : N -> bool
}.

Module PyStr.

Definition code (c : ascii) : N := N_of_ascii c.

(** The white space that [int] and [float] skip around an ASCII numeral:
    tab, line feed, vertical tab, form feed, carriage return and space.
    The separators 28 to 31, for which [str.isspace] holds as well, are
    not skipped. *)
Definition is_space (c : ascii) : bool :=
  let n := code c in
  ((9 <=? n) && (n <=? 13) || (n =? 32))%N.

Definition is_digit (c : ascii) : bool :=
  let n := code c in ((48 <=? n) && (n <=? 57))%N.

Definition digit_val (c : ascii) : Z := Z.of_N (code c - 48).

Definition lower_char (c : ascii) : ascii :=
  let n := code c in
  if ((65 <=? n) && (n <=? 90))%N then ascii_of_N (n + 32) else c.

Fixpoint chars (s : string) : list ascii :=
  match s with
  | EmptyString => []
  | String c r => c :: chars r
  end.

Fixpoint unchars (l : list ascii) : string :=
  match l with
  | [] => EmptyString
  | c :: r => String c (unchars r)
  end.

(** [s.lower()]: ASCII letters are lowered and every other byte is kept.
    The views compare the result with ASCII words only, and no string with
    a character outside ASCII lowers to one of them. *)
Definition lower (s : string) : string := unchars (map lower_char (chars s)).

Fixpoint lstrip (l : list ascii) : list ascii :=
  match l with
  | c :: r => if is_space c then lstrip r else l
  | [] => []
  end.

Definition strip (l : list ascii) : list ascii :=
  rev (lstrip (rev (lstrip l))).

(** [digit (["_"] digit)*]: the value read so far, the number of digits,
    and whether the previous character was a digit. *)
Fixpoint digitpart_from (acc : Z) (cnt : Z) (prev_digit : bool)
    (l : list ascii) : option (Z * Z) :=
  match l with
  | [] => if prev_digit then Some (acc, cnt) else None
  | c :: r =>
      if is_digit c then
        digitpart_from (10 * acc + digit_val c)%Z (cnt + 1)%Z true r
      else if (code c =? 95)%N && prev_digit then
        digitpart_from acc cnt false r
      else None
  end.

Definition digitpart (l : list ascii) : option (Z * Z) :=
  digitpart_from 0%Z 0%Z false l.

(** An optional sign: [true] for a minus. *)
Definition split_sign (l : list ascii) : bool * list ascii :=
  match l with
  | c :: r =>
      if (code c =? 45)%N then (true, r)
      else if (code c =? 43)%N then (false, r)
      else (false, l)
  | [] => (false, [])
  end.

Definition is_ascii (s : string) : bool :=
  forallb (fun c => (code c <? 128)%N) (chars s).

(** [int(s)] in base 10 for an ASCII string; [None] stands for
    [ValueError].  The limit that an interpreter may set on the number of
    digits is left out. *)
Definition int_ascii (s : string) : option Z :=
  let '(neg, body) := split_sign (strip (chars s)) in
  match digitpart body with
  | Some (v, _) => Some (cond_Zopp neg v)
  | None => None
  end.

(** [int(s)] in base 10. *)
Definition int_of_str (u : Unicode) (s : string) : option Z :=
  if is_ascii s then int_ascii s else int_wide u s.

(** [str(i)] for an integer. *)
Definition str_of_int (i : Z) : string := pretty i.

Definition is_exp_mark (c : ascii) : bool :=
  ((code c =? 101) || (code c =? 69))%N.

Definition is_dot (c : ascii) : bool := (code c =? 46)%N.

(** The longest prefix without a character satisfying [stop]. *)
Fixpoint span_until (stop : ascii -> bool) (l : list ascii)
    : list ascii * list ascii :=
  match l with
  | [] => ([], [])
  | c :: r =>
      if stop c then ([], l)
      else let '(a, b) := span_until stop r in (c :: a, b)
  end.

Definition opt_digitpart (l : list ascii) : option (Z * Z) :=
  match l with
  | [] => Some (0%Z, 0%Z)
  | _ => digitpart l
  end.

(** [exponent ::= ("e" | "E") [sign] digitpart], or nothing. *)
Definition exponent (l : list ascii) : option Z :=
  match l with
  | [] => Some 0%Z
  | c :: r =>
      if is_exp_mark c then
        let '(neg, body) := split_sign r in
        match digitpart body with
        | Some (v, _) => Some (cond_Zopp neg v)
        | None => None
        end
      else None
  end.

(** [floatnumber]: [[digitpart] "." digitpart | digitpart ["."]], then an
    optional exponent.  The result is the decimal mantissa and exponent. *)
Definition floatnumber (l : list ascii) : option (Z * Z) :=
  let '(ip, rest) := span_until (fun c => is_dot c || is_exp_mark c) l in
  let '(has_dot, fp, rest') :=
    match rest with
    | c :: r =>
        if is_dot c then
          let '(fp, r') := span_until is_exp_mark r in (true, fp, r')
        else (false, [], rest)
    | [] => (false, [], [])
    end in
  match ip, fp with
  | [], [] => None
  | _, _ =>
      match opt_digitpart ip, opt_digitpart fp, exponent rest' with
      | Some (iv, _), Some (fv, fc), Some ex =>
          Some ((iv * 10 ^ fc + fv)%Z, (ex - fc)%Z)
      | _, _, _ => None
      end
  end.

(** [float(s)] for an ASCII string; [None] stands for [ValueError]. *)
Definition float_ascii (s : string) : option spec_float :=
  let '(neg, body) := split_sign (strip (chars s)) in
  let word := unchars (map lower_char body) in
  if decide (word = "inf" \/ word = "infinity") then Some (S754_infinity neg)
  else if decide (word = "nan") then Some S754_nan
  else
    match floatnumber body with
    | Some (m, e) => Some (PyFloat.of_decimal neg m e)
    | None => None
    end.

(** [float(s)]. *)
Definition float_of_str (u : Unicode) (s : string) : option spec_float :=
  if is_ascii s then float_ascii s else float_wide u s.

(** The code points of an ASCII string. *)
Definition codes (s : string) : list N := code <$> chars s.

End PyStr.

(** ** The stored table *)

Abbreviation row := (gmap string json).

(** A [DataTable] record of the database.  [edited_data_json] is the sparse
    overlay: row index, written in decimal, to the edited cells of the row. *)
Record DataTable : Type := mkDataTable {
  project : Z;
  source_file : Z;
  schema_json : gmap string string;
  num_rows : Z;
  sample_json : list row;
  full_data_json : option (list row);
  edited_data_json : gmap string row
}.

Definition set_edited_data_json (t : DataTable) (e : gmap string row)
    : DataTable :=
  mkDataTable (project t) (source_file t) (schema_json t) (num_rows t)
    (sample_json t) (full_data_json t) e.

Definition set_full_data_json (t : DataTable) (d : option (list row))
    : DataTable :=
  mkDataTable (project t) (source_file t) (schema_json t) (num_rows t)
    (sample_json t) d (edited_data_json t).

(** Modelled from the spec: [DataTable.get_schema] is defined in the model
    layer, which is not part of the sources; it yields the stored mapping
    from column name to declared type. *)
Definition get_schema (t : DataTable) : gmap string string := schema_json t.

(** Modelled from the spec: [DataTable.get_edited_data] is defined in the
    model layer; the overlay "starts empty" and is returned as stored. *)
Definition get_edited_data (t : DataTable) : gmap string row :=
  edited_data_json t.

(** Modelled from the spec: part of [DataTable.get_data_with_edits], of the
    absent model layer.  Row [i] is the base row "with every key present in
    [editOverlay[i]] (if any) overridden by the overlay's value; columns
    absent from the overlay keep their original value". *)
Definition merge_row (overlay : gmap string row) (i : nat) (r : row) : row :=
  match overlay !! PyStr.str_of_int (Z.of_nat i) with
  | Some row_edits => row_edits ∪ r
  | None => r
  end.

(** Modelled from the spec: [DataTable.get_data_with_edits] (the spec's
    [materialize]) is defined in the model layer.  It "returns None/absent
    if [fullRows] is not present" and otherwise the base rows with the
    overlay merged in. *)
Definition get_data_with_edits (t : DataTable) : option (list row) :=
  imap (merge_row (get_edited_data t)) <$> full_data_json t.

(** ** [DataGridView.get]: offset pagination *)

(** [l[start:stop]] with Python's treatment of negative and overlong
    bounds. *)
Definition slice_bound (len i : Z) : Z :=
  if (i <? 0)%Z then Z.max (i + len) 0 else Z.min i len.

Definition py_slice {A} (l : list A) (start stop : Z) : list A :=
  let len := Z.of_nat (length l) in
  let s := slice_bound len start in
  let e := slice_bound len stop in
  take (Z.to_nat (e - s)) (drop (Z.to_nat s) l).

Record Pagination : Type := mkPagination {
  pg_page : Z;
  pg_page_size : Z;
  total_rows : Z;
  total_pages : Z;
  has_next : bool;
  has_previous : bool
}.

Inductive GridResponse : Type :=
  | GridFullDataUnavailable
  | GridPageOutOfRange
  | GridZeroDivisionError
  | GridPage (paginated_data : list row) (pagination : Pagination).

(** The body of [get] once the data is at hand ("Calculate pagination"). *)
Definition paginate (data : list row) (page page_size : Z) : GridResponse :=
  let total_rows := Z.of_nat (length data) in
  let start_index := ((page - 1) * page_size)%Z in
  let end_index := Z.min (start_index + page_size) total_rows in
  if (start_index >=? total_rows)%Z then GridPageOutOfRange
  else
    let paginated_data := py_slice data start_index end_index in
    if (page_size =? 0)%Z then GridZeroDivisionError
    else
      GridPage paginated_data
        (mkPagination page page_size total_rows
           ((total_rows + page_size - 1) / page_size)%Z
           (end_index <? total_rows)%Z
           (page >? 1)%Z).

Definition DataGridView_get (t : DataTable) (page page_size : Z)
    : GridResponse :=
  match get_data_with_edits t with
  | None => GridFullDataUnavailable
  | Some data => paginate data page page_size
  end.

(** ** [DataGridView.patch]: validated cell edits *)

(** The messages appended to [validation_errors], by the fields that the
    formatted text names. *)
Inductive ValidationError : Type :=
  | InvalidRowIndex (row_index_str : string)
  | RowIndexOutOfRange (row_index : Z)
  | RowEditsNotObject (row_index : Z)
  | UnknownColumn (row_index : Z) (column_name : string)
  | InvalidValue (row_index : Z) (column_name : string) (new_value : json)
      (expected_type : string).

Inductive PatchResponse : Type :=
  | PatchEditsNotObject
  | PatchFullDataUnavailable
  | PatchValidationFailed (errors : list ValidationError)
  | PatchSaveFailed
  | PatchApplied (applied_edits : gmap string row).

(** The database, as far as the views depend on it: whether it takes a
    record that is written.  [DataTable.objects.create(...)] and
    [data_table.save()] raise when it does not. *)
Record Database : Type := mkDatabase {
  create_ok : DataTable -> bool;
  save_ok : DataTable -> bool
}.

Section Patch.

Variable u : Unicode.

(** [str(v)] on an arbitrary decoded value is left abstract: only the fact
    that it yields a string matters below. *)
Variable py_str : json -> string.

Variable database : Database.

(** The [try] block of the type validation, for a value that is not
    [None]; [None] stands for the [ValueError] caught by the handler. *)
Definition coerce (expected_type : string) (new_value : json) : option json :=
  if decide (expected_type = "number") then
    match new_value with
    | JStr s => JFloat <$> PyStr.float_of_str u s
    | _ => if isinstance_int_float new_value then Some new_value else None
    end
  else if decide (expected_type = "boolean") then
    match new_value with
    | JStr s =>
        Some (JBool (bool_decide (PyStr.lower s ∈ ["true"; "1"; "yes"])))
    | _ => if isinstance_bool new_value then Some new_value else None
    end
  else if decide (expected_type = "string") then
    Some (JStr (py_str new_value))
  else Some new_value.

(** One cell of a row: the accepted value, or the error to report. *)
Definition validate_cell (schema : gmap string string) (row_index : Z)
    (column_name : string) (new_value : json) : ValidationError + json :=
  match schema !! column_name with
  | None => inl (UnknownColumn row_index column_name)
  | Some expected_type =>
      match new_value with
      | JNull => inr JNull
      | _ =>
          match coerce expected_type new_value with
          | Some v => inr v
          | None =>
              inl (InvalidValue row_index column_name new_value expected_type)
          end
      end
  end.

(** The body of the inner loop, over [row_edits.items()]. *)
Definition patch_cell (schema : gmap string string) (row_index : Z)
    (acc : row * list ValidationError) (cell : string * json)
    : row * list ValidationError :=
  let '(validated_row_edits, validation_errors) := acc in
  match validate_cell schema row_index cell.1 cell.2 with
  | inl err => (validated_row_edits, validation_errors ++ [err])
  | inr v => (<[cell.1 := v]> validated_row_edits, validation_errors)
  end.

(** The body of the outer loop, over [edits.items()]; [len_data] is
    [len(data)]. *)
Definition patch_row (schema : gmap string string) (len_data : Z)
    (acc : gmap string row * list ValidationError) (entry : string * json)
    : gmap string row * list ValidationError :=
  let '(validated_edits, validation_errors) := acc in
  match PyStr.int_of_str u entry.1 with
  | None => (validated_edits, validation_errors ++ [InvalidRowIndex entry.1])
  | Some row_index =>
      if negb ((0 <=? row_index)%Z && (row_index <? len_data)%Z) then
        (validated_edits, validation_errors ++ [RowIndexOutOfRange row_index])
      else
        match entry.2 with
        | JObj row_edits =>
            let '(validated_row_edits, validation_errors) :=
              fold_left (patch_cell schema row_index) row_edits
                (∅, validation_errors) in
            if (size validated_row_edits =? 0)%nat then
              (validated_edits, validation_errors)
            else
              (<[PyStr.str_of_int row_index := validated_row_edits]>
                 validated_edits,
               validation_errors)
        | _ =>
            (validated_edits,
             validation_errors ++ [RowEditsNotObject row_index])
        end
  end.

Definition validate_edits (schema : gmap string string) (len_data : Z)
    (edits : list (string * json)) : gmap string row * list ValidationError :=
  fold_left (patch_row schema len_data) edits (∅, []).

(** [dict.update]: every key of [new] is set in [current]. *)
Definition dict_update {V} (current new : gmap string V) : gmap string V :=
  new ∪ current.

(** [patch], from the table found for the project on: the table as the
    database holds it afterwards and the response.  When [save()] raises,
    the handler of the last [try] block answers 500 and the stored table
    is as it was. *)
Definition DataGridView_patch (t : DataTable) (edits : json)
    : DataTable * PatchResponse :=
  match edits with
  | JObj edits =>
      let schema := get_schema t in
      match get_data_with_edits t with
      | None => (t, PatchFullDataUnavailable)
      | Some data =>
          let '(validated_edits, validation_errors) :=
            validate_edits schema (Z.of_nat (length data)) edits in
          match validation_errors with
          | _ :: _ => (t, PatchValidationFailed validation_errors)
          | [] =>
              let current_edits := get_edited_data t in
              let current_edits := dict_update current_edits validated_edits in
              let data_table := set_edited_data_json t current_edits in
              if save_ok database data_table then
                (data_table, PatchApplied validated_edits)
              else (t, PatchSaveFailed)
          end
      end
  | _ => (t, PatchEditsNotObject)
  end.

End Patch.

(** ** [DataPreviewView.get]: stride sampling *)

Record Preview : Type := mkPreview {
  pv_data : list row;
  pv_total_rows : Z;
  pv_preview_rows : Z;
  pv_is_sampled : bool
}.

Inductive PreviewResponse : Type :=
  | PreviewFullDataUnavailable
  | PreviewUncaught
  | PreviewOk (body : Preview).

(** [max(1, min(limit, 10000))], with the default 1000 when the parameter
    is absent or is not an integer. *)
Definition preview_limit (u : Unicode) (param : option string) : Z :=
  match param with
  | None => Z.max 1 (Z.min 1000 10000)
  | Some s =>
      match PyStr.int_of_str u s with
      | Some limit => Z.max 1 (Z.min limit 10000)
      | None => 1000%Z
      end
  end.

(** [range(n)]. *)
Definition py_range (n : Z) : list Z := Z.of_nat <$> seq 0 (Z.to_nat n).

(** [l[i]], counting from the end for a negative [i]; [None] stands for
    [IndexError]. *)
Definition py_getitem {A} (l : list A) (i : Z) : option A :=
  if (i <? 0)%Z then
    if (i + Z.of_nat (length l) <? 0)%Z then None
    else l !! Z.to_nat (i + Z.of_nat (length l))
  else l !! Z.to_nat i.

(** [int(i * step)]. *)
Definition sample_index (step : spec_float) (i : Z) : option Z :=
  PyFloat.to_int (PyFloat.mul (PyFloat.of_int i) step).

(** The body of the sampling loop; [None] stands for an exception that
    leaves the view. *)
Definition preview_step (data : list row) (total_rows : Z)
    (step : spec_float) (acc : option (list row)) (i : Z)
    : option (list row) :=
  preview_data ← acc;
  index ← sample_index step i;
  if (index <? total_rows)%Z then
    x ← py_getitem data index; Some (preview_data ++ [x])
  else Some preview_data.

(** The part of [get] that follows the lookup of the data. *)
Definition preview (data : list row) (limit : Z) : PreviewResponse :=
  let total_rows := Z.of_nat (length data) in
  let is_sampled := (total_rows >? limit)%Z in
  let preview_data :=
    if is_sampled then
      step ← PyFloat.truediv total_rows limit;
      fold_left (preview_step data total_rows step) (py_range limit) (Some [])
    else Some data in
  match preview_data with
  | None => PreviewUncaught
  | Some preview_data =>
      PreviewOk
        (mkPreview preview_data total_rows
           (Z.of_nat (length preview_data)) is_sampled)
  end.

Definition DataPreviewView_get (u : Unicode) (t : DataTable)
    (limit_param : option string) : PreviewResponse :=
  let limit := preview_limit u limit_param in
  match get_data_with_edits t with
  | None => PreviewFullDataUnavailable
  | Some data => preview data limit
  end.

(** ** [DataIngestionView.post] *)

(** A cell of a parsed data frame, by the tests the sanitising loop applies
    to it: a missing marker, a timestamp (with its ISO form), a boxed NumPy
    scalar (with the outcome of [item()], [None] when it raises), or a plain
    Python value. *)
Inductive raw_value : Type :=
  | RawMissing
  | RawTimestamp (isoformat : string)
  | RawBoxed (item : option json)
  | RawPlain (v : json).

(** [pd.isna(value)]. *)
Definition isna (value : raw_value) : bool :=
  match value with
  | RawMissing => true
  | RawPlain JNull => true
  | RawPlain (JFloat f) | RawBoxed (Some (JFloat f)) => PyFloat.is_nan f
  | _ => false
  end.

(** What the loop leaves in [record[key]]. *)
Definition sanitize_value (value : raw_value) : raw_value :=
  if isna value then RawPlain JNull
  else
    match value with
    | RawTimestamp iso => RawPlain (JStr iso)
    | RawBoxed (Some v) => RawPlain v
    | RawBoxed None => RawPlain JNull
    | _ => value
    end.

(** The stored form of a sanitised cell: every cell is plain by then, see
    [sanitize_value_plain]. *)
Definition stored_value (value : raw_value) : json :=
  match value with
  | RawPlain v => v
  | _ => JNull
  end.

Definition sanitize_record (record : gmap string raw_value) : row :=
  (fun value => stored_value (sanitize_value value)) <$> record.

Record UploadedFile : Type := mkUploadedFile {
  file_id : Z;
  (** [Path(filename).suffix.lower()] *)
  file_ext : string
}.

Record ParsedData : Type := mkParsedData {
  pd_schema : gmap string string;
  pd_num_rows : Z;
  pd_sample_data : list row
}.

Inductive ParseOutcome : Type :=
  | ParseOk (parsed_data : ParsedData)
  | ParseValueError
  | ParseException.

(** The collaborators of ingestion: the parser and the two pandas readers
    (at most 10000 rows; [None] when the call raises). *)
Record Collaborators : Type := mkCollaborators {
  parse_file : UploadedFile -> ParseOutcome;
  read_csv : UploadedFile -> option (list (gmap string raw_value));
  read_excel : UploadedFile -> option (list (gmap string raw_value))
}.

Inductive IngestResponse : Type :=
  | Ingest200 (t : DataTable)
  | Ingest201 (t : DataTable)
  | Ingest400
  | Ingest500.

Section Ingestion.

Variable env : Collaborators.

Variable database : Database.

(** The [try] block shared by the two paths: [None] when the block raises
    or the extension has no reader, the sanitised records otherwise. *)
Definition load_full_data (uploaded_file : UploadedFile)
    : option (list row) :=
  let df :=
    if decide (file_ext uploaded_file = ".csv") then
      Some (read_csv env uploaded_file)
    else if decide (file_ext uploaded_file = ".xlsx") then
      Some (read_excel env uploaded_file)
    else None in
  match df with
  | Some (Some full_data) => Some (sanitize_record <$> full_data)
  | _ => None
  end.

Definition table_matches (project_id : Z) (uploaded_file : UploadedFile)
    (t : DataTable) : Prop :=
  project t = project_id /\ source_file t = file_id uploaded_file.

#[global] Instance table_matches_dec p f t : Decision (table_matches p f t).
Proof. unfold table_matches. apply _. Defined.

(** [post], from the uploaded file on: the stored tables afterwards and
    the response.  When [save()] raises in the backfill, the handler prints
    the failure and the response still shows the table with the rows that
    were loaded, which the database does not hold; when [create] raises,
    the answer is 500 and no table is added. *)
Definition DataIngestionView_post (db : list DataTable) (project_id : Z)
    (uploaded_file : UploadedFile) : list DataTable * IngestResponse :=
  match list_find (table_matches project_id uploaded_file) db with
  | Some (i, existing_table) =>
      if decide (full_data_json existing_table = None
                 /\ (num_rows existing_table <= 10000)%Z) then
        match load_full_data uploaded_file with
        | Some full_data =>
            let existing_table :=
              set_full_data_json existing_table (Some full_data) in
            if save_ok database existing_table then
              (<[i := existing_table]> db, Ingest200 existing_table)
            else (db, Ingest200 existing_table)
        | None => (db, Ingest200 existing_table)
        end
      else (db, Ingest200 existing_table)
  | None =>
      match parse_file env uploaded_file with
      | ParseValueError => (db, Ingest400)
      | ParseException => (db, Ingest500)
      | ParseOk parsed_data =>
          let full_data :=
            if (pd_num_rows parsed_data <=? 10000)%Z then
              load_full_data uploaded_file
            else None in
          let data_table :=
            mkDataTable project_id (file_id uploaded_file)
              (pd_schema parsed_data) (pd_num_rows parsed_data)
              (pd_sample_data parsed_data) full_data ∅ in
          if create_ok database data_table then
            (db ++ [data_table], Ingest201 data_table)
          else (db, Ingest500)
      end
  end.

End Ingestion.
(** ** The lookups every view starts with *)

(** A [Project] record, by the fields the views read. *)
Record Project : Type := mkProject {
  project_pk : Z;
  owner : Z
}.

(** What a view answers before it reaches its own work: the two 404
    responses of the lookups, an exception that leaves the view, or the
    answer of the view proper. *)
Inductive Response (A : Type) : Type :=
  | ProjectNotFound
  | NotFound
  | Uncaught
  | Answer (a : A).

Arguments ProjectNotFound {A}.
Arguments NotFound {A}.
Arguments Uncaught {A}.
Arguments Answer {A} a.

(** [Project.objects.get(id=project_id, owner=request.user)]; [None]
    stands for [Project.DoesNotExist].  The id is the primary key, so at
    most one record matches. *)
Definition get_project (projects : list Project) (project_id user : Z)
    : option Project :=
  snd <$> list_find (fun p => project_pk p = project_id /\ owner p = user)
            projects.

(** [DataTable.objects.filter(project=project).first()], with the position
    of the record. *)
Definition first_table (tables : list DataTable) (p : Project)
    : option (nat * DataTable) :=
  list_find (fun t => project t = project_pk p) tables.

(** [int(request.query_params.get(name, default))]; [None] stands for the
    [ValueError] of [int]. *)
Definition int_param (u : Unicode) (query_params : gmap string string)
    (name : string) (default : Z) : option Z :=
  match query_params !! name with
  | Some s => PyStr.int_of_str u s
  | None => Some default
  end.

(** [DataGridView.get], whole. *)
Definition DataGridView_get_request (u : Unicode) (projects : list Project)
    (tables : list DataTable) (user project_id : Z)
    (query_params : gmap string string) : Response GridResponse :=
  match get_project projects project_id user with
  | None => ProjectNotFound
  | Some p =>
      match first_table tables p with
      | None => NotFound
      | Some (_, data_table) =>
          match int_param u query_params "page" 1 with
          | None => Uncaught
          | Some page =>
              match int_param u query_params "page_size" 100 with
              | None => Uncaught
              | Some page_size =>
                  Answer (DataGridView_get data_table page page_size)
              end
          end
      end
  end.

(** [DataPreviewView.get], whole. *)
Definition DataPreviewView_get_request (u : Unicode)
    (projects : list Project) (tables : list DataTable) (user project_id : Z)
    (query_params : gmap string string) : Response PreviewResponse :=
  match get_project projects project_id user with
  | None => ProjectNotFound
  | Some p =>
      match first_table tables p with
      | None => NotFound
      | Some (_, data_table) =>
          Answer (DataPreviewView_get u data_table (query_params !! "limit"))
      end
  end.

Section PatchRequest.

Variable u : Unicode.
Variable py_str : json -> string.
Variable database : Database.

(** [DataGridView.patch], whole: [data] is the decoded body, a dict;
    [data_table.save()] writes the record back in its place. *)
Definition DataGridView_patch_request (projects : list Project)
    (tables : list DataTable) (user project_id : Z) (data : gmap string json)
    : list DataTable * Response PatchResponse :=
  match get_project projects project_id user with
  | None => (tables, ProjectNotFound)
  | Some p =>
      match first_table tables p with
      | None => (tables, NotFound)
      | Some (i, data_table) =>
          let edits := default (JObj []) (data !! "edits") in
          let '(data_table, response) :=
            DataGridView_patch u py_str database data_table edits in
          match response with
          | PatchApplied _ => (<[i := data_table]> tables, Answer response)
          | _ => (tables, Answer response)
          end
      end
  end.

End PatchRequest.

(** An [UploadedFile] record as ingestion looks it up: the file, the
    project it was uploaded to, and [created_at]. *)
Record FileRecord : Type := mkFileRecord {
  fr_file : UploadedFile;
  fr_project : Z;
  fr_created_at : Z
}.

(** [UploadedFile.objects.get(id=uploaded_file_id, project=project)]. *)
Definition get_uploaded_file (files : list FileRecord)
    (uploaded_file_id project_id : Z) : option FileRecord :=
  snd <$> list_find (fun f => file_id (fr_file f) = uploaded_file_id
                              /\ fr_project f = project_id) files.

(** The step of a scan for the record that
    [order_by("-created_at").first()] yields. *)
Definition later_file (project_id : Z) (best : option FileRecord)
    (f : FileRecord) : option FileRecord :=
  if decide (fr_project f = project_id) then
    match best with
    | Some b => if (fr_created_at b <? fr_created_at f)%Z then Some f
                else Some b
    | None => Some f
    end
  else best.

(** [UploadedFile.objects.filter(project=project)
      .order_by("-created_at").first()]: a file of the project with the
    greatest [created_at]; which one of several with the same time is
    left to the database. *)
Definition latest_uploaded_file (files : list FileRecord) (project_id : Z)
    : option FileRecord :=
  fold_left (later_file project_id) files None.

Section IngestRequest.

Variable env : Collaborators.
Variable database : Database.

(** [DataIngestionView.post], whole, for a body whose [uploaded_file_id]
    is an integer or is absent ([None]); [if uploaded_file_id:] takes 0 as
    absent. *)
Definition DataIngestionView_post_request (projects : list Project)
    (files : list FileRecord) (db : list DataTable) (user project_id : Z)
    (uploaded_file_id : option Z)
    : list DataTable * Response IngestResponse :=
  match get_project projects project_id user with
  | None => (db, ProjectNotFound)
  | Some p =>
      let uploaded_file :=
        match uploaded_file_id with
        | Some id =>
            if (id =? 0)%Z then latest_uploaded_file files (project_pk p)
            else get_uploaded_file files id (project_pk p)
        | None => latest_uploaded_file files (project_pk p)
        end in
      match uploaded_file with
      | None => (db, NotFound)
      | Some uploaded_file =>
          let '(db, response) :=
            DataIngestionView_post env database db (project_pk p)
              (fr_file uploaded_file) in
          (db, Answer response)
      end
  end.

End IngestRequest.

(** ** [FileUploadView.post] *)

(** The view filters the file name character by character, so the
    strings of an upload are kept as the lists of their code points. *)
Abbreviation text := (list N).

(** The settings the view reads. *)
Record Settings : Type := mkSettings {
  MAX_FILE_SIZE : Z;
  ALLOWED_FILE_EXTENSIONS : list text
}.

(** [request.FILES["file"]]: name, size, content type ([None] when the
    client sent none) and content. *)
Record FileUpload : Type := mkFileUpload {
  upload_name : text;
  upload_size : Z;
  upload_content_type : option text;
  upload_content : string
}.

(** The [UploadedFile] record that the view creates. *)
Record StoredUpload : Type := mkStoredUpload {
  up_project : Z;
  up_filename : text;
  up_content_type : text;
  up_size_bytes : Z;
  up_storage_key : text;
  up_checksum : string
}.

Inductive UploadResponse : Type :=
  | UploadNoFile
  | UploadTooLarge (file_size : Z)
  | UploadTypeNotAllowed (file_ext : text)
  | UploadSaveFailed
  | UploadCreated (uploaded_file_obj : StoredUpload).

Section Upload.

Variable u : Unicode.

(** [c.isalnum()]: ASCII digits and letters, and outside ASCII what the
    Unicode tables say. *)
Definition is_alnum (c : N) : bool :=
  if (c <? 128)%N then
    ((48 <=? c) && (c <=? 57) || (65 <=? c) && (c <=? 90)
     || (97 <=? c) && (c <=? 122))%N
  else alnum_wide u c.

(** [c.isalnum() or c in "._-"]. *)
Definition is_safe_char (c : N) : bool :=
  is_alnum c || bool_decide (c ∈ PyStr.codes "._-").

(** ["".join(c for c in original_filename if c.isalnum() or c in "._-")]. *)
Definition safe_filename (original_filename : text) : text :=
  List.filter is_safe_char original_filename.

(** [f"projects/{project_id}/files/{timestamp}_{safe_filename}"]. *)
Definition storage_path (project_id timestamp : Z) (original_filename : text)
    : text :=
  PyStr.codes "projects/" ++ PyStr.codes (PyStr.str_of_int project_id)
  ++ PyStr.codes "/files/" ++ PyStr.codes (PyStr.str_of_int timestamp)
  ++ PyStr.codes "_" ++ safe_filename original_filename.

Variable settings : Settings.

(** [Path(name).suffix.lower()], [hashlib.sha256(content).hexdigest()],
    [default_storage.save(path, content)] and
    [UploadedFile.objects.create(...)] are left abstract; [save] yields the
    path under which the content was stored, [None] when it raises, and
    [create] tells whether the database took the record. *)
Variable path_suffix_lower : text -> text.
Variable sha256_hexdigest : string -> string.
Variable storage_save : text -> string -> option text.
Variable create_upload : StoredUpload -> bool.

(** [post], from the project on; [timestamp] is [int(time.time())].  The
    removal of a stored file in the exception handler is not visible
    here. *)
Definition FileUploadView_post (files : list StoredUpload)
    (project_id timestamp : Z) (file : option FileUpload)
    : list StoredUpload * UploadResponse :=
  match file with
  | None => (files, UploadNoFile)
  | Some uploaded_file =>
      let original_filename := upload_name uploaded_file in
      let file_size := upload_size uploaded_file in
      if (file_size >? MAX_FILE_SIZE settings)%Z then
        (files, UploadTooLarge file_size)
      else
        let file_ext := path_suffix_lower original_filename in
        if decide (file_ext ∈ ALLOWED_FILE_EXTENSIONS settings) then
          let content_type :=
            default [] (upload_content_type uploaded_file) in
          let file_content := upload_content uploaded_file in
          let checksum := sha256_hexdigest file_content in
          match storage_save
                  (storage_path project_id timestamp original_filename)
                  file_content with
          | Some file_path =>
              let uploaded_file_obj :=
                mkStoredUpload project_id original_filename
                  (if decide (content_type = []) then
                     PyStr.codes "application/" ++ drop 1 file_ext
                   else content_type)
                  file_size file_path checksum in
              if create_upload uploaded_file_obj then
                (files ++ [uploaded_file_obj],
                 UploadCreated uploaded_file_obj)
              else (files, UploadSaveFailed)
          | None => (files, UploadSaveFailed)
          end
        else (files, UploadTypeNotAllowed file_ext)
  end.

End Upload.


(** ** Definitions used to state the properties *)

(** The spec's [ceil(totalRows / pageSize)]. *)
Definition ceil_div (a b : Z) : Z := (- ((- a) / b))%Z.

(** The pages [1 .. total_pages]. *)
Definition page_numbers (total_pages : Z) : list Z :=
  (fun i => (Z.of_nat i + 1)%Z) <$> seq 0 (Z.to_nat total_pages).

(** The rows a response carries. *)
Definition page_rows (r : GridResponse) : list row :=
  match r with
  | GridPage paginated_data _ => paginated_data
  | _ => []
  end.

(** "JSON-safe (null, bool, number, or string)": a scalar, and when a float
    a finite one (NaN and the infinities have no JSON form). *)
Definition json_safe_scalar (v : json) : bool :=
  match v with
  | JNull | JBool _ | JInt _ | JStr _ => true
  | JFloat f => PyFloat.is_finite f
  | JArr _ | JObj _ => false
  end.

(** An instance of [str] for the examples: exact on strings, booleans,
    integers and [None]; the [repr] of floats and containers is not
    modelled. *)
Definition str_plain (v : json) : string :=
  match v with
  | JStr s => s
  | JBool true => "True"
  | JBool false => "False"
  | JInt z => PyStr.str_of_int z
  | JNull => "None"
  | _ => ""
  end.

(** An instance of the built-ins outside ASCII for the examples, which
    stay within ASCII: nothing is read there. *)
Definition no_wide : Unicode :=
  mkUnicode (fun _ => None) (fun _ => None) (fun _ => false).

(** The floats in the cells of a row, and of a table. *)
Definition row_floats (r : row) : list spec_float :=
  cv ← map_to_list r;
  match cv.2 with JFloat f => [f] | _ => [] end.

Definition table_floats (t : DataTable) : list spec_float :=
  (kr ← map_to_list (edited_data_json t); row_floats kr.2)
  ++ (default [] (full_data_json t) ≫= row_floats)
  ++ (sample_json t ≫= row_floats).

(** A database for the examples: its JSON columns take every record but
    one with a cell that is NaN or an infinity, which have no JSON form. *)
Definition json_columns : Database :=
  mkDatabase
    (fun t => forallb PyFloat.is_finite (table_floats t))
    (fun t => forallb PyFloat.is_finite (table_floats t)).

Section ExpectedErrors.

Variable u : Unicode.
Variable py_str : json -> string.
Variable schema : gmap string string.
Variable len_data : Z.

(** An invalid cell of a request: "unparseable or out-of-range row index,
    unknown column, or type-incompatible value". *)
Inductive invalid_cell (row_index_str column_name : string)
    (new_value : json) : Prop :=
  | invalid_unparseable_row :
      PyStr.int_of_str u row_index_str = None ->
      invalid_cell row_index_str column_name new_value
  | invalid_row_out_of_range (row_index : Z) :
      PyStr.int_of_str u row_index_str = Some row_index ->
      ~ (0 <= row_index < len_data)%Z ->
      invalid_cell row_index_str column_name new_value
  | invalid_unknown_column :
      schema !! column_name = None ->
      invalid_cell row_index_str column_name new_value
  | invalid_incompatible_value (expected_type : string) :
      schema !! column_name = Some expected_type ->
      new_value <> JNull ->
      coerce u py_str expected_type new_value = None ->
      invalid_cell row_index_str column_name new_value.

(** The error owed to one cell of row [row_index], if any: the column is
    unknown, or the value is not null and the declared type does not admit
    it. *)
Definition cell_error (row_index : Z) (cell : string * json)
    : option ValidationError :=
  match schema !! cell.1 with
  | None => Some (UnknownColumn row_index cell.1)
  | Some expected_type =>
      match cell.2, coerce u py_str expected_type cell.2 with
      | JNull, _ | _, Some _ => None
      | _, None =>
          Some (InvalidValue row_index cell.1 cell.2 expected_type)
      end
  end.

(** The errors owed to the cells of one row, in request order. *)
Definition cell_errors (row_index : Z) (row_edits : list (string * json))
    : list ValidationError :=
  omap (cell_error row_index) row_edits.

(** The errors owed to one entry of the request: one error for a key that
    is no row index, for an index out of range and for edits that are no
    object, and otherwise the errors of the cells. *)
Definition row_errors (entry : string * json) : list ValidationError :=
  match PyStr.int_of_str u entry.1 with
  | None => [InvalidRowIndex entry.1]
  | Some row_index =>
      if decide (0 <= row_index < len_data)%Z then
        match entry.2 with
        | JObj row_edits => cell_errors row_index row_edits
        | _ => [RowEditsNotObject row_index]
        end
      else [RowIndexOutOfRange row_index]
  end.

(** The error that answers for one cell of the request: that of its row
    when the key is no row index or is out of range, its own otherwise. *)
Definition error_of_cell (row_index_str column_name : string)
    (new_value : json) : option ValidationError :=
  match PyStr.int_of_str u row_index_str with
  | None => Some (InvalidRowIndex row_index_str)
  | Some row_index =>
      if decide (0 <= row_index < len_data)%Z then
        cell_error row_index (column_name, new_value)
      else Some (RowIndexOutOfRange row_index)
  end.

End ExpectedErrors.

(** The table of the examples: two numeric columns, two rows, no edits. *)
Definition demo_table : DataTable :=
  mkDataTable 1 1
    {[ "age" := "number"; "height" := "number" ]} 2 []
    (Some [ {[ "age" := JInt 30; "height" := JInt 170 ]};
            {[ "age" := JInt 25; "height" := JInt 180 ]} ])
    ∅.

(** A table with a column declared [date]. *)
Definition dated_table : DataTable :=
  mkDataTable 1 1 {[ "when" := "date" ]} 1 []
    (Some [ {[ "when" := JStr "2024-01-01" ]} ]) ∅.

(** A request with a single cell. *)
Definition one_cell (row_index_str column_name : string) (new_value : json)
    : json :=
  JObj [(row_index_str, JObj [(column_name, new_value)])].

(** [2^52]: a normal binary64 number [x] has a unit in the last place of at
    most [x / two52]. *)
Abbreviation two52 := (4503599627370496%R).

(** The real number that a positive finite float stands for. *)
Definition F2R (m : positive) (e : Z) : R :=
  (IZR (Z.pos m) * powerRZ 2 e)%R.

(** The spec's index for the [i]-th sample: [floor(i * (n / limit))] with
    the real-valued quotient, that is [floor(i * n / limit)]. *)
Definition exact_floor_index (n limit i : Z) : Z := (i * n / limit)%Z.

(** Rows that carry their own position, for the examples. *)
Definition numbered_rows (n : Z) : list row :=
  (fun i => {[ "id" := JInt i ]}) <$> py_range n.

(** Collaborators for the examples: a parser that reports two rows and a
    CSV reader that yields them, with a boxed scalar and a missing cell. *)
Definition demo_env : Collaborators :=
  mkCollaborators
    (fun _ =>
       ParseOk
         (mkParsedData {[ "age" := "number"; "height" := "number" ]} 2 []))
    (fun _ =>
       Some [ {[ "age" := RawBoxed (Some (JInt 30));
                 "height" := RawPlain (JInt 170) ]};
              {[ "age" := RawMissing; "height" := RawPlain (JInt 180) ]} ])
    (fun _ => None).

Definition demo_file : UploadedFile := mkUploadedFile 1 ".csv".

(** The table that ingesting [demo_file] creates. *)
Definition demo_ingested : DataTable :=
  mkDataTable 1 1 {[ "age" := "number"; "height" := "number" ]} 2 []
    (Some [ {[ "age" := JInt 30; "height" := JInt 170 ]};
            {[ "age" := JNull; "height" := JInt 180 ]} ])
    ∅.
(** ** Further definitions used to state properties *)

(** What a stored cell of a column of the declared type looks like: null,
    or a value of the Python type the validation leaves there. *)
Definition fits_type (expected_type : string) (v : json) : bool :=
  match v with
  | JNull => true
  | _ =>
      if decide (expected_type = "number") then isinstance_int_float v
      else if decide (expected_type = "boolean") then isinstance_bool v
      else if decide (expected_type = "string") then isinstance_str v
      else true
  end.

(** The cells of an overlay row: columns of the schema, typed values. *)
Definition row_edits_ok (schema : gmap string string) (row_edits : row)
    : Prop :=
  forall column_name v,
    row_edits !! column_name = Some v ->
    exists expected_type,
      schema !! column_name = Some expected_type
      /\ fits_type expected_type v = true.

(** An overlay for [len_data] rows: every key is the decimal form of a row
    index in range, every entry holds at least one cell, and the cells are
    as [row_edits_ok] says. *)
Definition overlay_ok (schema : gmap string string) (len_data : Z)
    (overlay : gmap string row) : Prop :=
  forall key row_edits,
    overlay !! key = Some row_edits ->
    (exists row_index,
       key = PyStr.str_of_int row_index /\ (0 <= row_index < len_data)%Z)
    /\ row_edits <> ∅
    /\ row_edits_ok schema row_edits.

(** A JSON scalar: null, a boolean, a number or a string. *)
Definition is_scalar (v : json) : bool :=
  match v with
  | JArr _ | JObj _ => false
  | _ => true
  end.

(** A database that refuses a record whose overlay holds a float that is
    NaN or infinite, as a JSON column does. *)
Definition refuses_non_finite (database : Database) : Prop :=
  forall t key row_edits column_name f,
    edited_data_json t !! key = Some row_edits ->
    row_edits !! column_name = Some (JFloat f) ->
    PyFloat.is_finite f = false ->
    save_ok database t = false.

(** A parsed cell that is a missing marker, a timestamp, or a boxed or
    plain scalar other than an infinity. *)
Definition raw_finite_scalar (value : raw_value) : bool :=
  match value with
  | RawMissing | RawTimestamp _ | RawBoxed None => true
  | RawBoxed (Some v) | RawPlain v =>
      match v with
      | JArr _ | JObj _ | JFloat (S754_infinity _) => false
      | _ => true
      end
  end.

(** The pair that identifies a table: project and source file. *)
Definition table_key (t : DataTable) : Z * Z := (project t, source_file t).

(** Full rows are stored only for tables within the cap of 10 000 rows. *)
Definition within_cap (t : DataTable) : Prop :=
  is_Some (full_data_json t) -> (num_rows t <= 10000)%Z.

(** Collaborators for the examples: a parser that reports 20 000 rows, of
    which it keeps one as the sample. *)
Definition demo_env_large : Collaborators :=
  mkCollaborators
    (fun _ =>
       ParseOk
         (mkParsedData {[ "age" := "number" ]} 20000
            [ {[ "age" := JInt 30 ]} ]))
    (fun _ => None)
    (fun _ => None).

(** The table that ingesting [demo_file] creates with them. *)
Definition demo_sample_only : DataTable :=
  mkDataTable 1 1 {[ "age" := "number" ]} 20000 [ {[ "age" := JInt 30 ]} ]
    None ∅.

(** The HTTP status of an ingestion response. *)
Definition ingest_status (response : IngestResponse) : Z :=
  match response with
  | Ingest200 _ => 200
  | Ingest201 _ => 201
  | Ingest400 => 400
  | Ingest500 => 500
  end.

(** A stored upload that respects the limits of the settings. *)
Definition upload_within_limits (settings : Settings)
    (path_suffix_lower : text -> text) (r : StoredUpload) : Prop :=
  (up_size_bytes r <= MAX_FILE_SIZE settings)%Z
  /\ path_suffix_lower (up_filename r) ∈ ALLOWED_FILE_EXTENSIONS settings
  /\ up_content_type r <> [].

(** Settings for the examples: 10 MiB, CSV and Excel files. *)
Definition demo_settings : Settings :=
  mkSettings 10485760 [PyStr.codes ".csv"; PyStr.codes ".xlsx"].


(** * Properties *)

(** ** Binary64 rounding

    What the sampling needs of [SFdiv] and [SFmul]: on normal numbers the
    result is within one unit in the last place of the exact value. *)

Section RoundingFacts.

Local Open Scope Z_scope.

(** *** The number of binary digits *)

Lemma digits2_pos_size (p : positive) : digits2_pos p = Pos.size p.
Proof. induction p; simpl; congruence. Qed.

Lemma digits2_bounds (p : positive) :
  2 ^ (Z.pos (digits2_pos p) - 1) <= Z.pos p < 2 ^ Z.pos (digits2_pos p).
Proof.
  rewrite digits2_pos_size.
  pose proof (Pos.size_gt p) as Hgt. pose proof (Pos.size_le p) as Hle.
  apply Pos2Z.pos_lt_pos in Hgt. apply Pos2Z.pos_le_pos in Hle.
  rewrite Pos2Z.inj_pow in Hgt, Hle.
  assert (E : 2 ^ Z.pos (Pos.size p) = 2 * 2 ^ (Z.pos (Pos.size p) - 1)).
  { rewrite <- Z.pow_succ_r by lia. f_equal. lia. }
  lia.
Qed.

Lemma Zdigits2_bounds (m : Z) :
  0 < m -> 2 ^ (Zdigits2 m - 1) <= m < 2 ^ Zdigits2 m.
Proof. destruct m as [|p|p]; try lia. intros _. apply digits2_bounds. Qed.

Lemma Zdigits2_pos (m : Z) : 0 < m -> 0 < Zdigits2 m.
Proof. destruct m; simpl; lia. Qed.

(** A number below [2^k] has at most [k] digits. *)
Lemma Zdigits2_le (m k : Z) : 0 < m -> m < 2 ^ k -> Zdigits2 m <= k.
Proof.
  intros Hm Hk. pose proof (Zdigits2_bounds m Hm) as [Hlo _].
  pose proof (Zdigits2_pos m Hm).
  destruct (Z.le_gt_cases (Zdigits2 m) k) as [|Hgt]; [done|].
  destruct (Z.le_gt_cases 0 k) as [|Hneg].
  - assert (2 ^ k <= 2 ^ (Zdigits2 m - 1)) by (apply Z.pow_le_mono_r; lia).
    lia.
  - rewrite Z.pow_neg_r in Hk by lia. lia.
Qed.

(** A number from [2^k] on has more than [k] digits. *)
Lemma Zdigits2_gt (m k : Z) : 0 < m -> 2 ^ k <= m -> k < Zdigits2 m.
Proof.
  intros Hm Hk. pose proof (Zdigits2_bounds m Hm) as [_ Hhi].
  pose proof (Zdigits2_pos m Hm).
  destruct (Z.lt_ge_cases k (Zdigits2 m)) as [|Hge]; [done|].
  assert (2 ^ Zdigits2 m <= 2 ^ k) by (apply Z.pow_le_mono_r; lia). lia.
Qed.

Lemma Zdigits2_unique (m k : Z) :
  0 < m -> 2 ^ (k - 1) <= m < 2 ^ k -> Zdigits2 m = k.
Proof.
  intros Hm [Hlo Hhi].
  pose proof (Zdigits2_le m k Hm Hhi). pose proof (Zdigits2_gt m _ Hm Hlo).
  lia.
Qed.

(** *** Shifting the mantissa right *)

Lemma shr_1_m (r : shr_record) :
  0 <= shr_m r -> shr_m (shr_1 r) = shr_m r / 2.
Proof.
  destruct r as [m rb sb]. simpl. intros Hm.
  destruct m as [|[p|p|]|p]; cbn [shr_m]; try lia; try done.
  - apply Z.div_unique with 1; lia.
  - apply Z.div_unique with 0; lia.
Qed.

Lemma pow2_xO (p : positive) : 2 ^ Z.pos p~0 = 2 ^ Z.pos p * 2 ^ Z.pos p.
Proof. rewrite <- Z.pow_add_r by lia. f_equal. lia. Qed.

Lemma pow2_xI (p : positive) :
  2 ^ Z.pos p~1 = 2 * (2 ^ Z.pos p * 2 ^ Z.pos p).
Proof. rewrite <- Z.pow_add_r, <- Z.pow_succ_r by lia. f_equal. lia. Qed.

Lemma iter_shr_1_m (p : positive) (r : shr_record) :
  0 <= shr_m r ->
  shr_m (SpecFloat.iter_pos shr_1 p r) = shr_m r / 2 ^ Z.pos p.
Proof.
  revert r. induction p as [p IH|p IH|]; intros r Hr; simpl.
  - assert (H1 : 0 <= shr_m (shr_1 r))
      by (rewrite shr_1_m by done; apply Z.div_pos; lia).
    assert (H2 : 0 <= shr_m (SpecFloat.iter_pos shr_1 p (shr_1 r))).
    { rewrite IH by done. apply Z.div_pos; lia. }
    rewrite IH, IH, shr_1_m by done.
    rewrite !Z.div_div by lia. by rewrite pow2_xI.
  - assert (H2 : 0 <= shr_m (SpecFloat.iter_pos shr_1 p r)).
    { rewrite IH by done. apply Z.div_pos; lia. }
    rewrite IH, IH by done. rewrite !Z.div_div by lia. by rewrite pow2_xO.
  - rewrite shr_1_m by done. by rewrite Z.pow_1_r.
Qed.

Lemma shr_record_of_loc_m (m : Z) (l : location) :
  shr_m (shr_record_of_loc m l) = m.
Proof. by destruct l as [|[]]. Qed.

(** In the normal range [shr_fexp] drops the digits beyond the 53rd; a
    mantissa of exactly 53 digits is left alone. *)
Lemma shr_fexp_spec (m e : Z) (l : location) :
  0 < m -> 53 <= Zdigits2 m -> -1074 <= Zdigits2 m + e - 53 ->
  exists r,
    shr_fexp 53 1024 m e l = (r, e + (Zdigits2 m - 53))
    /\ shr_m r = m / 2 ^ (Zdigits2 m - 53)
    /\ (Zdigits2 m = 53 -> r = shr_record_of_loc m l).
Proof.
  intros Hm Hd Hnorm. unfold shr_fexp, fexp, emin.
  replace (Z.max (Zdigits2 m + e - 53) (3 - 1024 - 53) - e)
    with (Zdigits2 m - 53) by lia.
  unfold shr. destruct (Zdigits2 m - 53) as [|p|p] eqn:E; [| |lia].
  - eexists. split; [by rewrite Z.add_0_r|].
    rewrite shr_record_of_loc_m. by rewrite Z.pow_0_r, Z.div_1_r.
  - eexists. split; [done|]. split; [|lia].
    rewrite iter_shr_1_m by (rewrite shr_record_of_loc_m; lia).
    by rewrite shr_record_of_loc_m.
Qed.

(** *** Rounding *)

Lemma round_nearest_even_cases (m : Z) (l : location) :
  round_nearest_even m l = m \/ round_nearest_even m l = m + 1.
Proof. destruct l as [|[]]; simpl; auto. destruct (Z.even m); auto. Qed.

(** Rounding a positive number [x], located by [lx] in
    [[mx * 2^ex, (mx + 1) * 2^ex)], whose mantissa has at least 53 digits
    and which neither underflows nor overflows: the result is a normal
    number [m * 2^e] with [(m - 1) * 2^e <= mx * 2^ex] and
    [(mx + 1) * 2^ex <= (m + 1) * 2^e], hence within [2^e] of [x]. *)
Lemma round_aux_faithful (s : bool) (mx ex : Z) (lx : location) :
  0 < mx -> 53 <= Zdigits2 mx ->
  -1074 <= Zdigits2 mx + ex - 53 -> Zdigits2 mx + ex <= 1023 ->
  exists m e,
    binary_round_aux 53 1024 s mx ex lx = S754_finite s m e
    /\ 2 ^ 52 <= Z.pos m < 2 ^ 53
    /\ ex <= e <= Zdigits2 mx + ex - 52
    /\ (Z.pos m - 1) * 2 ^ (e - ex) <= mx
    /\ mx + 1 <= (Z.pos m + 1) * 2 ^ (e - ex).
Proof.
  intros Hmx Hd Hnorm Hov.
  set (n := Zdigits2 mx - 53). set (m' := mx / 2 ^ n).
  pose proof (Zdigits2_bounds mx Hmx) as [Hlo Hhi].
  assert (Hn : 0 <= n) by (subst n; lia).
  assert (Hp : 0 < 2 ^ n) by (apply Z.pow_pos_nonneg; lia).
  assert (Hlo' : 2 ^ 52 * 2 ^ n <= mx).
  { rewrite <- Z.pow_add_r by lia.
    by replace (52 + n) with (Zdigits2 mx - 1) by (subst n; lia). }
  assert (Hhi' : mx < 2 ^ 53 * 2 ^ n).
  { rewrite <- Z.pow_add_r by lia.
    by replace (53 + n) with (Zdigits2 mx) by (subst n; lia). }
  assert (Hdm := Z.div_mod mx (2 ^ n) ltac:(lia)).
  assert (Hmod := Z.mod_pos_bound mx (2 ^ n) Hp).
  fold m' in Hdm.
  assert (Hm' : 2 ^ 52 <= m' < 2 ^ 53) by (split; nia).
  unfold binary_round_aux.
  destruct (shr_fexp_spec mx ex lx Hmx Hd Hnorm) as (r1 & -> & Hr1 & _).
  fold n in Hr1 |- *. fold m' in Hr1. rewrite Hr1.
  set (m'' := round_nearest_even m' (loc_of_shr_record r1)).
  assert (Hm'' : m'' = m' \/ m'' = m' + 1)
    by apply round_nearest_even_cases.
  destruct (Z.eq_dec m'' (2 ^ 53)) as [Hc|Hc].
  - (* the mantissa is rounded up to [2^53]: one more shift *)
    assert (Hd2 : Zdigits2 m'' = 54)
      by (apply Zdigits2_unique; rewrite Hc; lia).
    destruct (shr_fexp_spec m'' (ex + n) loc_Exact)
      as (r2 & -> & Hr2 & _); [lia..|].
    rewrite Hr2, Hd2, Hc.
    change (2 ^ 53 / 2 ^ (54 - 53)) with (Z.pos (2 ^ 52)).
    rewrite (proj2 (Z.leb_le _ _)) by lia.
    eexists _, _. split; [done|].
    replace (ex + n + (54 - 53) - ex) with (n + 1) by lia.
    rewrite Z.pow_add_r, Z.pow_1_r by lia.
    split; [lia|]. split; [lia|]. split; nia.
  - assert (Hd2 : Zdigits2 m'' = 53) by (apply Zdigits2_unique; lia).
    destruct (shr_fexp_spec m'' (ex + n) loc_Exact)
      as (r2 & -> & Hr2 & _); [lia..|].
    rewrite Hr2, Hd2. change (2 ^ (53 - 53)) with 1. rewrite Z.div_1_r.
    destruct m'' as [|p|p] eqn:E; [lia| |lia].
    rewrite (proj2 (Z.leb_le _ _)) by lia.
    eexists _, _. split; [done|].
    replace (ex + n + (53 - 53) - ex) with n by lia.
    split; [lia|]. split; [lia|]. split; nia.
Qed.

(** A mantissa of exactly 53 digits, known exactly, is not changed. *)
Lemma round_aux_exact (s : bool) (mx : positive) (ex : Z) :
  Zdigits2 (Z.pos mx) = 53 -> -1074 <= ex <= 971 ->
  binary_round_aux 53 1024 s (Z.pos mx) ex loc_Exact = S754_finite s mx ex.
Proof.
  intros Hd Hex. unfold binary_round_aux.
  destruct (shr_fexp_spec (Z.pos mx) ex loc_Exact) as (r1 & -> & _ & Hr1);
    [lia..|].
  rewrite (Hr1 Hd), Hd.
  cbn [shr_record_of_loc shr_m loc_of_shr_record round_nearest_even].
  destruct (shr_fexp_spec (Z.pos mx) (ex + (53 - 53)) loc_Exact)
    as (r2 & -> & _ & Hr2); [lia..|].
  rewrite (Hr2 Hd), Hd. cbn [shr_record_of_loc shr_m].
  rewrite (proj2 (Z.leb_le _ _)) by lia. f_equal. lia.
Qed.

(** *** The three operations of the sampling loop *)

Lemma iter_xO_pos (p d : positive) :
  Z.pos (Pos.iter xO p d) = Z.pos p * 2 ^ Z.pos d.
Proof.
  change (Pos.iter xO p d) with (shift_pos d p). rewrite shift_pos_correct.
  change (Z.pow_pos 2 d) with (2 ^ Z.pos d). lia.
Qed.

(** [float(i)] is exact for a positive integer below [2^53]. *)
Lemma of_int_spec (i : Z) :
  0 < i < 2 ^ 53 ->
  exists m e,
    PyFloat.of_int i = S754_finite false m e
    /\ 2 ^ 52 <= Z.pos m < 2 ^ 53
    /\ -52 <= e <= 0
    /\ Z.pos m = i * 2 ^ (- e).
Proof.
  intros [Hi0 Hi]. destruct i as [|p|p]; try lia.
  pose proof (digits2_bounds p) as [Hlo Hhi].
  pose proof (Zdigits2_le (Z.pos p) 53 ltac:(lia) Hi) as Hle.
  cbn [Zdigits2] in Hle. set (di := Z.pos (digits2_pos p)) in *.
  assert (Hdi : 1 <= di <= 53) by (subst di; lia).
  unfold PyFloat.of_int, PyFloat.prec, PyFloat.emax.
  unfold binary_normalize, binary_round, fexp, emin. fold di.
  replace (Z.max (di + 0 - 53) (3 - 1024 - 53)) with (di - 53) by lia.
  unfold shl_align. destruct (di - 53 - 0) as [|d|d] eqn:E; [|lia|].
  - assert (di = 53) by lia.
    rewrite round_aux_exact by (simpl; fold di; lia).
    eexists _, _. split; [done|]. simpl. split; [|lia].
    replace (di - 1) with 52 in Hlo by lia. lia.
  - assert (Hd : Z.pos d = 53 - di) by lia.
    assert (Hm : Z.pos (Pos.iter xO p d) = Z.pos p * 2 ^ (53 - di))
      by (rewrite iter_xO_pos; by rewrite Hd).
    assert (Hp : 0 < 2 ^ (53 - di)) by (apply Z.pow_pos_nonneg; lia).
    assert (Hb : 2 ^ 52 <= Z.pos p * 2 ^ (53 - di) < 2 ^ 53).
    { assert (E52 : 2 ^ 52 = 2 ^ (di - 1) * 2 ^ (53 - di))
        by (rewrite <- Z.pow_add_r by lia; f_equal; lia).
      assert (E53 : 2 ^ 53 = 2 ^ di * 2 ^ (53 - di))
        by (rewrite <- Z.pow_add_r by lia; f_equal; lia).
      split; [rewrite E52|rewrite E53]; nia. }
    rewrite round_aux_exact.
    + eexists _, _. split; [done|]. rewrite Hm.
      split; [done|]. split; [lia|]. f_equal. f_equal. lia.
    + apply Zdigits2_unique; rewrite Hm; lia.
    + lia.
Qed.

(** [n / d] on positive integers below [2^53]: a normal number within one
    unit in the last place of the quotient.  With [e = sh - k] the bounds
    read [(m - 1) * 2^e <= n / d < (m + 1) * 2^e]. *)
Lemma truediv_spec (n d : Z) :
  0 < n < 2 ^ 53 -> 0 < d < 2 ^ 53 ->
  exists m e k sh,
    PyFloat.truediv n d = Some (S754_finite false m e)
    /\ 2 ^ 52 <= Z.pos m < 2 ^ 53
    /\ 0 <= k <= 105 /\ 0 <= sh <= 2 /\ e = sh - k
    /\ (Z.pos m - 1) * 2 ^ sh * d <= n * 2 ^ k
    /\ n * 2 ^ k < (Z.pos m + 1) * 2 ^ sh * d.
Proof.
  intros [Hn0 Hn] [Hd0 Hd].
  pose proof (Zdigits2_bounds n Hn0) as [Hnlo Hnhi].
  pose proof (Zdigits2_bounds d Hd0) as [Hdlo Hdhi].
  pose proof (Zdigits2_pos n Hn0). pose proof (Zdigits2_le n 53 Hn0 Hn).
  pose proof (Zdigits2_pos d Hd0). pose proof (Zdigits2_le d 53 Hd0 Hd).
  set (d1 := Zdigits2 n) in *. set (d2 := Zdigits2 d) in *.
  remember (53 + d2 - d1) as k eqn:Ek.
  assert (Hk : 0 < k <= 105) by lia.
  set (q := (n * 2 ^ k) / d).
  assert (Hpk : 0 < 2 ^ k) by (apply Z.pow_pos_nonneg; lia).
  assert (Hdm := Z.div_mod (n * 2 ^ k) d ltac:(lia)). fold q in Hdm.
  assert (Hmod := Z.mod_pos_bound (n * 2 ^ k) d Hd0).
  assert (Hqlo : 2 ^ 52 <= q).
  { assert (2 ^ 52 * 2 ^ d2 <= n * 2 ^ k); [|nia].
    rewrite <- Z.pow_add_r by lia.
    replace (52 + d2) with ((d1 - 1) + k) by lia.
    rewrite Z.pow_add_r by lia. nia. }
  assert (Hqhi : q < 2 ^ 54).
  { assert (n * 2 ^ k < 2 ^ 54 * 2 ^ (d2 - 1)); [|nia].
    rewrite <- Z.pow_add_r by lia.
    replace (54 + (d2 - 1)) with (d1 + k) by lia.
    rewrite Z.pow_add_r by lia. nia. }
  pose proof (Zdigits2_gt q 52 ltac:(lia) Hqlo).
  pose proof (Zdigits2_le q 54 ltac:(lia) Hqhi).
  unfold PyFloat.truediv, PyFloat.prec, PyFloat.emax.
  destruct (Z.eqb_spec d 0); [lia|].
  destruct n as [|pn|pn]; try lia. destruct d as [|pd|pd]; try lia.
  unfold PyFloat.exact_of_Z, SFdiv, SFdiv_core_binary, fexp, emin.
  fold d1 d2.
  replace (Z.min (Z.max (d1 + 0 - (d2 + 0) - 53) (3 - 1024 - 53)) (0 - 0))
    with (- k) by lia.
  replace (0 - 0 - - k) with k by lia.
  assert (Hsh : match k with
                | 0 => Z.pos pn
                | Z.pos _ => Z.shiftl (Z.pos pn) k
                | Z.neg _ => 0
                end = Z.pos pn * 2 ^ k).
  { destruct k; try lia. apply Z.shiftl_mul_pow2. lia. }
  rewrite Hsh. unfold Z.div in q.
  destruct (Z.div_eucl (Z.pos pn * 2 ^ k) (Z.pos pd)) as [q' r] eqn:Edq.
  simpl in q. subst q.
  destruct (round_aux_faithful (xorb false false) q' (- k)
              (new_location (Z.pos pd) r))
    as (m & e & -> & Hm & He & Hb1 & Hb2); [lia..|].
  simpl. exists m, e, k, (e - - k).
  split; [done|]. split; [done|]. split; [lia|]. split; [lia|].
  split; [lia|]. split; nia.
Qed.

(** The product of two normal numbers: within one unit in the last place
    of the exact product [mi * ms * 2^(ei + es)]. *)
Lemma mul_spec (mi ms : positive) (ei es : Z) :
  2 ^ 52 <= Z.pos mi < 2 ^ 53 -> 2 ^ 52 <= Z.pos ms < 2 ^ 53 ->
  -1126 <= ei + es <= 917 ->
  exists m e sh,
    PyFloat.mul (S754_finite false mi ei) (S754_finite false ms es)
    = S754_finite false m e
    /\ 2 ^ 52 <= Z.pos m < 2 ^ 53
    /\ 0 <= sh /\ e = ei + es + sh
    /\ (Z.pos m - 1) * 2 ^ sh <= Z.pos mi * Z.pos ms
    /\ Z.pos mi * Z.pos ms < (Z.pos m + 1) * 2 ^ sh.
Proof.
  intros Hmi Hms He.
  unfold PyFloat.mul, PyFloat.prec, PyFloat.emax, SFmul.
  rewrite Pos2Z.inj_mul.
  assert (Hlo : 2 ^ 104 <= Z.pos mi * Z.pos ms) by nia.
  assert (Hhi : Z.pos mi * Z.pos ms < 2 ^ 106) by nia.
  pose proof (Zdigits2_gt (Z.pos mi * Z.pos ms) 104 ltac:(lia) Hlo).
  pose proof (Zdigits2_le (Z.pos mi * Z.pos ms) 106 ltac:(lia) Hhi).
  destruct (round_aux_faithful (xorb false false) (Z.pos mi * Z.pos ms)
              (ei + es) loc_Exact)
    as (m & e & -> & Hm & Hee & Hb1 & Hb2); [lia..|].
  exists m, e, (e - (ei + es)). simpl.
  split; [done|]. split; [done|]. split; [lia|]. split; [lia|]. split; lia.
Qed.

End RoundingFacts.

Section RealBounds.

Local Open Scope R_scope.

Lemma pow2_pos (e : Z) : 0 < powerRZ 2 e.
Proof. apply powerRZ_lt. lra. Qed.

Lemma pow2_IZR (k : Z) : (0 <= k)%Z -> IZR (2 ^ k) = powerRZ 2 k.
Proof.
  intros Hk. destruct k as [|p|p]; [done| |lia].
  change (2 ^ Z.pos p)%Z with (Z.pow_pos 2 p). apply Zpower_pos_powerRZ.
Qed.

Lemma pow2_add (a b : Z) : powerRZ 2 (a + b) = powerRZ 2 a * powerRZ 2 b.
Proof. apply powerRZ_add. lra. Qed.

(** An integer inequality between scaled mantissas, read on the reals. *)
Lemma scaled_le (a b sh e : Z) :
  (0 <= sh)%Z -> (a * 2 ^ sh <= b)%Z ->
  IZR a * powerRZ 2 (e + sh) <= IZR b * powerRZ 2 e.
Proof.
  intros Hsh H. apply IZR_le in H. rewrite mult_IZR, pow2_IZR in H by done.
  rewrite pow2_add. pose proof (pow2_pos e). nra.
Qed.

Lemma scaled_lt (a b sh e : Z) :
  (0 <= sh)%Z -> (b < a * 2 ^ sh)%Z ->
  IZR b * powerRZ 2 e < IZR a * powerRZ 2 (e + sh).
Proof.
  intros Hsh H. apply IZR_lt in H. rewrite mult_IZR, pow2_IZR in H by done.
  rewrite pow2_add. pose proof (pow2_pos e). nra.
Qed.

Lemma F2R_pos (m : positive) (e : Z) : 0 < F2R m e.
Proof.
  unfold F2R. apply Rmult_lt_0_compat; [|apply pow2_pos].
  apply IZR_lt. lia.
Qed.

(** One unit in the last place of a normal number is at most [2^-52] of
    the number. *)
Lemma ulp_le (m : positive) (e : Z) :
  (2 ^ 52 <= Z.pos m)%Z -> powerRZ 2 e * two52 <= F2R m e.
Proof.
  intros H. apply IZR_le in H. unfold F2R. pose proof (pow2_pos e).
  change (2 ^ 52)%Z with 4503599627370496%Z in H. nra.
Qed.

Lemma to_int_bounds (m : positive) (e : Z) :
  exists z, PyFloat.to_int (S754_finite false m e) = Some z
    /\ IZR z <= F2R m e < IZR z + 1.
Proof.
  eexists. split; [done|]. unfold F2R. cbn [cond_Zopp].
  destruct (Z.le_gt_cases 0 e) as [He|He].
  - rewrite Z.shiftl_mul_pow2, mult_IZR, pow2_IZR by done. lra.
  - rewrite Z.shiftl_div_pow2 by lia.
    assert (Hp : (0 < 2 ^ (- e))%Z) by (apply Z.pow_pos_nonneg; lia).
    pose proof (Z.div_mod (Z.pos m) (2 ^ (- e)) ltac:(lia)) as Hdm.
    pose proof (Z.mod_pos_bound (Z.pos m) (2 ^ (- e)) Hp) as Hmod.
    set (q := (Z.pos m / 2 ^ (- e))%Z) in *.
    assert (H1 : (q * 2 ^ (- e) <= Z.pos m)%Z) by lia.
    assert (H2 : (Z.pos m < (q + 1) * 2 ^ (- e))%Z) by lia.
    apply (scaled_le _ _ _ e) in H1; [|lia].
    apply (scaled_lt _ _ _ e) in H2; [|lia].
    replace (e + - e)%Z with 0%Z in * by lia.
    rewrite powerRZ_O in *. rewrite plus_IZR in H2. lra.
Qed.

End RealBounds.

Section RealSpecs.

Local Open Scope R_scope.

Lemma of_int_R (i : Z) :
  (0 < i < 2 ^ 53)%Z ->
  exists m e,
    PyFloat.of_int i = S754_finite false m e
    /\ (2 ^ 52 <= Z.pos m < 2 ^ 53)%Z /\ (-52 <= e <= 0)%Z
    /\ F2R m e = IZR i.
Proof.
  intros Hi. destruct (of_int_spec i Hi) as (m & e & Hof & Hm & He & Hv).
  exists m, e. repeat split; try done; try lia.
  unfold F2R. rewrite Hv, mult_IZR, pow2_IZR by lia.
  rewrite Rmult_assoc, <- pow2_add. replace (- e + e)%Z with 0%Z by lia.
  rewrite powerRZ_O. lra.
Qed.

Lemma truediv_R (n d : Z) :
  (0 < n < 2 ^ 53)%Z -> (0 < d < 2 ^ 53)%Z ->
  exists m e,
    PyFloat.truediv n d = Some (S754_finite false m e)
    /\ (2 ^ 52 <= Z.pos m < 2 ^ 53)%Z /\ (-105 <= e <= 2)%Z
    /\ (F2R m e - powerRZ 2 e) * IZR d <= IZR n
    /\ IZR n < (F2R m e + powerRZ 2 e) * IZR d.
Proof.
  intros Hn Hd.
  destruct (truediv_spec n d Hn Hd)
    as (m & e & k & sh & Hdiv & Hm & Hk & Hsh & He & H1 & H2).
  exists m, e. split; [done|]. split; [done|]. split; [lia|].
  apply IZR_le in H1. apply IZR_lt in H2.
  rewrite !mult_IZR, !pow2_IZR in H1, H2 by lia.
  rewrite minus_IZR in H1. rewrite plus_IZR in H2.
  replace sh with (e + k)%Z in H1, H2 by lia. rewrite pow2_add in H1, H2.
  pose proof (pow2_pos k) as Hpk. unfold F2R.
  assert (Hd0 : 0 < IZR d) by (apply IZR_lt; lia).
  split.
  - apply (Rmult_le_reg_r (powerRZ 2 k)); [done|]. nra.
  - apply (Rmult_lt_reg_r (powerRZ 2 k)); [done|]. nra.
Qed.

Lemma mul_R (mi ms : positive) (ei es : Z) :
  (2 ^ 52 <= Z.pos mi < 2 ^ 53)%Z -> (2 ^ 52 <= Z.pos ms < 2 ^ 53)%Z ->
  (-1126 <= ei + es <= 917)%Z ->
  exists m e,
    PyFloat.mul (S754_finite false mi ei) (S754_finite false ms es)
    = S754_finite false m e
    /\ (2 ^ 52 <= Z.pos m < 2 ^ 53)%Z
    /\ F2R m e - powerRZ 2 e <= F2R mi ei * F2R ms es
    /\ F2R mi ei * F2R ms es < F2R m e + powerRZ 2 e.
Proof.
  intros Hmi Hms He.
  destruct (mul_spec mi ms ei es Hmi Hms He)
    as (m & e & sh & Hmul & Hm & Hsh & Hee & H1 & H2).
  exists m, e. split; [done|]. split; [done|].
  apply (scaled_le _ _ _ (ei + es)) in H1; [|done].
  apply (scaled_lt _ _ _ (ei + es)) in H2; [|done].
  rewrite <- Hee in H1, H2.
  rewrite minus_IZR in H1. rewrite plus_IZR in H2.
  rewrite mult_IZR, pow2_add in H1, H2. unfold F2R. split; nra.
Qed.

End RealSpecs.

(** ** The arithmetic of the stride, on the reals

    [s] is the stride as a float, [a] and [b] the floats computed for
    [i * s] and [(i + 1) * s]; each is within a factor [1 +- 1/two52] of the
    exact value. *)

Section StrideArithmetic.

Local Open Scope R_scope.

(** [a <= i s / (1 - u)] and [s <= (n / L) / (1 - u)] with [i <= L - 1]
    give [a < n], as [(L - 1) / L < (1 - u)^2]. *)
Lemma stride_below (L n s a i : R) :
  1 <= L <= 10000 -> 0 < s -> 0 <= a -> 0 <= i <= L - 1 -> 0 < n ->
  a * (two52 - 1) <= i * s * two52 ->
  s * L * (two52 - 1) <= n * two52 ->
  a < n.
Proof.
  intros HL Hs Ha Hi Hn H1 H2.
  assert (H3 : i * s <= (L - 1) * s) by nra.
  assert (H4 : a * (two52 - 1) * L <= (L - 1) * (s * L) * two52) by nra.
  assert (H5 : (L - 1) * (s * L * (two52 - 1)) <= (L - 1) * (n * two52))
    by nra.
  assert (H6 : a * (two52 - 1) * L * (two52 - 1)
               <= (L - 1) * n * two52 * two52) by nra.
  assert (H7 : (L - 1) * two52 * two52 < L * (two52 - 1) * (two52 - 1))
    by nra.
  assert (H8 : (L - 1) * n * two52 * two52
               < n * (L * (two52 - 1) * (two52 - 1))) by nra.
  assert (H9 : a * (L * (two52 - 1) * (two52 - 1))
               < n * (L * (two52 - 1) * (two52 - 1))) by nra.
  assert (H10 : 0 < L * (two52 - 1) * (two52 - 1)) by nra.
  apply (Rmult_lt_reg_r _ _ _ H10 H9).
Qed.

(** Were [b < a + 1], the bounds on [a] and [b] would give
    [s (two52 + 3 - 2 L) two52 < two52^2 - 1], and the bound on [s], with
    [n >= L + 1], would then force [2 L^2 > two52]. *)
Lemma stride_increasing (L n s a b i : R) :
  1 <= L <= 10000 -> 0 < s -> 0 <= a -> 0 <= i -> i + 1 <= L - 1 ->
  L + 1 <= n ->
  a * (two52 - 1) <= i * s * two52 ->
  (i + 1) * s * two52 < b * (two52 + 1) ->
  n * two52 < s * L * (two52 + 1) ->
  a + 1 <= b.
Proof.
  intros HL Hs Ha Hi Hi' Hn H1 H2 H3.
  destruct (Rle_lt_dec (a + 1) b) as [Hle|Hc]; [exact Hle|exfalso].
  assert (H4 : (i + 1) * s * two52 < (a + 1) * (two52 + 1)) by nra.
  assert (H6 : (a * (two52 - 1)) * (two52 + 1)
               <= i * s * two52 * (two52 + 1)) by nra.
  assert (H7 : (i + 1) * s * two52 * (two52 - 1)
               < i * s * two52 * (two52 + 1) + (two52 - 1) * (two52 + 1))
    by nra.
  assert (H9 : i * s <= (L - 2) * s) by nra.
  assert (H10 : s * (two52 * (two52 + 3 - 2 * L))
                < (two52 - 1) * (two52 + 1)) by nra.
  assert (H11 : (L + 1) * two52 < s * L * (two52 + 1)) by nra.
  assert (HA : 0 < L * (two52 + 1)) by nra.
  assert (HB : 0 < two52 * (two52 + 3 - 2 * L)) by nra.
  pose proof (Rmult_lt_compat_r _ _ _ HA H10) as H12.
  pose proof (Rmult_lt_compat_r _ _ _ HB H11) as H13.
  assert (H14 : (L + 1) * two52 * (two52 * (two52 + 3 - 2 * L))
                < (two52 - 1) * (two52 + 1) * (L * (two52 + 1))) by nra.
  assert (HP : L * L <= 100000000) by (clear - HL; nra).
  clear - H14 HP HL. lra.
Qed.

(** For at most 10000 rows the float [a] computed for [i * s] stays within
    one of the exact product [i n / L], whose floor is [K]; and above [K]
    when the exact product is not an integer. *)
Lemma stride_near (L n s a i K : R) :
  1 <= L <= 10000 -> 0 < n <= 10000 -> 0 < s -> 0 <= a ->
  0 <= i <= L - 1 -> 0 <= K ->
  a * (two52 - 1) <= i * s * two52 ->
  i * s * two52 <= a * (two52 + 1) ->
  s * L * (two52 - 1) <= n * two52 ->
  n * two52 < s * L * (two52 + 1) ->
  K * L <= i * n -> i * n <= (K + 1) * L - 1 ->
  K - 1 < a < K + 1 /\ (K * L + 1 <= i * n -> K < a).
Proof.
  intros HL Hn Hs Ha Hi HK H1 H2 H3 H4 H5 H6.
  assert (HKn : K <= 10000).
  { assert (K * L <= 10000 * L) by nra. nra. }
  assert (HKL : (K + 1) * L <= 100010000) by nra.
  assert (Hup : a * ((two52 - 1) * (two52 - 1) * L)
                <= two52 * two52 * (i * n)).
  { assert (a * (two52 - 1) * ((two52 - 1) * L)
            <= i * s * two52 * ((two52 - 1) * L)) by nra.
    assert (i * two52 * (s * L * (two52 - 1)) <= i * two52 * (n * two52))
      by nra.
    nra. }
  assert (Hlo : two52 * two52 * (i * n)
                <= a * ((two52 + 1) * (two52 + 1) * L)).
  { assert (i * s * two52 * ((two52 + 1) * L)
            <= a * (two52 + 1) * ((two52 + 1) * L)) by nra.
    assert (i * two52 * (n * two52) <= i * two52 * (s * L * (two52 + 1)))
      by nra.
    nra. }
  assert (HKL' : K * L <= 100000000) by nra.
  split; [split|].
  - destruct (Rlt_le_dec (K - 1) a) as [Hlt|Hge]; [exact Hlt|exfalso].
    assert (a * ((two52 + 1) * (two52 + 1) * L)
            <= (K - 1) * ((two52 + 1) * (two52 + 1) * L)) by nra.
    clear - H Hlo H5 HK HKn HL HKL'. nra.
  - destruct (Rlt_le_dec a (K + 1)) as [Hlt|Hge]; [exact Hlt|exfalso].
    assert ((K + 1) * ((two52 - 1) * (two52 - 1) * L)
            <= a * ((two52 - 1) * (two52 - 1) * L)) by nra.
    clear - H Hup H6 HK HKn HL HKL. nra.
  - intros H7.
    destruct (Rlt_le_dec K a) as [Hlt|Hge]; [exact Hlt|exfalso].
    assert (a * ((two52 + 1) * (two52 + 1) * L)
            <= K * ((two52 + 1) * (two52 + 1) * L)) by nra.
    clear - H Hlo H7 HK HKn HL HKL'. nra.
Qed.

End StrideArithmetic.

(** * The built-ins on concrete inputs

    The values are those CPython prints for the same expressions; the
    last string of each list starts with the separator of code 28, which
    is not skipped. *)

Example int_of_str_examples (u : Unicode) :
  PyStr.int_of_str u " 0_12 " = Some 12%Z
  /\ PyStr.int_of_str u "-5" = Some (-5)%Z
  /\ PyStr.int_of_str u "007" = Some 7%Z
  /\ PyStr.int_of_str u "1__2" = None
  /\ PyStr.int_of_str u "12_" = None
  /\ PyStr.int_of_str u "1.0" = None
  /\ PyStr.int_of_str u "" = None
  /\ PyStr.int_of_str u (String (ascii_of_N 11) "5") = Some 5%Z
  /\ PyStr.int_of_str u (String (ascii_of_N 28) "5") = None.
Proof. repeat apply conj; vm_compute; reflexivity. Qed.

(** [float("0.1") = 0x1.999999999999ap-4], [float("1e23")] rounds down,
    [float("5e-324")] is the least subnormal, [float("1e999")] overflows
    to infinity. *)
Example float_of_str_examples (u : Unicode) :
  PyStr.float_of_str u "0.1"
    = Some (S754_finite false 7205759403792794 (-56))
  /\ PyStr.float_of_str u "1e23"
     = Some (S754_finite false 5960464477539062 24)
  /\ PyStr.float_of_str u "31"
     = Some (S754_finite false 8725724278030336 (-48))
  /\ PyStr.float_of_str u "5e-324" = Some (S754_finite false 1 (-1074))
  /\ PyStr.float_of_str u " -Infinity " = Some (S754_infinity true)
  /\ PyStr.float_of_str u "NaN" = Some S754_nan
  /\ PyStr.float_of_str u "1e999" = Some (S754_infinity false)
  /\ PyStr.float_of_str u "1_0.2_5"
     = Some (S754_finite false 5770237022568448 (-49))
  /\ PyStr.float_of_str u "." = None
  /\ PyStr.float_of_str u "1e" = None
  /\ PyStr.float_of_str u "abc" = None
  /\ PyStr.float_of_str u (String (ascii_of_N 28) "1") = None.
Proof. repeat apply conj; vm_compute; reflexivity. Qed.

(** [30 / 22 = 0x1.5d1745d1745d1p+0] and [int(11 * (30 / 22)) = 14]. *)
Example truediv_30_22 :
  PyFloat.truediv 30 22 = Some (S754_finite false 6141272219141585 (-52))
  /\ sample_index (S754_finite false 6141272219141585 (-52)) 11 = Some 14%Z.
Proof. repeat apply conj; vm_compute; reflexivity. Qed.

(** * Pagination *)

Section PaginationFacts.

Local Open Scope Z_scope.

Lemma py_slice_inner {A} (l : list A) (s e : Z) :
  0 <= s -> s <= e -> e <= Z.of_nat (length l) ->
  py_slice l s e = take (Z.to_nat (e - s)) (drop (Z.to_nat s) l).
Proof.
  intros Hs Hse He. unfold py_slice, slice_bound.
  destruct (Z.ltb_spec s 0); [lia|].
  destruct (Z.ltb_spec e 0); [lia|].
  by rewrite !Z.min_l by lia.
Qed.

Lemma total_pages_ceil (n ps : Z) :
  1 <= ps -> (n + ps - 1) / ps = ceil_div n ps.
Proof.
  intros Hps. unfold ceil_div.
  assert (Hd := Z.div_mod (n + ps - 1) ps ltac:(lia)).
  assert (Hr := Z.mod_pos_bound (n + ps - 1) ps ltac:(lia)).
  assert (Hd' := Z.div_mod (- n) ps ltac:(lia)).
  assert (Hr' := Z.mod_pos_bound (- n) ps ltac:(lia)).
  nia.
Qed.

Lemma ceil_div_gt (n ps k : Z) :
  1 <= ps -> k < ceil_div n ps <-> k * ps < n.
Proof.
  intros Hps. unfold ceil_div.
  assert (Hd := Z.div_mod (- n) ps ltac:(lia)).
  assert (Hr := Z.mod_pos_bound (- n) ps ltac:(lia)).
  split; intros; nia.
Qed.

Lemma paginate_ok (data : list row) (page ps : Z) :
  1 <= ps -> 1 <= page -> (page - 1) * ps < Z.of_nat (length data) ->
  paginate data page ps =
    GridPage
      (take (Z.to_nat (Z.min (page * ps) (Z.of_nat (length data))
                       - (page - 1) * ps))
         (drop (Z.to_nat ((page - 1) * ps)) data))
      (mkPagination page ps (Z.of_nat (length data))
         (ceil_div (Z.of_nat (length data)) ps)
         (Z.min ((page - 1) * ps + ps) (Z.of_nat (length data))
            <? Z.of_nat (length data))
         (page >? 1)).
Proof.
  intros Hps Hpage Hlt. unfold paginate.
  destruct (Z.geb_spec ((page - 1) * ps) (Z.of_nat (length data))); [lia|].
  destruct (Z.eqb_spec ps 0); [lia|].
  rewrite py_slice_inner by nia.
  rewrite total_pages_ceil by done.
  do 3 f_equal. nia.
Qed.

Lemma page_numbers_S (k : nat) :
  page_numbers (Z.of_nat (S k)) = page_numbers (Z.of_nat k) ++ [Z.of_nat k + 1].
Proof.
  unfold page_numbers. rewrite !Nat2Z.id, seq_S, fmap_app. done.
Qed.

(** The first [k] pages, laid end to end, are the first [k * ps] rows. *)
Lemma concat_pages_take (data : list row) (ps : Z) (k : nat) :
  1 <= ps -> Z.of_nat k <= ceil_div (Z.of_nat (length data)) ps ->
  concat ((fun p => page_rows (paginate data p ps))
            <$> page_numbers (Z.of_nat k))
  = take (Z.to_nat (Z.min (Z.of_nat k * ps) (Z.of_nat (length data)))) data.
Proof.
  intros Hps. induction k as [|k IH]; intros Hk.
  - change (Z.of_nat 0) with 0. rewrite Z.mul_0_l, Z.min_l by lia. done.
  - rewrite page_numbers_S, fmap_app, concat_app, IH by lia. simpl.
    assert (Hlt : Z.of_nat k * ps < Z.of_nat (length data))
      by (apply ceil_div_gt; lia).
    rewrite paginate_ok
      by (try lia; by replace (Z.of_nat k + 1 - 1) with (Z.of_nat k) by lia).
    simpl. rewrite app_nil_r.
    replace (Z.of_nat k + 1 - 1) with (Z.of_nat k) by lia.
    rewrite (Z.min_l (Z.of_nat k * ps)) by lia.
    rewrite take_take_drop. f_equal. lia.
Qed.

End PaginationFacts.

(** C4.  For [page >= 1] and [page_size >= 1] the page request fails with
    "Page out of range" exactly when [(page - 1) * page_size >= len(rows)],
    the first page of an empty table included; every other request yields
    a page. *)
Theorem paginate_out_of_range_iff (data : list row) (page page_size : Z) :
  (1 <= page)%Z -> (1 <= page_size)%Z ->
  (paginate data page page_size = GridPageOutOfRange
   <-> ((page - 1) * page_size >= Z.of_nat (length data))%Z)
  /\ (((page - 1) * page_size < Z.of_nat (length data))%Z ->
      exists rows pg, paginate data page page_size = GridPage rows pg).
Proof.
  intros Hpage Hps. split; [split|].
  - unfold paginate.
    destruct (Z.geb_spec ((page - 1) * page_size) (Z.of_nat (length data)));
      [lia|].
    by destruct (page_size =? 0)%Z.
  - intros Hge. unfold paginate.
    destruct (Z.geb_spec ((page - 1) * page_size) (Z.of_nat (length data)));
      [done|lia].
  - intros Hlt. rewrite paginate_ok by done. eauto.
Qed.

Lemma paginate_out_of_range_iff_witness :
  (paginate [∅; ∅] 3 1 = GridPageOutOfRange
   <-> ((3 - 1) * 1 >= Z.of_nat (length [(∅ : row); ∅]))%Z)
  /\ (((3 - 1) * 1 < Z.of_nat (length [(∅ : row); ∅]))%Z ->
      exists rows pg, paginate [∅; ∅] 3 1 = GridPage rows pg).
Proof. apply (paginate_out_of_range_iff [∅; ∅] 3 1); lia. Defined.

(** C4, the first page of an empty table: it is answered with "Page out of
    range", not with an empty slice. *)
Lemma paginate_empty_first_page_counterexample :
  paginate [] 1 100 = GridPageOutOfRange
  /\ ~ (exists pg, paginate [] 1 100 = GridPage [] pg).
Proof. split; [reflexivity|]. intros [pg Hpg]. discriminate Hpg. Qed.

(** C5.  With full data present and [page_size >= 1], every page
    [1 .. total_pages], where [total_pages = ceil(total_rows / page_size)],
    is served, reports [has_next = end < total_rows] and
    [has_previous = page > 1], and the pages laid end to end are the
    materialised rows. *)
Theorem pagination_covers_data (t : DataTable) (data : list row)
    (page_size : Z) :
  get_data_with_edits t = Some data -> (1 <= page_size)%Z ->
  let n := Z.of_nat (length data) in
  let tp := ceil_div n page_size in
  (forall p, (1 <= p <= tp)%Z ->
     exists rows pg,
       DataGridView_get t p page_size = GridPage rows pg
       /\ total_rows pg = n /\ total_pages pg = tp
       /\ has_next pg
          = bool_decide (Z.min ((p - 1) * page_size + page_size) n < n)%Z
       /\ has_previous pg = bool_decide (p > 1)%Z)
  /\ concat ((fun p => page_rows (DataGridView_get t p page_size))
               <$> page_numbers tp) = data.
Proof.
  intros Hdata Hps n tp. unfold DataGridView_get. rewrite Hdata.
  assert (Etp : tp = ceil_div n page_size) by done. clearbody tp.
  assert (En : n = Z.of_nat (length data)) by done. clearbody n.
  split.
  - intros p [Hp1 Hp2].
    assert (Hlt : ((p - 1) * page_size < Z.of_nat (length data))%Z).
    { rewrite <- En. apply ceil_div_gt; [lia|]. rewrite <- Etp. lia. }
    rewrite paginate_ok by done. do 2 eexists. split; [done|]. simpl.
    rewrite <- En, <- Etp. repeat split.
    + apply eq_iff_eq_true. rewrite bool_decide_eq_true. apply Z.ltb_lt.
    + apply eq_iff_eq_true. rewrite bool_decide_eq_true. apply Z.gtb_gt.
  - assert (Htp : (0 <= tp)%Z).
    { assert (-1 < ceil_div n page_size)%Z; [|lia].
      apply ceil_div_gt; lia. }
    rewrite <- (Z2Nat.id tp) by done.
    rewrite concat_pages_take
      by (rewrite ?Z2Nat.id by done; rewrite <- ?En, <- ?Etp; lia).
    rewrite Z2Nat.id by done.
    assert (Hge : (n <= tp * page_size)%Z).
    { destruct (Z.le_gt_cases n (tp * page_size)) as [|Hc]; [done|].
      apply ceil_div_gt in Hc; [|done]. rewrite <- Etp in Hc. lia. }
    rewrite Z.min_r by lia. rewrite Nat2Z.id. apply firstn_all.
Qed.

Lemma pagination_covers_data_witness :
  let t := mkDataTable 1 1 ∅ 2 [] (Some [∅; ∅]) ∅ in
  let n := Z.of_nat (length [(∅ : row); ∅]) in
  let tp := ceil_div n 1 in
  (forall p, (1 <= p <= tp)%Z ->
     exists rows pg,
       DataGridView_get t p 1 = GridPage rows pg
       /\ total_rows pg = n /\ total_pages pg = tp
       /\ has_next pg = bool_decide (Z.min ((p - 1) * 1 + 1) n < n)%Z
       /\ has_previous pg = bool_decide (p > 1)%Z)
  /\ concat ((fun p => page_rows (DataGridView_get t p 1))
               <$> page_numbers tp) = [∅; ∅].
Proof.
  apply (pagination_covers_data (mkDataTable 1 1 ∅ 2 [] (Some [∅; ∅]) ∅)
           [∅; ∅] 1); [reflexivity | lia].
Defined.
(** * The string built-ins *)

Section StringFacts.

Local Open Scope Z_scope.

Lemma pretty_N_char_digit (d : N) :
  (d < 10)%N ->
  PyStr.is_digit (pretty_N_char d) = true
  /\ PyStr.digit_val (pretty_N_char d) = Z.of_N d.
Proof.
  intros Hd.
  assert (d = 0 \/ d = 1 \/ d = 2 \/ d = 3 \/ d = 4 \/ d = 5 \/ d = 6
          \/ d = 7 \/ d = 8 \/ d = 9)%N as Hcases by lia.
  repeat (destruct Hcases as [->|Hcases]; [done|]). by subst.
Qed.

Lemma digit_not_space_or_sign (c : ascii) :
  PyStr.is_digit c = true ->
  PyStr.is_space c = false
  /\ (PyStr.code c =? 45)%N = false /\ (PyStr.code c =? 43)%N = false.
Proof.
  unfold PyStr.is_digit, PyStr.is_space.
  intros [H1%N.leb_le H2%N.leb_le]%andb_true_iff. split_and!.
  - apply orb_false_iff. split.
    + apply andb_false_iff. right. apply N.leb_gt. lia.
    + apply N.eqb_neq. lia.
  - apply N.eqb_neq. lia.
  - apply N.eqb_neq. lia.
Qed.

(** Reading the digits that [pretty_N_go] writes in front of [s]. *)
Lemma digitpart_from_pretty_N_go (x : N) (s : string) (acc cnt : Z)
    (prev : bool) :
  (0 < x)%N ->
  exists k,
    PyStr.digitpart_from acc cnt prev (PyStr.chars (pretty_N_go x s))
    = PyStr.digitpart_from (acc * 10 ^ k + Z.of_N x) (cnt + k) true
        (PyStr.chars s)
    /\ 0 < k.
Proof.
  revert s. induction (N.lt_wf_0 x) as [x _ IH]. intros s Hx.
  rewrite pretty_N_go_step by done.
  destruct (pretty_N_char_digit (x `mod` 10)) as (Hd & Hv);
    [by apply N.mod_lt|].
  assert (Hx' : Z.of_N x = 10 * Z.of_N (x `div` 10) + Z.of_N (x `mod` 10)).
  { rewrite (N.div_mod x 10) at 1 by done. lia. }
  destruct (decide (x `div` 10 = 0)%N) as [Hz|Hnz].
  - rewrite Hz in *. rewrite pretty_N_go_0. exists 1. split; [|lia].
    cbn [PyStr.chars PyStr.digitpart_from]. rewrite Hd, Hv, Z.pow_1_r.
    f_equal. lia.
  - destruct (IH (x `div` 10)%N) with
      (s := String (pretty_N_char (x `mod` 10)) s) as (k & -> & Hk).
    { by apply N.div_lt. }
    { by apply N.neq_0_lt_0. }
    exists (k + 1). split; [|lia].
    cbn [PyStr.chars PyStr.digitpart_from]. rewrite Hd, Hv.
    f_equal; [|lia]. rewrite Hx', Z.pow_add_r, Z.pow_1_r by lia. lia.
Qed.

Lemma pretty_N_go_digits (x : N) (s : string) :
  Forall (fun c => PyStr.is_digit c = true) (PyStr.chars s) ->
  Forall (fun c => PyStr.is_digit c = true) (PyStr.chars (pretty_N_go x s)).
Proof.
  revert s. induction (N.lt_wf_0 x) as [x _ IH]. intros s Hs.
  destruct (decide (x = 0)%N) as [->|Hx]; [by rewrite pretty_N_go_0|].
  rewrite pretty_N_go_step by lia. apply IH; [apply N.div_lt; lia|].
  cbn [PyStr.chars]. constructor; [|done].
  apply pretty_N_char_digit. by apply N.mod_lt.
Qed.

Lemma length_lstrip (l : list ascii) :
  (length (PyStr.lstrip l) <= length l)%nat.
Proof.
  induction l as [|a l IH]; [done|]. simpl.
  destruct (PyStr.is_space a); simpl; lia.
Qed.

(** [strip] leaves a string alone that neither starts nor ends with a
    space. *)
Lemma strip_id (l : list ascii) :
  (forall c, head l = Some c -> PyStr.is_space c = false) ->
  (forall c, last l = Some c -> PyStr.is_space c = false) ->
  PyStr.strip l = l.
Proof.
  intros Hhead Hlast. unfold PyStr.strip.
  destruct l as [|c l]; [done|].
  assert (H1 : PyStr.lstrip (c :: l) = c :: l).
  { simpl. by rewrite (Hhead c). }
  rewrite H1. destruct (rev (c :: l)) as [|d r] eqn:E.
  - apply (f_equal (@rev ascii)) in E. by rewrite rev_involutive in E.
  - assert (H2 : PyStr.lstrip (d :: r) = d :: r).
    { simpl. rewrite (Hlast d); [done|].
      apply (f_equal (@rev ascii)) in E. rewrite rev_involutive in E.
      rewrite E. simpl. by rewrite last_snoc. }
    by rewrite H2, <- E, rev_involutive.
Qed.

(** The decimal digits of a positive number. *)
Lemma pretty_pos_facts (p : positive) :
  exists c rest k,
    PyStr.chars (pretty (N.pos p)) = c :: rest
    /\ Forall (fun c => PyStr.is_digit c = true) (c :: rest)
    /\ PyStr.digitpart (c :: rest) = Some (Z.pos p, k).
Proof.
  unfold pretty, pretty_N. rewrite decide_False by done.
  pose proof (pretty_N_go_digits (N.pos p) "" ltac:(constructor)) as Hds.
  destruct (digitpart_from_pretty_N_go (N.pos p) "" 0 0 false)
    as (k & Hread & Hk); [done|].
  destruct (PyStr.chars (pretty_N_go (N.pos p) "")) as [|c rest] eqn:E.
  - cbn in Hread. discriminate Hread.
  - exists c, rest, k. split; [done|]. split; [done|].
    unfold PyStr.digitpart. rewrite Hread. cbn [PyStr.chars
      PyStr.digitpart_from]. do 2 f_equal; lia.
Qed.

Lemma chars_app (a b : string) :
  PyStr.chars (a +:+ b) = PyStr.chars a ++ PyStr.chars b.
Proof. induction a as [|c a IH]; [done|]. simpl. by rewrite IH. Qed.



Lemma span_until_all (stop : ascii -> bool) (l : list ascii) :
  Forall (fun c => stop c = false) l -> PyStr.span_until stop l = (l, []).
Proof.
  induction 1 as [|c l Hc _ IH]; [done|]. simpl. by rewrite Hc, IH.
Qed.

Lemma digit_plain (c : ascii) :
  PyStr.is_digit c = true ->
  PyStr.lower_char c = c
  /\ PyStr.is_dot c = false /\ PyStr.is_exp_mark c = false
  /\ (PyStr.code c =? 105)%N = false /\ (PyStr.code c =? 110)%N = false.
Proof.
  unfold PyStr.is_digit, PyStr.lower_char, PyStr.is_dot, PyStr.is_exp_mark.
  intros [H1%N.leb_le H2%N.leb_le]%andb_true_iff.
  assert (E : forall k, (k < 48 \/ 57 < k)%N ->
                        (PyStr.code c =? k)%N = false)
    by (intros k Hk; apply N.eqb_neq; lia).
  rewrite (E 46%N), (E 101%N), (E 69%N), (E 105%N), (E 110%N) by lia.
  split_and!; try done.
  destruct (N.leb_spec 65 (PyStr.code c)); [lia|done].
Qed.

(** [float(str(n)) = float(n)]. *)
Lemma float_ascii_of_int (n : Z) :
  PyStr.float_ascii (PyStr.str_of_int n) = Some (PyFloat.of_int n).
Proof.
  unfold PyStr.str_of_int, pretty, pretty_Z.
  destruct n as [|p|p]; [by vm_compute| |].
  all: change (pretty p) with (pretty (N.pos p)).
  all: destruct (pretty_pos_facts p) as (c & rest & k & Hchars & Hds & Hk).
  all: assert (Hc : PyStr.is_digit c = true) by (by inversion Hds).
  all: destruct (digit_plain c Hc) as (Hlow & Hdot & Hexp & Hi & Hn).
  all: destruct (digit_not_space_or_sign c Hc) as (Hsp & H45 & H43).
  all: assert (Hspan :
         PyStr.span_until (fun c => PyStr.is_dot c || PyStr.is_exp_mark c)
           (c :: rest) = (c :: rest, [])).
  1, 3: apply span_until_all; eapply Forall_impl; [exact Hds|];
    intros c' Hc'; destruct (digit_plain c' Hc') as (_ & -> & -> & _);
    done.
  all: assert (Hword : forall w : string,
         (exists c' w', w = String c' w'
                        /\ (PyStr.code c' =? PyStr.code c)%N = false) ->
         PyStr.unchars (map PyStr.lower_char (c :: rest)) <> w).
  1, 3: intros w (c' & w' & -> & Hne); simpl; rewrite Hlow;
    intros [= -> _]; by rewrite N.eqb_refl in Hne.
  all: assert (Hstrip : forall pre,
         (forall c', head (pre ++ c :: rest) = Some c' ->
                     PyStr.is_space c' = false) ->
         PyStr.strip (pre ++ c :: rest) = pre ++ c :: rest).
  1, 3: intros pre Hpre; apply strip_id; [done|];
    intros d Hd; rewrite last_app in Hd;
    destruct (last (c :: rest)) as [d'|] eqn:E;
    [|by apply last_None in E]; injection Hd as <-;
    apply last_Some_elem_of in E; apply digit_not_space_or_sign;
    by apply (proj1 (Forall_forall _ _) Hds).
  - assert (Hs := Hstrip [] ltac:(by intros c' [= <-])). cbn [app] in Hs.
    unfold PyStr.float_ascii. rewrite Hchars, Hs.
    unfold PyStr.split_sign. rewrite H45, H43.
    rewrite decide_False.
    2: { intros [E|E]; revert E; apply Hword; eexists _, _;
           (split; [reflexivity|]); by rewrite N.eqb_sym. }
    rewrite decide_False.
    2: { apply Hword. eexists _, _. split; [reflexivity|].
         by rewrite N.eqb_sym. }
    unfold PyStr.floatnumber. rewrite Hspan.
    unfold PyStr.opt_digitpart. rewrite Hk. cbn [PyStr.exponent].
    unfold PyFloat.of_decimal, PyFloat.of_int.
    replace (Z.pos p * 10 ^ 0 + 0) with (Z.pos p) by lia.
    change (0 - 0) with 0. cbn [cond_Zopp Z.opp].
    by replace (Z.pos p * 10 ^ 0) with (Z.pos p) by lia.
  - unfold PyStr.float_ascii. rewrite chars_app, Hchars.
    change (PyStr.chars "-") with ["-"%char].
    rewrite (Hstrip ["-"%char]) by (by intros c' [= <-]).
    cbn [app PyStr.split_sign].
    change (PyStr.code "-" =? 45)%N with true. cbn iota.
    rewrite decide_False.
    2: { intros [E|E]; revert E; apply Hword; eexists _, _;
           (split; [reflexivity|]); by rewrite N.eqb_sym. }
    rewrite decide_False.
    2: { apply Hword. eexists _, _. split; [reflexivity|].
         by rewrite N.eqb_sym. }
    unfold PyStr.floatnumber. rewrite Hspan.
    unfold PyStr.opt_digitpart. rewrite Hk. cbn [PyStr.exponent].
    unfold PyFloat.of_decimal, PyFloat.of_int.
    replace (Z.pos p * 10 ^ 0 + 0) with (Z.pos p) by lia.
    change (0 - 0) with 0. cbn [cond_Zopp Z.opp].
    by replace (Z.pos p * 10 ^ 0) with (Z.pos p) by lia.
Qed.

Lemma Forall_lstrip (P : ascii -> Prop) (l : list ascii) :
  Forall P l -> Forall P (PyStr.lstrip l).
Proof.
  induction 1 as [|c l Hc Hl IH]; [done|]. simpl.
  destruct (PyStr.is_space c); [done|]. by constructor.
Qed.

Lemma Forall_strip (P : ascii -> Prop) (l : list ascii) :
  Forall P l -> Forall P (PyStr.strip l).
Proof.
  intros H. unfold PyStr.strip.
  apply Forall_rev, Forall_lstrip, Forall_rev, Forall_lstrip, H.
Qed.

Lemma Forall_split_sign (P : ascii -> Prop) (l : list ascii) :
  Forall P l -> Forall P (PyStr.split_sign l).2.
Proof.
  intros H. destruct H as [|c l Hc Hl]; [done|]. simpl.
  destruct (PyStr.code c =? 45)%N; [done|].
  destruct (PyStr.code c =? 43)%N; [done|]. by constructor.
Qed.

Lemma span_until_app (stop : ascii -> bool) (l a b : list ascii) :
  PyStr.span_until stop l = (a, b) -> l = a ++ b.
Proof.
  revert a b. induction l as [|c l IH]; intros a b H; simpl in H.
  - by injection H as <- <-.
  - destruct (stop c); [by injection H as <- <-|].
    destruct (PyStr.span_until stop l) as [a' b'].
    injection H as <- <-. simpl. f_equal. by apply IH.
Qed.

Lemma digitpart_not_digit (c : ascii) (r : list ascii) :
  PyStr.is_digit c = false -> PyStr.digitpart (c :: r) = None.
Proof.
  intros H. unfold PyStr.digitpart. simpl. rewrite H.
  by rewrite andb_false_r.
Qed.

Lemma lower_char_n (c : ascii) :
  PyStr.lower_char c = "n"%char ->
  PyStr.code c = 110%N \/ PyStr.code c = 78%N.
Proof.
  unfold PyStr.lower_char.
  destruct (_ && _) eqn:E; [|intros ->; by left].
  apply andb_true_iff in E as [_ H%N.leb_le].
  intros Hc. right. apply (f_equal N_of_ascii) in Hc.
  rewrite N_ascii_embedding in Hc by lia. change (N_of_ascii "n") with 110%N in Hc.
  lia.
Qed.

(** A string without a digit and without the letter [n], which [inf],
    [infinity] and [nan] all hold, is no float. *)
Lemma float_ascii_no_number (s : string) :
  Forall (fun c => PyStr.is_digit c = false
                   /\ PyStr.code c <> 110%N /\ PyStr.code c <> 78%N)
    (PyStr.chars s) ->
  PyStr.float_ascii s = None.
Proof.
  intros Hs. unfold PyStr.float_ascii.
  pose proof (Forall_split_sign _ _ (Forall_strip _ _ Hs)) as Hbody.
  destruct (PyStr.split_sign (PyStr.strip (PyStr.chars s))) as [neg body].
  cbn [snd] in Hbody.
  assert (Hword : forall w : string,
            "n"%char ∈ PyStr.chars w ->
            PyStr.unchars (map PyStr.lower_char body) <> w).
  { intros w Hn E. rewrite <- E in Hn.
    assert (Hcu : forall l, PyStr.chars (PyStr.unchars l) = l)
      by (intros l; induction l as [|a l IH]; [done|]; simpl; by rewrite IH).
    rewrite Hcu in Hn. apply list_elem_of_In, in_map_iff in Hn
      as (c & Hc & Hin).
    apply list_elem_of_In in Hin.
    destruct (proj1 (Forall_forall _ _) Hbody c Hin) as (_ & H1 & H2).
    destruct (lower_char_n c Hc); done. }
  rewrite decide_False.
  2: { intros [E|E]; revert E; apply Hword; set_solver. }
  rewrite decide_False by (apply Hword; set_solver).
  unfold PyStr.floatnumber.
  destruct (PyStr.span_until _ body) as [ip rest] eqn:E1.
  apply span_until_app in E1.
  assert (Hip : ip = [] \/ exists c r, ip = c :: r /\ PyStr.is_digit c = false).
  { destruct ip as [|c r]; [by left|]. right. eexists _, _. split; [done|].
    subst body. by inversion Hbody as [|? ? [? _] _]. }
  assert (Hrest : Forall (fun c => PyStr.is_digit c = false) rest).
  { subst body. apply Forall_app in Hbody as [_ H].
    eapply Forall_impl; [exact H|]. by intros c [? _]. }
  assert (Hfp : forall fp r' r,
            PyStr.span_until PyStr.is_exp_mark r = (fp, r') ->
            Forall (fun c => PyStr.is_digit c = false) r ->
            fp = [] \/ exists c t, fp = c :: t /\ PyStr.is_digit c = false).
  { intros fp r' r E Hr. apply span_until_app in E. subst r.
    destruct fp as [|c t]; [by left|]. right. eexists _, _. split; [done|].
    by inversion Hr. }
  destruct rest as [|c r].
  - destruct Hip as [->|(c & r & -> & Hc)]; [done|].
    unfold PyStr.opt_digitpart at 1.
    by rewrite (digitpart_not_digit c r Hc).
  - destruct (PyStr.is_dot c).
    + destruct (PyStr.span_until PyStr.is_exp_mark r) as [fp r'] eqn:E2.
      destruct (Hfp fp r' r E2) as [->|(d & t & -> & Hd)];
        [by inversion Hrest| |].
      * destruct Hip as [->|(c' & r0 & -> & Hc)]; [done|].
        unfold PyStr.opt_digitpart at 1.
        by rewrite (digitpart_not_digit c' r0 Hc).
      * destruct Hip as [->|(c' & r0 & -> & Hc)].
        -- unfold PyStr.opt_digitpart. by rewrite (digitpart_not_digit d t Hd).
        -- unfold PyStr.opt_digitpart at 1.
           by rewrite (digitpart_not_digit c' r0 Hc).
    + destruct Hip as [->|(c' & r0 & -> & Hc)]; [done|].
      unfold PyStr.opt_digitpart at 1.
      by rewrite (digitpart_not_digit c' r0 Hc).
Qed.

Lemma digit_ascii (c : ascii) :
  PyStr.is_digit c = true -> (PyStr.code c <? 128)%N = true.
Proof.
  unfold PyStr.is_digit. intros [_ H%N.leb_le]%andb_true_iff.
  apply N.ltb_lt. lia.
Qed.

(** The decimal form of an integer is an ASCII string. *)
Lemma str_of_int_ascii (n : Z) : PyStr.is_ascii (PyStr.str_of_int n) = true.
Proof.
  unfold PyStr.is_ascii, PyStr.str_of_int, pretty, pretty_Z.
  apply forallb_forall. intros c Hc. apply list_elem_of_In in Hc.
  destruct n as [|p|p].
  - apply list_elem_of_singleton in Hc as ->. done.
  - change (pretty p) with (pretty (N.pos p)) in Hc.
    destruct (pretty_pos_facts p) as (c' & rest & k & E & Hds & _).
    rewrite E in Hc. apply digit_ascii.
    by apply (proj1 (Forall_forall _ _) Hds).
  - change (pretty p) with (pretty (N.pos p)) in Hc. rewrite chars_app in Hc.
    destruct (pretty_pos_facts p) as (c' & rest & k & E & Hds & _).
    rewrite E in Hc. apply elem_of_app in Hc as [Hc|Hc].
    + apply list_elem_of_singleton in Hc as ->. done.
    + apply digit_ascii. by apply (proj1 (Forall_forall _ _) Hds).
Qed.


Lemma float_of_str_of_int_eq (u : Unicode) (n : Z) :
  PyStr.float_of_str u (PyStr.str_of_int n) = Some (PyFloat.of_int n).
Proof.
  unfold PyStr.float_of_str. rewrite str_of_int_ascii.
  apply float_ascii_of_int.
Qed.

End StringFacts.

(** * Cell edits *)

Section PatchFacts.

Variable u : Unicode.
Variable py_str : json -> string.
Variable database : Database.

Local Open Scope Z_scope.

(** The validation of a cell reports the error owed to it, or none. *)
Lemma validate_cell_error (schema : gmap string string) (row_index : Z)
    (cell : string * json) :
  cell_error u py_str schema row_index cell
  = match validate_cell u py_str schema row_index cell.1 cell.2 with
    | inl err => Some err
    | inr _ => None
    end.
Proof.
  unfold validate_cell, cell_error.
  destruct (schema !! cell.1) as [ty|]; [|done].
  destruct cell.2; try done; by destruct (coerce u py_str ty _).
Qed.

Lemma fold_patch_cell (schema : gmap string string) (row_index : Z)
    (row_edits : list (string * json)) (acc : row)
    (errs : list ValidationError) :
  (fold_left (patch_cell u py_str schema row_index) row_edits (acc, errs)).2
  = errs ++ cell_errors u py_str schema row_index row_edits.
Proof.
  revert acc errs. induction row_edits as [|cell rest IH]; intros acc errs.
  - by rewrite app_nil_r.
  - unfold cell_errors. cbn [fold_left omap list_omap]. unfold patch_cell at 2.
    rewrite validate_cell_error.
    destruct (validate_cell u py_str schema row_index cell.1 cell.2);
      rewrite IH; [by rewrite <- app_assoc | done].
Qed.

(** The errors of a row are appended to those found so far. *)
Lemma patch_row_errors (schema : gmap string string) (len_data : Z)
    (entry : string * json) (acc : gmap string row)
    (errs : list ValidationError) :
  (patch_row u py_str schema len_data (acc, errs) entry).2
  = errs ++ row_errors u py_str schema len_data entry.
Proof.
  unfold row_errors, patch_row.
  destruct (PyStr.int_of_str u entry.1) as [row_index|]; [|done].
  destruct (Z.leb_spec 0 row_index), (Z.ltb_spec row_index len_data);
    cbn [andb negb]; try (rewrite decide_False by lia; done).
  rewrite decide_True by lia.
  destruct entry.2 as [| | | | |?|row_edits]; try done.
  pose proof (fold_patch_cell schema row_index row_edits ∅ errs) as H1.
  destruct (fold_left _ row_edits (∅, errs)) as [m1 e1].
  simpl in *. subst. by destruct (size m1 =? 0)%nat.
Qed.

Lemma fold_patch_row (schema : gmap string string) (len_data : Z)
    (edits : list (string * json)) (acc : gmap string row)
    (errs : list ValidationError) :
  (fold_left (patch_row u py_str schema len_data) edits (acc, errs)).2
  = errs ++ (edits ≫= row_errors u py_str schema len_data).
Proof.
  revert acc errs. induction edits as [|entry rest IH]; intros acc errs.
  - by rewrite app_nil_r.
  - change ((entry :: rest) ≫= row_errors u py_str schema len_data)
      with (row_errors u py_str schema len_data entry
            ++ (rest ≫= row_errors u py_str schema len_data)).
    cbn [fold_left].
    pose proof (patch_row_errors schema len_data entry acc errs) as H.
    destruct (patch_row u py_str schema len_data (acc, errs) entry) as [m e].
    cbn [snd] in H. subst e. by rewrite IH, <- app_assoc.
Qed.

(** The error list of a request is the errors owed to its entries, in
    order. *)
Lemma validate_edits_errors (schema : gmap string string) (len_data : Z)
    (edits : list (string * json)) :
  (validate_edits u py_str schema len_data edits).2
  = edits ≫= row_errors u py_str schema len_data.
Proof. unfold validate_edits. by rewrite fold_patch_row. Qed.

(** An invalid cell is answered for in the errors of its row. *)
Lemma invalid_cell_reported (schema : gmap string string) (len_data : Z)
    (key col : string) (v : json) (row_edits : list (string * json)) :
  (col, v) ∈ row_edits ->
  invalid_cell u py_str schema len_data key col v ->
  exists err,
    error_of_cell u py_str schema len_data key col v = Some err
    /\ err ∈ row_errors u py_str schema len_data (key, JObj row_edits).
Proof.
  intros Hin Hinv. unfold error_of_cell, row_errors. cbn [fst snd].
  destruct (PyStr.int_of_str u key) as [row_index|] eqn:Hkey.
  2: { eexists. split; [done|]. by apply list_elem_of_singleton. }
  case_decide as Hrange.
  2: { eexists. split; [done|]. by apply list_elem_of_singleton. }
  assert (exists err,
            cell_error u py_str schema row_index (col, v) = Some err)
    as [err Herr].
  { unfold cell_error. cbn [fst snd].
    destruct Hinv as [Hk | idx Hk Hr | Hcol | ty Hcol Hnn Hco].
    - congruence.
    - assert (idx = row_index) by congruence. subst. lia.
    - rewrite Hcol. by eexists.
    - rewrite Hcol, Hco. destruct v; try done; by eexists. }
  exists err. split; [done|]. unfold cell_errors.
  apply list_elem_of_omap. by exists (col, v).
Qed.


Lemma dict_update_lookup_new {V} (current : gmap string V) (k : string)
    (v : V) :
  dict_update current {[ k := v ]} !! k = Some v.
Proof.
  unfold dict_update. apply lookup_union_Some_l, lookup_singleton_eq.
Qed.

(** Without full data the request is rejected as a whole, before any
    validation. *)
Lemma patch_without_full_data (t : DataTable) (edits : list (string * json)) :
  get_data_with_edits t = None ->
  DataGridView_patch u py_str database t (JObj edits)
  = (t, PatchFullDataUnavailable).
Proof. intros H. unfold DataGridView_patch. by rewrite H. Qed.

(** A request that consists of one cell of a valid row is decided by the
    validation of that cell and then by the database. *)
Lemma patch_single_cell (t : DataTable) (data : list row) (key col : string)
    (row_index : Z) (v : json) :
  get_data_with_edits t = Some data ->
  PyStr.int_of_str u key = Some row_index ->
  0 <= row_index < Z.of_nat (length data) ->
  DataGridView_patch u py_str database t (one_cell key col v)
  = match validate_cell u py_str (get_schema t) row_index col v with
    | inl err => (t, PatchValidationFailed [err])
    | inr v' =>
        let applied : gmap string row :=
          {[ PyStr.str_of_int row_index := {[ col := v' ]} ]} in
        let saved :=
          set_edited_data_json t (dict_update (get_edited_data t) applied) in
        if save_ok database saved then (saved, PatchApplied applied)
        else (t, PatchSaveFailed)
    end.
Proof.
  intros Hdata Hkey [H0 Hn].
  unfold one_cell, DataGridView_patch, validate_edits. rewrite Hdata.
  cbn [fold_left]. unfold patch_row. cbn [fst snd]. rewrite Hkey.
  destruct (Z.leb_spec 0 row_index); [|lia].
  destruct (Z.ltb_spec row_index (Z.of_nat (length data))); [|lia].
  cbn [andb negb fold_left]. unfold patch_cell. cbn [fst snd].
  destruct (validate_cell u py_str (get_schema t) row_index col v)
    as [err|v'].
  - by rewrite map_size_empty.
  - rewrite !insert_empty, map_size_singleton. done.
Qed.

Lemma coerce_number (v : json) :
  coerce u py_str "number" v
  = match v with
    | JStr s => JFloat <$> PyStr.float_of_str u s
    | _ => if isinstance_int_float v then Some v else None
    end.
Proof. reflexivity. Qed.

(** Two one-cell requests for the same row and different columns, both
    applied: the overlay entry of the row then holds the second cell
    only. *)
Lemma second_cell_replaces_row (t t1 t2 : DataTable) (data : list row)
    (key c1 c2 : string) (row_index : Z) (v1 v2 w1 w2 : json)
    (a1 a2 : gmap string row) :
  get_data_with_edits t = Some data ->
  PyStr.int_of_str u key = Some row_index ->
  0 <= row_index < Z.of_nat (length data) ->
  validate_cell u py_str (get_schema t) row_index c1 v1 = inr w1 ->
  validate_cell u py_str (get_schema t) row_index c2 v2 = inr w2 ->
  DataGridView_patch u py_str database t (one_cell key c1 v1)
  = (t1, PatchApplied a1) ->
  DataGridView_patch u py_str database t1 (one_cell key c2 v2)
  = (t2, PatchApplied a2) ->
  get_edited_data t1 !! PyStr.str_of_int row_index = Some {[ c1 := w1 ]}
  /\ get_edited_data t2 !! PyStr.str_of_int row_index = Some {[ c2 := w2 ]}.
Proof.
  intros Hdata Hkey Hrange Hv1 Hv2 H1 H2.
  rewrite (patch_single_cell t data key c1 row_index v1) in H1 by done.
  rewrite Hv1 in H1. cbv zeta in H1.
  destruct (save_ok database _) in H1; [|discriminate H1].
  injection H1 as <- <-.
  set (t1 := set_edited_data_json t _) in *.
  assert (Hdata1 : exists data1,
             get_data_with_edits t1 = Some data1
             /\ length data1 = length data).
  { unfold get_data_with_edits in *. subst t1. cbn [full_data_json
      set_edited_data_json]. destruct (full_data_json t) as [full|];
      [|done]. simpl in *. injection Hdata as <-.
    eexists. split; [done|]. by rewrite !length_imap. }
  destruct Hdata1 as (data1 & Hdata1 & Hlen).
  rewrite (patch_single_cell t1 data1 key c2 row_index v2) in H2
    by (try done; lia).
  change (get_schema t1) with (get_schema t) in H2. rewrite Hv2 in H2.
  cbv zeta in H2. destruct (save_ok database _) in H2; [|discriminate H2].
  injection H2 as <- <-.
  unfold get_edited_data. subst t1.
  cbn [edited_data_json set_edited_data_json].
  split; apply dict_update_lookup_new.
Qed.


(** C8.  In a column declared [number], a string is accepted exactly when
    [float] reads it, and the value kept for it is then that float; a
    string that [float] does not read, and a value that is neither a string
    nor numeric, is rejected with an error naming the row, the column, the
    value and the expected type.  What [float] reads: the decimal form of
    every integer, as the float nearest to it; no ASCII string without a
    digit, unless it spells [inf], [infinity] or [nan], which hold the
    letter [n]; fractions, exponents, signs, surrounding spaces and
    underscores between digits, as in the examples. *)
Theorem number_column_validation (schema : gmap string string)
    (row_index : Z) (col : string) :
  schema !! col = Some "number" ->
  (forall s,
     (exists v',
        validate_cell u py_str schema row_index col (JStr s) = inr v')
     <-> is_Some (PyStr.float_of_str u s))
  /\ (forall s f,
        PyStr.float_of_str u s = Some f ->
        validate_cell u py_str schema row_index col (JStr s)
        = inr (JFloat f))
  /\ (forall s,
        PyStr.float_of_str u s = None ->
        validate_cell u py_str schema row_index col (JStr s)
        = inl (InvalidValue row_index col (JStr s) "number"))
  /\ (forall v,
        v <> JNull -> isinstance_str v = false ->
        isinstance_int_float v = false ->
        validate_cell u py_str schema row_index col v
        = inl (InvalidValue row_index col v "number"))
  /\ (forall n : Z,
        validate_cell u py_str schema row_index col
          (JStr (PyStr.str_of_int n))
        = inr (JFloat (PyFloat.of_int n)))
  /\ (forall s,
        PyStr.is_ascii s = true ->
        Forall (fun c => PyStr.is_digit c = false
                         /\ PyStr.code c <> 110%N /\ PyStr.code c <> 78%N)
          (PyStr.chars s) ->
        validate_cell u py_str schema row_index col (JStr s)
        = inl (InvalidValue row_index col (JStr s) "number"))
  /\ validate_cell u py_str schema row_index col (JStr "1.5")
     = inr (JFloat (S754_finite false 6755399441055744 (-52)))
  /\ validate_cell u py_str schema row_index col (JStr " -2.5e-1 ")
     = inr (JFloat (S754_finite true 4503599627370496 (-54)))
  /\ validate_cell u py_str schema row_index col (JStr "1_0e2")
     = inr (JFloat (S754_finite false 8796093022208000 (-43)))
  /\ validate_cell u py_str schema row_index col (JStr "1,5")
     = inl (InvalidValue row_index col (JStr "1,5") "number")
  /\ validate_cell u py_str schema row_index col (JStr "0x10")
     = inl (InvalidValue row_index col (JStr "0x10") "number")
  /\ validate_cell u py_str schema row_index col (JStr "1 2")
     = inl (InvalidValue row_index col (JStr "1 2") "number")
  /\ validate_cell u py_str schema row_index col
       (JStr (String (ascii_of_N 28) "1"))
     = inl (InvalidValue row_index col (JStr (String (ascii_of_N 28) "1"))
              "number").
Proof.
  intros Hcol.
  assert (Hsome : forall s f,
            PyStr.float_of_str u s = Some f ->
            validate_cell u py_str schema row_index col (JStr s)
            = inr (JFloat f)).
  { intros s f Hf. unfold validate_cell.
    by rewrite Hcol, coerce_number, Hf. }
  assert (Hnone : forall s,
            PyStr.float_of_str u s = None ->
            validate_cell u py_str schema row_index col (JStr s)
            = inl (InvalidValue row_index col (JStr s) "number")).
  { intros s Hs. unfold validate_cell. by rewrite Hcol, coerce_number, Hs. }
  split_and!.
  1: { intros s. split.
       - intros [v' Hv']. destruct (PyStr.float_of_str u s) eqn:E; [done|].
         by rewrite (Hnone s E) in Hv'.
       - intros [f Hf]. rewrite (Hsome s f Hf). by eexists. }
  1: exact Hsome.
  1: exact Hnone.
  1: { intros v Hnull Hstr Hnum. unfold validate_cell.
       rewrite Hcol, coerce_number. by destruct v. }
  1: { intros n. apply Hsome, float_of_str_of_int_eq. }
  1: { intros s Hascii Hs. apply Hnone. unfold PyStr.float_of_str.
       rewrite Hascii. by apply float_ascii_no_number. }
  all: (apply Hsome || apply Hnone); vm_compute; reflexivity.
Qed.


End PatchFacts.


Lemma number_column_validation_witness :
  (forall s,
     (exists v',
        validate_cell no_wide str_plain (get_schema demo_table) 0 "age"
          (JStr s) = inr v')
     <-> is_Some (PyStr.float_of_str no_wide s))
  /\ (forall s f,
        PyStr.float_of_str no_wide s = Some f ->
        validate_cell no_wide str_plain (get_schema demo_table) 0 "age"
          (JStr s)
        = inr (JFloat f))
  /\ (forall s,
        PyStr.float_of_str no_wide s = None ->
        validate_cell no_wide str_plain (get_schema demo_table) 0 "age"
          (JStr s)
        = inl (InvalidValue 0 "age" (JStr s) "number"))
  /\ (forall v,
        v <> JNull -> isinstance_str v = false ->
        isinstance_int_float v = false ->
        validate_cell no_wide str_plain (get_schema demo_table) 0 "age" v
        = inl (InvalidValue 0 "age" v "number"))
  /\ (forall n : Z,
        validate_cell no_wide str_plain (get_schema demo_table) 0 "age"
          (JStr (PyStr.str_of_int n))
        = inr (JFloat (PyFloat.of_int n)))
  /\ (forall s,
        PyStr.is_ascii s = true ->
        Forall (fun c => PyStr.is_digit c = false
                         /\ PyStr.code c <> 110%N /\ PyStr.code c <> 78%N)
          (PyStr.chars s) ->
        validate_cell no_wide str_plain (get_schema demo_table) 0 "age"
          (JStr s)
        = inl (InvalidValue 0 "age" (JStr s) "number"))
  /\ validate_cell no_wide str_plain (get_schema demo_table) 0 "age"
       (JStr "1.5")
     = inr (JFloat (S754_finite false 6755399441055744 (-52)))
  /\ validate_cell no_wide str_plain (get_schema demo_table) 0 "age"
       (JStr " -2.5e-1 ")
     = inr (JFloat (S754_finite true 4503599627370496 (-54)))
  /\ validate_cell no_wide str_plain (get_schema demo_table) 0 "age"
       (JStr "1_0e2")
     = inr (JFloat (S754_finite false 8796093022208000 (-43)))
  /\ validate_cell no_wide str_plain (get_schema demo_table) 0 "age"
       (JStr "1,5")
     = inl (InvalidValue 0 "age" (JStr "1,5") "number")
  /\ validate_cell no_wide str_plain (get_schema demo_table) 0 "age"
       (JStr "0x10")
     = inl (InvalidValue 0 "age" (JStr "0x10") "number")
  /\ validate_cell no_wide str_plain (get_schema demo_table) 0 "age"
       (JStr "1 2")
     = inl (InvalidValue 0 "age" (JStr "1 2") "number")
  /\ validate_cell no_wide str_plain (get_schema demo_table) 0 "age"
       (JStr (String (ascii_of_N 28) "1"))
     = inl (InvalidValue 0 "age" (JStr (String (ascii_of_N 28) "1"))
              "number").
Proof.
  apply (number_column_validation no_wide str_plain (get_schema demo_table)
           0 "age").
  reflexivity.
Defined.


(** The overlay after an applied request: a row that the request edits is
    replaced as a whole by the request's cells for it; the other rows keep
    their entry. *)
Lemma patch_applied_overlay (u : Unicode) (py_str : json -> string)
    (database : Database) (t t' : DataTable) (edits : json)
    (applied : gmap string row) (key : string) :
  DataGridView_patch u py_str database t edits = (t', PatchApplied applied) ->
  get_edited_data t' !! key
  = match applied !! key with
    | Some row_edits => Some row_edits
    | None => get_edited_data t !! key
    end.
Proof.
  unfold DataGridView_patch. intros H.
  destruct edits as [| | | | | |rows]; try discriminate H.
  destruct (get_data_with_edits t); [|discriminate H].
  destruct (validate_edits _ _ _ _ _) as [validated [|e errs]];
    [|discriminate H].
  destruct (save_ok database _); [|discriminate H].
  injection H as <- <-. unfold get_edited_data, dict_update. simpl.
  destruct (validated !! key) as [r|] eqn:E.
  - by apply lookup_union_Some_l.
  - by rewrite lookup_union_r.
Qed.

(** C1, on the code.  Two requests for the same row, both saved: the
    first sets [age] of row 0, the second sets [height] of row 0.  The
    second replaces the overlay entry of the row: the table ends in the
    state it would have without the first request, and the materialised
    row shows the original [age] again. *)
Theorem second_edit_drops_first_edit_of_row (u : Unicode)
    (py_str : json -> string) (database : Database) :
  save_ok database
    (set_edited_data_json demo_table {[ "0" := {[ "age" := JInt 31 ]} ]})
  = true ->
  save_ok database
    (set_edited_data_json demo_table {[ "0" := {[ "height" := JInt 175 ]} ]})
  = true ->
  let r1 := DataGridView_patch u py_str database demo_table
              (one_cell "0" "age" (JInt 31)) in
  let r2 := DataGridView_patch u py_str database r1.1
              (one_cell "0" "height" (JInt 175)) in
  r1.2 = PatchApplied {[ "0" := {[ "age" := JInt 31 ]} ]}
  /\ get_data_with_edits r1.1
     = Some [ {[ "age" := JInt 31; "height" := JInt 170 ]};
              {[ "age" := JInt 25; "height" := JInt 180 ]} ]
  /\ r2.2 = PatchApplied {[ "0" := {[ "height" := JInt 175 ]} ]}
  /\ get_edited_data r2.1 = {[ "0" := {[ "height" := JInt 175 ]} ]}
  /\ r2.1
     = (DataGridView_patch u py_str database demo_table
          (one_cell "0" "height" (JInt 175))).1
  /\ get_data_with_edits r2.1
     = Some [ {[ "age" := JInt 30; "height" := JInt 175 ]};
              {[ "age" := JInt 25; "height" := JInt 180 ]} ].
Proof.
  intros H1 H2 r1 r2.
  assert (Hkey : PyStr.str_of_int 0 = "0") by (vm_compute; reflexivity).
  assert (Hage : dict_update (get_edited_data demo_table)
                   {[ "0" := {[ "age" := JInt 31 ]} ]}
                 = ({[ "0" := {[ "age" := JInt 31 ]} ]} : gmap string row))
    by (vm_compute; reflexivity).
  assert (Hheight : forall current : gmap string row,
            current = ∅ \/ current = {[ "0" := {[ "age" := JInt 31 ]} ]} ->
            dict_update current {[ "0" := {[ "height" := JInt 175 ]} ]}
            = ({[ "0" := {[ "height" := JInt 175 ]} ]} : gmap string row))
    by (intros current [->| ->]; vm_compute; reflexivity).
  assert (E1 : r1 = (set_edited_data_json demo_table
                       {[ "0" := {[ "age" := JInt 31 ]} ]},
                     PatchApplied {[ "0" := {[ "age" := JInt 31 ]} ]})).
  { subst r1.
    rewrite (patch_single_cell u py_str database demo_table
               [ {[ "age" := JInt 30; "height" := JInt 170 ]};
                 {[ "age" := JInt 25; "height" := JInt 180 ]} ]
               "0" "age" 0 (JInt 31)) by first [cbn [length]; lia | vm_compute; reflexivity].
    change (validate_cell u py_str (get_schema demo_table) 0 "age" (JInt 31))
      with (inr (JInt 31) : ValidationError + json).
    cbv beta iota zeta. by rewrite Hkey, Hage, H1. }
  assert (E0 : DataGridView_patch u py_str database demo_table
                 (one_cell "0" "height" (JInt 175))
               = (set_edited_data_json demo_table
                    {[ "0" := {[ "height" := JInt 175 ]} ]},
                  PatchApplied {[ "0" := {[ "height" := JInt 175 ]} ]})).
  { rewrite (patch_single_cell u py_str database demo_table
               [ {[ "age" := JInt 30; "height" := JInt 170 ]};
                 {[ "age" := JInt 25; "height" := JInt 180 ]} ]
               "0" "height" 0 (JInt 175)) by first [cbn [length]; lia | vm_compute; reflexivity].
    change (validate_cell u py_str (get_schema demo_table) 0 "height"
              (JInt 175))
      with (inr (JInt 175) : ValidationError + json).
    cbv beta iota zeta. rewrite Hkey.
    rewrite (Hheight (get_edited_data demo_table)) by (by left).
    by rewrite H2. }
  assert (E2 : r2 = (set_edited_data_json demo_table
                       {[ "0" := {[ "height" := JInt 175 ]} ]},
                     PatchApplied {[ "0" := {[ "height" := JInt 175 ]} ]})).
  { subst r2. rewrite E1. cbn [fst].
    rewrite (patch_single_cell u py_str database _
               [ {[ "age" := JInt 31; "height" := JInt 170 ]};
                 {[ "age" := JInt 25; "height" := JInt 180 ]} ]
               "0" "height" 0 (JInt 175))
      by first [cbn [length]; lia | vm_compute; reflexivity].
    change (validate_cell u py_str _ 0 "height" (JInt 175))
      with (inr (JInt 175) : ValidationError + json).
    cbv beta iota zeta. rewrite Hkey.
    rewrite (Hheight (get_edited_data (set_edited_data_json demo_table _)))
      by (by right).
    change (set_edited_data_json (set_edited_data_json demo_table _)
              {[ "0" := {[ "height" := JInt 175 ]} ]})
      with (set_edited_data_json demo_table
              {[ "0" := {[ "height" := JInt 175 ]} ]}).
    by rewrite H2. }
  rewrite E1, E2, E0. cbn [fst snd].
  repeat apply conj; vm_compute; reflexivity.
Qed.

Lemma second_edit_drops_first_edit_of_row_witness :
  let r1 := DataGridView_patch no_wide str_plain json_columns demo_table
              (one_cell "0" "age" (JInt 31)) in
  let r2 := DataGridView_patch no_wide str_plain json_columns r1.1
              (one_cell "0" "height" (JInt 175)) in
  r1.2 = PatchApplied {[ "0" := {[ "age" := JInt 31 ]} ]}
  /\ get_data_with_edits r1.1
     = Some [ {[ "age" := JInt 31; "height" := JInt 170 ]};
              {[ "age" := JInt 25; "height" := JInt 180 ]} ]
  /\ r2.2 = PatchApplied {[ "0" := {[ "height" := JInt 175 ]} ]}
  /\ get_edited_data r2.1 = {[ "0" := {[ "height" := JInt 175 ]} ]}
  /\ r2.1
     = (DataGridView_patch no_wide str_plain json_columns demo_table
          (one_cell "0" "height" (JInt 175))).1
  /\ get_data_with_edits r2.1
     = Some [ {[ "age" := JInt 30; "height" := JInt 175 ]};
              {[ "age" := JInt 25; "height" := JInt 180 ]} ].
Proof.
  apply (second_edit_drops_first_edit_of_row no_wide str_plain json_columns);
    vm_compute; reflexivity.
Defined.

(** * Preview sampling *)

Section SamplingFacts.

Local Open Scope R_scope.

(** The stride [n / limit] as a float [s]: [s (1 - u) <= n / limit] and
    [n / limit < s (1 + u)] for [u = 2^-52]. *)
Lemma step_spec (n limit : Z) :
  (1 <= limit <= 10000)%Z -> (limit < n < 2 ^ 53)%Z ->
  exists ms es,
    PyFloat.truediv n limit = Some (S754_finite false ms es)
    /\ (2 ^ 52 <= Z.pos ms < 2 ^ 53)%Z /\ (-105 <= es <= 2)%Z
    /\ F2R ms es * IZR limit * (two52 - 1)
       <= IZR n * two52
    /\ IZR n * two52
       < F2R ms es * IZR limit * (two52 + 1).
Proof.
  intros HL Hn.
  destruct (truediv_R n limit) as (ms & es & Hdiv & Hm & He & H1 & H2);
    [lia..|].
  exists ms, es. split; [done|]. split; [done|]. split; [done|].
  pose proof (ulp_le ms es (proj1 Hm)) as Hu.
  pose proof (pow2_pos es) as Hp.
  assert (HL' : 1 <= IZR limit) by (apply IZR_le; lia).
  split; nra.
Qed.

(** The index computed for [i]: a float [a] within [2^-52] of [i * s],
    truncated. *)
Lemma sample_index_spec (ms : positive) (es i : Z) :
  (2 ^ 52 <= Z.pos ms < 2 ^ 53)%Z -> (-105 <= es <= 2)%Z ->
  (0 <= i < 2 ^ 53)%Z ->
  exists (index : Z) (a : R),
    sample_index (S754_finite false ms es) i = Some index
    /\ 0 <= a
    /\ a * (two52 - 1) <= IZR i * F2R ms es * two52
    /\ ((0 < i)%Z ->
        IZR i * F2R ms es * two52 < a * (two52 + 1))
    /\ IZR index <= a < IZR index + 1.
Proof.
  intros Hms Hes [Hi0 Hi]. unfold sample_index.
  destruct (Z.eq_dec i 0%Z) as [->|Hne].
  - exists 0%Z, 0. split; [done|]. split; [lra|]. split; [lra|].
    split; [lia|lra].
  - destruct (of_int_R i) as (mi & ei & -> & Hmi & Hei & Hv); [lia|].
    destruct (mul_R mi ms ei es) as (ma & ea & -> & Hma & H1 & H2);
      [done|done|lia|].
    destruct (to_int_bounds ma ea) as (index & -> & Hidx).
    exists index, (F2R ma ea). split; [done|].
    pose proof (F2R_pos ma ea) as Ha. pose proof (ulp_le ma ea (proj1 Hma)).
    pose proof (pow2_pos ea). rewrite Hv in H1, H2.
    split; [lra|]. split; [nra|]. split; [intros _; nra|done].
Qed.

Section Stride.

Variables (n limit : Z) (ms : positive) (es : Z).
Hypothesis Hlimit : (1 <= limit <= 10000)%Z.
Hypothesis Hn : (limit < n < 2 ^ 53)%Z.
Hypothesis Hstep :
  PyFloat.truediv n limit = Some (S754_finite false ms es).

Lemma stride_facts :
  (2 ^ 52 <= Z.pos ms < 2 ^ 53)%Z /\ (-105 <= es <= 2)%Z
  /\ F2R ms es * IZR limit * (two52 - 1)
     <= IZR n * two52
  /\ IZR n * two52
     < F2R ms es * IZR limit * (two52 + 1).
Proof.
  destruct (step_spec n limit Hlimit Hn) as (ms' & es' & Hdiv & H).
  rewrite Hstep in Hdiv. by injection Hdiv as <- <-.
Qed.

(** Every index of the loop is a valid position. *)
Lemma sample_index_range (i : Z) :
  (0 <= i < limit)%Z ->
  exists index,
    sample_index (S754_finite false ms es) i = Some index
    /\ (0 <= index < n)%Z.
Proof.
  intros Hi. destruct stride_facts as (Hms & Hes & Hs1 & Hs2).
  destruct (sample_index_spec ms es i Hms Hes)
    as (index & a & Hidx & Ha & H1 & _ & Hfl); [lia|].
  exists index. split; [done|].
  assert (Han : a < IZR n).
  { apply (stride_below (IZR limit) (IZR n) (F2R ms es) a (IZR i)).
    - split; apply IZR_le; lia.
    - apply F2R_pos.
    - done.
    - split; [apply IZR_le; lia|].
      rewrite <- minus_IZR. apply IZR_le. lia.
    - apply IZR_lt. lia.
    - done.
    - done. }
  split.
  - apply Z.lt_succ_r. apply lt_IZR. rewrite succ_IZR. lra.
  - apply lt_IZR. lra.
Qed.

(** Consecutive indices increase. *)
Lemma sample_index_step (i a b : Z) :
  (0 <= i)%Z -> (i + 1 < limit)%Z ->
  sample_index (S754_finite false ms es) i = Some a ->
  sample_index (S754_finite false ms es) (i + 1) = Some b ->
  (a < b)%Z.
Proof.
  intros Hi0 Hi Ha Hb. destruct stride_facts as (Hms & Hes & Hs1 & Hs2).
  destruct (sample_index_spec ms es i Hms Hes)
    as (a' & ra & Ha' & Hra & H1 & _ & Hfa); [lia|].
  destruct (sample_index_spec ms es (i + 1) Hms Hes)
    as (b' & rb & Hb' & Hrb & _ & H2 & Hfb); [lia|].
  rewrite Ha in Ha'. rewrite Hb in Hb'.
  injection Ha' as <-. injection Hb' as <-.
  specialize (H2 ltac:(lia)). rewrite plus_IZR in H2.
  assert (Hstep' : ra + 1 <= rb).
  { apply (stride_increasing (IZR limit) (IZR n) (F2R ms es) ra rb (IZR i)).
    - split; apply IZR_le; lia.
    - apply F2R_pos.
    - done.
    - apply IZR_le. lia.
    - rewrite <- minus_IZR, <- plus_IZR. apply IZR_le. lia.
    - rewrite <- plus_IZR. apply IZR_le. lia.
    - done.
    - done.
    - done. }
  apply lt_IZR. lra.
Qed.

(** With at most 10000 rows the index is the floor of the exact product
    [i * n / limit] or one less, and the floor itself whenever the exact
    product is not an integer. *)
Lemma sample_index_near_exact (i : Z) :
  (n <= 10000)%Z -> (0 <= i < limit)%Z ->
  exists index,
    sample_index (S754_finite false ms es) i = Some index
    /\ (exact_floor_index n limit i - 1 <= index
        <= exact_floor_index n limit i)%Z
    /\ ((i * n) mod limit <> 0 -> index = exact_floor_index n limit i)%Z.
Proof.
  intros Hn' Hi. destruct stride_facts as (Hms & Hes & Hs1 & Hs2).
  destruct (sample_index_spec ms es i Hms Hes)
    as (index & a & Hidx & Ha & H1 & H2 & Hfl); [lia|].
  exists index. split; [done|]. unfold exact_floor_index.
  set (K := (i * n / limit)%Z).
  pose proof (Z.div_mod (i * n) limit ltac:(lia)) as Hdm.
  pose proof (Z.mod_pos_bound (i * n) limit ltac:(lia)) as Hmod.
  fold K in Hdm.
  assert (HK0 : (0 <= K)%Z) by (apply Z.div_pos; nia).
  assert (HKlo : IZR K * IZR limit <= IZR i * IZR n).
  { rewrite <- !mult_IZR. apply IZR_le. lia. }
  assert (HKhi : IZR i * IZR n <= (IZR K + 1) * IZR limit - 1).
  { rewrite <- plus_IZR, <- !mult_IZR, <- minus_IZR. apply IZR_le. lia. }
  assert (H2' : IZR i * F2R ms es * two52 <= a * (two52 + 1)).
  { destruct (Z.eq_dec i 0%Z) as [->|Hne]; [nra|].
    apply Rlt_le, H2. lia. }
  destruct (stride_near (IZR limit) (IZR n) (F2R ms es) a (IZR i) (IZR K))
    as [[Hlo Hhi] Hex]; try done.
  - split; apply IZR_le; lia.
  - split; [apply IZR_lt|apply IZR_le]; lia.
  - apply F2R_pos.
  - split; [apply IZR_le; lia|].
    rewrite <- minus_IZR. apply IZR_le. lia.
  - apply IZR_le. lia.
  - split; [split|].
    + assert (IZR (K - 2) < IZR index); [|apply lt_IZR in H; lia].
      rewrite minus_IZR. lra.
    + assert (IZR index < IZR (K + 1)); [|apply lt_IZR in H; lia].
      rewrite plus_IZR. lra.
    + intros Hrem.
      assert (IZR (K - 1) < IZR index /\ IZR index < IZR (K + 1)) as [Hl Hh];
        [|apply lt_IZR in Hl; apply lt_IZR in Hh; lia].
      rewrite minus_IZR, plus_IZR.
      assert (IZR K < a); [|lra]. apply Hex.
      rewrite <- !mult_IZR, <- plus_IZR. apply IZR_le. lia.
Qed.

End Stride.

Lemma step_mono (f : nat -> Z) (a b : nat) :
  (forall k, (a <= k)%nat -> (S k < b)%nat -> (f k < f (S k))%Z) ->
  forall i j, (a <= i < j)%nat -> (j < b)%nat -> (f i < f j)%Z.
Proof.
  intros Hstep i j. induction j as [|j IH]; [lia|]. intros Hij Hj.
  destruct (decide (i = j)) as [->|Hne].
  - apply Hstep; lia.
  - etrans; [apply IH; lia|]. apply Hstep; lia.
Qed.

Lemma StronglySorted_fmap_seq (f : nat -> Z) (start len : nat) :
  (forall k, (start <= k)%nat -> (S k < start + len)%nat ->
             (f k < f (S k))%Z) ->
  StronglySorted Z.lt (f <$> seq start len).
Proof.
  revert start. induction len as [|len IH]; intros start Hstep.
  - constructor.
  - simpl. constructor.
    + apply IH. intros k Hk1 Hk2. apply Hstep; lia.
    + apply Forall_fmap, Forall_forall. intros j Hj.
      apply elem_of_seq in Hj. simpl.
      apply (step_mono f start (start + S len)); [done|lia|lia].
Qed.

Lemma Forall2_fmap_default (g : Z -> option Z) (l l' : list Z) :
  Forall2 (fun i index => g i = Some index) l l' ->
  l' = (fun i => default 0%Z (g i)) <$> l.
Proof.
  induction 1 as [|i index l l' Hg _ IH]; [done|].
  rewrite fmap_cons, Hg. simpl. by f_equal.
Qed.

(** The sampling loop over a list of positions that all yield a valid
    index: one row is appended per position. *)
Lemma preview_loop (data : list row) (step : spec_float) (positions : list Z)
    (acc : list row) :
  Forall (fun i => exists index,
            sample_index step i = Some index
            /\ (0 <= index < Z.of_nat (length data))%Z) positions ->
  exists indices rows,
    Forall2 (fun i index => sample_index step i = Some index)
      positions indices
    /\ Forall2 (fun index r => data !! Z.to_nat index = Some r) indices rows
    /\ Forall (fun index => (0 <= index < Z.of_nat (length data))%Z) indices
    /\ fold_left (preview_step data (Z.of_nat (length data)) step) positions
         (Some acc)
       = Some (acc ++ rows).
Proof.
  revert acc. induction positions as [|i rest IH]; intros acc Hall.
  - exists [], []. repeat split; try constructor. by rewrite app_nil_r.
  - apply Forall_cons in Hall as [(index & Hidx & Hrange) Hrest].
    destruct (lookup_lt_is_Some_2 data (Z.to_nat index)) as [r Hr]; [lia|].
    destruct (IH (acc ++ [r]) Hrest) as (indices & rows & H1 & H2 & H3 & H4).
    exists (index :: indices), (r :: rows).
    split; [by constructor|]. split; [by constructor|].
    split; [by constructor|].
    cbn [fold_left]. unfold preview_step at 2. simpl. rewrite Hidx. simpl.
    destruct (Z.ltb_spec index (Z.of_nat (length data))); [|lia].
    unfold py_getitem. destruct (Z.ltb_spec index 0); [lia|].
    rewrite Hr. simpl. rewrite H4. by rewrite <- app_assoc.
Qed.

(** The sampled branch of the preview: the stride is a float, every
    position yields a valid index, and the rows at those indices are
    returned in order. *)
Lemma preview_sampled_rows (data : list row) (limit : Z) :
  (1 <= limit <= 10000)%Z ->
  (limit < Z.of_nat (length data) < 2 ^ 53)%Z ->
  exists ms es indices rows,
    PyFloat.truediv (Z.of_nat (length data)) limit
    = Some (S754_finite false ms es)
    /\ Forall2 (fun i index =>
                  sample_index (S754_finite false ms es) i = Some index)
         (py_range limit) indices
    /\ Forall2 (fun index r => data !! Z.to_nat index = Some r) indices rows
    /\ Forall (fun index => (0 <= index < Z.of_nat (length data))%Z) indices
    /\ preview data limit
       = PreviewOk
           (mkPreview rows (Z.of_nat (length data))
              (Z.of_nat (length rows)) true).
Proof.
  intros Hlimit Hn.
  destruct (step_spec _ _ Hlimit Hn) as (ms & es & Hstep & _).
  destruct (preview_loop data (S754_finite false ms es) (py_range limit) [])
    as (indices & rows & H1 & H2 & H3 & H4).
  { apply Forall_forall. intros i Hi. unfold py_range in Hi.
    apply list_elem_of_fmap in Hi as (k & -> & Hk). apply elem_of_seq in Hk.
    apply (sample_index_range _ limit ms es); [done..|lia]. }
  exists ms, es, indices, rows. split; [done|]. split; [done|].
  split; [done|]. split; [done|].
  unfold preview. destruct (Z.gtb_spec (Z.of_nat (length data)) limit); [|lia].
  rewrite Hstep. simpl. by rewrite H4.
Qed.

End SamplingFacts.


(** C6.  With [1 <= limit <= 10000] and more rows than the limit, the
    preview reports [is_sampled = true] and returns exactly the rows at the
    indices [int(i * step)], [i = 0 .. limit - 1], where
    [step = len(rows) / limit] and the products are computed in binary64:
    every such index is below [len(rows)], so none is skipped and [limit]
    rows are returned, in original order; the indices are strictly
    increasing and start at 0.  With at most 10000 rows an index is
    [floor(i * len(rows) / limit)] or one less, and one less only where
    [limit] divides [i * len(rows)]. *)
Theorem preview_sampled (data : list row) (limit : Z) :
  (1 <= limit <= 10000)%Z ->
  (limit < Z.of_nat (length data) < 2 ^ 53)%Z ->
  exists step indices rows,
    PyFloat.truediv (Z.of_nat (length data)) limit = Some step
    /\ Forall2 (fun i index => sample_index step i = Some index)
         (py_range limit) indices
    /\ Forall2 (fun index r => data !! Z.to_nat index = Some r) indices rows
    /\ preview data limit
       = PreviewOk (mkPreview rows (Z.of_nat (length data)) limit true)
    /\ length rows = Z.to_nat limit
    /\ Forall (fun index => (0 <= index < Z.of_nat (length data))%Z) indices
    /\ StronglySorted Z.lt indices
    /\ head indices = Some 0%Z
    /\ ((Z.of_nat (length data) <= 10000)%Z ->
        Forall2
          (fun i index =>
             let exact :=
               exact_floor_index (Z.of_nat (length data)) limit i in
             (exact - 1 <= index <= exact)%Z
             /\ ((i * Z.of_nat (length data)) mod limit <> 0 ->
                 index = exact)%Z)
          (py_range limit) indices).
Proof.
  intros Hlimit Hn.
  destruct (preview_sampled_rows data limit Hlimit Hn)
    as (ms & es & indices & rows & Hstep & H1 & H2 & H3 & H4).
  assert (Hlen : length rows = Z.to_nat limit).
  { rewrite <- (Forall2_length _ _ _ H2), <- (Forall2_length _ _ _ H1).
    unfold py_range. by rewrite length_fmap, length_seq. }
  exists (S754_finite false ms es), indices, rows.
  split; [done|]. split; [done|]. split; [done|].
  split; [by rewrite H4, Hlen, Z2Nat.id by lia|].
  split; [done|]. split; [done|].
  pose proof (Forall2_fmap_default _ _ _ H1) as Hind.
  split; [|split].
  - unfold py_range in Hind. rewrite <- list_fmap_compose in Hind.
    rewrite Hind. apply StronglySorted_fmap_seq. intros k _ Hk. simpl.
    destruct (sample_index_range _ limit ms es Hlimit Hn Hstep (Z.of_nat k))
      as (a & Ha & _); [lia|].
    destruct (sample_index_range _ limit ms es Hlimit Hn Hstep
                (Z.of_nat (S k))) as (b & Hb & _); [lia|].
    rewrite Ha, Hb. simpl.
    apply (sample_index_step _ limit ms es Hlimit Hn Hstep (Z.of_nat k));
      [lia|lia|done|].
    by replace (Z.of_nat k + 1)%Z with (Z.of_nat (S k)) by lia.
  - rewrite Hind. unfold py_range.
    destruct (Z.to_nat limit) as [|m] eqn:E; [lia|]. done.
  - intros Hcap. rewrite Hind. apply Forall2_fmap_r, Forall_Forall2_diag.
    apply Forall_forall. intros i Hi. unfold py_range in Hi.
    apply list_elem_of_fmap in Hi as (k & -> & Hk). apply elem_of_seq in Hk.
    destruct (sample_index_near_exact _ limit ms es Hlimit Hn Hstep
                (Z.of_nat k) Hcap) as (index & Hidx & Hnear); [lia|].
    unfold compose. cbv beta. rewrite Hidx. exact Hnear.
Qed.

Lemma preview_sampled_witness :
  exists step indices rows,
    PyFloat.truediv (Z.of_nat (length (numbered_rows 3))) 2 = Some step
    /\ Forall2 (fun i index => sample_index step i = Some index)
         (py_range 2) indices
    /\ Forall2 (fun index r => numbered_rows 3 !! Z.to_nat index = Some r)
         indices rows
    /\ preview (numbered_rows 3) 2
       = PreviewOk
           (mkPreview rows (Z.of_nat (length (numbered_rows 3))) 2 true)
    /\ length rows = Z.to_nat 2
    /\ Forall (fun index =>
                 (0 <= index < Z.of_nat (length (numbered_rows 3)))%Z) indices
    /\ StronglySorted Z.lt indices
    /\ head indices = Some 0%Z
    /\ ((Z.of_nat (length (numbered_rows 3)) <= 10000)%Z ->
        Forall2
          (fun i index =>
             let exact :=
               exact_floor_index (Z.of_nat (length (numbered_rows 3))) 2 i in
             (exact - 1 <= index <= exact)%Z
             /\ ((i * Z.of_nat (length (numbered_rows 3))) mod 2 <> 0 ->
                 index = exact)%Z)
          (py_range 2) indices).
Proof.
  apply (preview_sampled (numbered_rows 3) 2); [lia|].
  vm_compute. split; reflexivity.
Defined.

(** With 30 rows and limit 22 the twelfth sample is row 14: the float
    [11 * (30 / 22)] lies just below 15, which is the quotient of
    [11 * 30] by 22 in exact arithmetic. *)
Example preview_30_22 :
  exists body,
    preview (numbered_rows 30) 22 = PreviewOk body
    /\ pv_is_sampled body = true
    /\ pv_data body !! 11%nat = Some {[ "id" := JInt 14 ]}
    /\ exact_floor_index 30 22 11 = 15%Z.
Proof.
  eexists. split; [vm_compute; reflexivity|].
  split; [reflexivity|]. split; reflexivity.
Qed.



(** * Ingestion *)

Section IngestionFacts.

Variable env : Collaborators.
Variable database : Database.

(** After the sanitising loop every cell is a plain value, and none is the
    float NaN. *)
Lemma sanitize_value_plain (value : raw_value) :
  exists v, sanitize_value value = RawPlain v /\ v <> JFloat S754_nan.
Proof.
  unfold sanitize_value.
  destruct (isna value) eqn:Hna; [by exists JNull|].
  destruct value as [|iso|[v|]|v].
  - done.
  - by exists (JStr iso).
  - exists v. split; [done|]. by intros ->.
  - by exists JNull.
  - exists v. split; [done|]. by intros ->.
Qed.

Lemma set_full_data_matches (project_id : Z) (f : UploadedFile)
    (t : DataTable) (d : option (list row)) :
  table_matches project_id f t ->
  table_matches project_id f (set_full_data_json t d).
Proof. done. Qed.

(** C7.  Once a request for [(project, source file)] has been answered
    with a table, a second request for the same pair, meeting the same
    collaborators and the same database, leaves the stored tables as they
    are, so no second table is created, and is answered with that very
    table: same schema, row count and full rows. *)
Theorem ingestion_idempotent (db db1 : list DataTable) (project_id : Z)
    (f : UploadedFile) (t1 : DataTable) :
  DataIngestionView_post env database db project_id f = (db1, Ingest200 t1)
  \/ DataIngestionView_post env database db project_id f = (db1, Ingest201 t1) ->
  exists t2,
    DataIngestionView_post env database db1 project_id f = (db1, Ingest200 t2)
    /\ schema_json t2 = schema_json t1
    /\ num_rows t2 = num_rows t1
    /\ full_data_json t2 = full_data_json t1.
Proof.
  intros Hfirst.
  assert (Hsecond :
    DataIngestionView_post env database db1 project_id f = (db1, Ingest200 t1)).
  { unfold DataIngestionView_post in Hfirst.
    destruct (list_find (table_matches project_id f) db)
      as [[i existing]|] eqn:Hfind.
    - apply list_find_Some in Hfind as (Hi & Hm & Hleast).
      destruct (decide (full_data_json existing = None
                        /\ (num_rows existing <= 10000)%Z)) as [Hc|Hc].
      + destruct (load_full_data env f) as [full|] eqn:Hload.
        * destruct (save_ok database
                      (set_full_data_json existing (Some full))) eqn:Hsave.
          2: { assert (db1 = db
                       /\ t1 = set_full_data_json existing (Some full))
                 as [-> ->] by (destruct Hfirst as [H|H]; by inversion H).
               unfold DataIngestionView_post.
               rewrite (proj2 (list_find_Some _ _ _ _)) by done.
               by rewrite decide_True, Hload, Hsave by done. }
          assert (db1 = <[i := set_full_data_json existing (Some full)]> db
                  /\ t1 = set_full_data_json existing (Some full))
            as [-> ->] by (destruct Hfirst as [H|H]; by inversion H).
          unfold DataIngestionView_post.
          assert (list_find (table_matches project_id f)
                    (<[i := set_full_data_json existing (Some full)]> db)
                  = Some (i, set_full_data_json existing (Some full))) as ->.
          { apply list_find_Some. split_and!.
            - apply list_lookup_insert_eq. by eapply lookup_lt_Some.
            - by apply set_full_data_matches.
            - intros j y Hj Hlt. rewrite list_lookup_insert_ne in Hj by lia.
              by eapply Hleast. }
          by rewrite decide_False by (simpl; intros [? _]; done).
        * assert (db1 = db /\ t1 = existing) as [-> ->]
            by (destruct Hfirst as [H|H]; by inversion H).
          unfold DataIngestionView_post.
          rewrite (proj2 (list_find_Some _ _ _ _)) by done.
          by rewrite decide_True, Hload by done.
      + assert (db1 = db /\ t1 = existing) as [-> ->]
          by (destruct Hfirst as [H|H]; by inversion H).
        unfold DataIngestionView_post.
        rewrite (proj2 (list_find_Some _ _ _ _)) by done.
        by rewrite decide_False by done.
    - destruct (parse_file env f) as [parsed| |];
        [|destruct Hfirst as [H|H]; discriminate H..].
      set (full_data := if (pd_num_rows parsed <=? 10000)%Z
                        then load_full_data env f else None) in *.
      set (t := mkDataTable project_id (file_id f) (pd_schema parsed)
                  (pd_num_rows parsed) (pd_sample_data parsed) full_data ∅)
        in *.
      destruct (create_ok database t);
        [|destruct Hfirst as [H|H]; discriminate H].
      assert (db1 = db ++ [t] /\ t1 = t) as [-> ->]
        by (destruct Hfirst as [H|H]; by inversion H).
      unfold DataIngestionView_post.
      rewrite list_find_app_r by done. simpl.
      rewrite decide_True by (split; reflexivity). simpl.
      case_decide as Hc; [destruct Hc as [Hn Hle]|done].
      simpl in Hn, Hle. subst full_data.
      destruct (Z.leb_spec (pd_num_rows parsed) 10000); [|lia].
      by rewrite Hn. }
  by exists t1.
Qed.

End IngestionFacts.

Lemma ingestion_idempotent_witness :
  exists t2,
    DataIngestionView_post demo_env json_columns [demo_ingested] 1 demo_file
    = ([demo_ingested], Ingest200 t2)
    /\ schema_json t2 = schema_json demo_ingested
    /\ num_rows t2 = num_rows demo_ingested
    /\ full_data_json t2 = full_data_json demo_ingested.
Proof.
  apply (ingestion_idempotent demo_env json_columns [] [demo_ingested] 1 demo_file
           demo_ingested).
  right. reflexivity.
Defined.

(** * The spec's concrete scenarios, evaluated *)

(** Schema [{"age": "number"}], rows [{"age": 30}] and [{"age": 25}], on
    the database of the examples. *)
Example scenario_edit_accepted (u : Unicode) (py_str : json -> string) :
  let t := mkDataTable 1 1 {[ "age" := "number" ]} 2 []
             (Some [ {[ "age" := JInt 30 ]}; {[ "age" := JInt 25 ]} ]) ∅ in
  let r := DataGridView_patch u py_str json_columns t
             (one_cell "0" "age" (JStr "31")) in
  r.2 = PatchApplied
          {[ "0" := {[ "age" := JFloat (S754_finite false
                                          8725724278030336 (-48)) ]} ]}
  /\ get_data_with_edits r.1
     = Some [ {[ "age" := JFloat (S754_finite false
                                     8725724278030336 (-48)) ]};
              {[ "age" := JInt 25 ]} ]
  /\ PyFloat.to_int (S754_finite false 8725724278030336 (-48)) = Some 31%Z
  /\ DataGridView_get r.1 1 1
     = GridPage [ {[ "age" := JFloat (S754_finite false
                                         8725724278030336 (-48)) ]} ]
         (mkPagination 1 1 2 2 true false)
  /\ DataGridView_get r.1 3 1 = GridPageOutOfRange.
Proof. repeat apply conj; vm_compute; reflexivity. Qed.

Example scenario_edit_out_of_range (u : Unicode) (py_str : json -> string)
    (database : Database) :
  let t := mkDataTable 1 1 {[ "age" := "number" ]} 2 []
             (Some [ {[ "age" := JInt 30 ]}; {[ "age" := JInt 25 ]} ]) ∅ in
  DataGridView_patch u py_str database t (one_cell "5" "age" (JInt 1))
  = (t, PatchValidationFailed [RowIndexOutOfRange 5]).
Proof. vm_compute. reflexivity. Qed.

(** 10 000 rows and [limit = 1000]: exactly 1000 rows, from row 0 to
    row 9990. *)
Example scenario_preview_10000 :
  match preview (numbered_rows 10000) 1000 with
  | PreviewOk body =>
      pv_is_sampled body = true
      /\ length (pv_data body) = 1000%nat
      /\ head (pv_data body) = Some {[ "id" := JInt 0 ]}
      /\ last (pv_data body) = Some {[ "id" := JInt 9990 ]}
  | _ => False
  end.
Proof. vm_compute. repeat apply conj; reflexivity. Qed.

(** The string ["nan"] sent to a column declared [number] passes the
    validation as the float NaN.  The database of the examples refuses the
    record and the request is answered 500, the table staying as it was; a
    database that takes the record stores NaN in the overlay. *)
Example nan_string_in_number_column (u : Unicode) (py_str : json -> string) :
  validate_cell u py_str (get_schema demo_table) 0 "age" (JStr "nan")
  = inr (JFloat S754_nan)
  /\ DataGridView_patch u py_str json_columns demo_table
       (one_cell "0" "age" (JStr "nan"))
     = (demo_table, PatchSaveFailed)
  /\ get_edited_data
       (DataGridView_patch u py_str (mkDatabase (fun _ => true) (fun _ => true))
          demo_table (one_cell "0" "age" (JStr "nan"))).1
     = {[ "0" := {[ "age" := JFloat S754_nan ]} ]}.
Proof. repeat apply conj; vm_compute; reflexivity. Qed.
(** * Pagination: what a served page holds *)

Section PageFacts.

Local Open Scope Z_scope.

(** X11.  Row [j] of page [page] is row [(page - 1) * page_size + j] of the
    data; a served page holds at least one row and at most [page_size],
    and fewer than [page_size] only when the data ends on it. *)
Theorem page_row_lookup (data : list row) (page page_size : Z) :
  1 <= page -> 1 <= page_size ->
  (page - 1) * page_size < Z.of_nat (length data) ->
  exists rows pg,
    paginate data page page_size = GridPage rows pg
    /\ Z.of_nat (length rows)
       = Z.min page_size (Z.of_nat (length data) - (page - 1) * page_size)
    /\ (1 <= length rows)%nat
    /\ forall j : nat,
         (j < length rows)%nat ->
         rows !! j = data !! (Z.to_nat ((page - 1) * page_size) + j)%nat.
Proof.
  intros Hpage Hps Hlt. rewrite paginate_ok by done.
  eexists _, _. split; [done|].
  assert (Hlen :
    Z.of_nat (length
      (take (Z.to_nat (Z.min (page * page_size) (Z.of_nat (length data))
                       - (page - 1) * page_size))
         (drop (Z.to_nat ((page - 1) * page_size)) data)))
    = Z.min page_size (Z.of_nat (length data) - (page - 1) * page_size)).
  { rewrite length_take, length_drop.
    assert (0 <= (page - 1) * page_size) by nia. lia. }
  split; [exact Hlen|]. split; [lia|].
  intros j Hj. rewrite lookup_take_lt, lookup_drop; [done|].
  rewrite length_take in Hj. lia.
Qed.

Lemma page_row_lookup_witness :
  exists rows pg,
    paginate (numbered_rows 5) 2 2 = GridPage rows pg
    /\ Z.of_nat (length rows)
       = Z.min 2 (Z.of_nat (length (numbered_rows 5)) - (2 - 1) * 2)
    /\ (1 <= length rows)%nat
    /\ forall j : nat,
         (j < length rows)%nat ->
         rows !! j = numbered_rows 5 !! (Z.to_nat ((2 - 1) * 2) + j)%nat.
Proof.
  apply (page_row_lookup (numbered_rows 5) 2 2);
    [lia | lia | vm_compute; reflexivity].
Defined.

(** X12.  On a served page, [has_next] holds exactly when the request for
    the following page is served as well, which is when
    [page < total_pages]; [has_previous] holds exactly when [page > 1], and
    the preceding page is then served; the page number is at most
    [total_pages]. *)
Theorem has_next_iff_next_page_served (data rows : list row)
    (page page_size : Z) (pg : Pagination) :
  1 <= page -> 1 <= page_size ->
  paginate data page page_size = GridPage rows pg ->
  (has_next pg = true
   <-> exists rows' pg',
         paginate data (page + 1) page_size = GridPage rows' pg')
  /\ (has_next pg = true <-> page < total_pages pg)
  /\ (has_previous pg = true <-> 1 < page)
  /\ (has_previous pg = true ->
      exists rows' pg',
        paginate data (page - 1) page_size = GridPage rows' pg')
  /\ page <= total_pages pg.
Proof.
  intros Hpage Hps Hserved.
  assert (Hlt : (page - 1) * page_size < Z.of_nat (length data)).
  { destruct (Z.lt_ge_cases ((page - 1) * page_size)
                (Z.of_nat (length data))) as [|Hge]; [done|].
    unfold paginate in Hserved.
    destruct (Z.geb_spec ((page - 1) * page_size) (Z.of_nat (length data)));
      [discriminate Hserved | lia]. }
  rewrite paginate_ok in Hserved by done. injection Hserved as <- <-.
  cbn [has_next has_previous total_pages].
  set (n := Z.of_nat (length data)) in *.
  assert (Hnext : (Z.min ((page - 1) * page_size + page_size) n <? n) = true
                  <-> page * page_size < n).
  { rewrite Z.ltb_lt. lia. }
  split; [|split; [|split; [|split]]].
  - rewrite Hnext. split.
    + intros H. rewrite paginate_ok by (try lia; subst n; lia). eauto.
    + intros (rows' & pg' & H). unfold paginate in H.
      fold n in H.
      destruct (Z.geb_spec ((page + 1 - 1) * page_size) n);
        [discriminate H | lia].
  - rewrite Hnext. symmetry. apply ceil_div_gt. done.
  - rewrite Z.gtb_gt. lia.
  - rewrite Z.gtb_gt. intros Hp.
    rewrite paginate_ok by (try lia; subst n; nia). eauto.
  - assert (page - 1 < ceil_div n page_size); [|lia].
    apply ceil_div_gt; done.
Qed.

Lemma has_next_iff_next_page_served_witness :
  (has_next (mkPagination 1 1 2 2 true false) = true
   <-> exists rows' pg',
         paginate [∅; ∅] (1 + 1) 1 = GridPage rows' pg')
  /\ (has_next (mkPagination 1 1 2 2 true false) = true
      <-> 1 < total_pages (mkPagination 1 1 2 2 true false))
  /\ (has_previous (mkPagination 1 1 2 2 true false) = true <-> 1 < 1)
  /\ (has_previous (mkPagination 1 1 2 2 true false) = true ->
      exists rows' pg',
        paginate [∅; ∅] (1 - 1) 1 = GridPage rows' pg')
  /\ 1 <= total_pages (mkPagination 1 1 2 2 true false).
Proof.
  apply (has_next_iff_next_page_served [∅; ∅] [∅] 1 1);
    [lia | lia | reflexivity].
Defined.

(** X13.  A page number below 1 is not rejected.  Page 0 is answered with
    an empty page; a negative page, whose slice bounds are both negative,
    is answered with rows counted from the end of the data.  Neither
    reports a previous page. *)
Theorem nonpositive_page_served (data : list row) (page page_size : Z) :
  page <= 0 -> 1 <= page_size ->
  let n := Z.of_nat (length data) in
  exists rows pg,
    paginate data page page_size = GridPage rows pg
    /\ has_previous pg = false
    /\ total_rows pg = n
    /\ (page = 0 -> rows = [] /\ has_next pg = bool_decide (0 < n))
    /\ (page < 0 ->
        let s := Z.max 0 (n + (page - 1) * page_size) in
        let e := Z.max 0 (n + page * page_size) in
        rows = take (Z.to_nat (e - s)) (drop (Z.to_nat s) data)).
Proof.
  intros Hpage Hps n. unfold paginate. fold n.
  destruct (Z.geb_spec ((page - 1) * page_size) n); [lia|].
  destruct (Z.eqb_spec page_size 0); [lia|].
  eexists _, _. split; [done|]. cbn [has_previous total_rows has_next].
  split; [rewrite Z.gtb_ltb; apply Z.ltb_ge; lia|]. split; [done|]. split.
  - intros ->. split.
    + unfold py_slice, slice_bound. fold n.
      rewrite (Z.min_l ((0 - 1) * page_size + page_size) n) by lia.
      destruct (Z.ltb_spec ((0 - 1) * page_size) 0); [|lia].
      destruct (Z.ltb_spec ((0 - 1) * page_size + page_size) 0); [lia|].
      rewrite (Z.min_l _ n) by lia.
      by replace (Z.to_nat _) with 0%nat by lia.
    + rewrite Z.min_l by lia.
      replace ((0 - 1) * page_size + page_size) with 0 by lia.
      apply eq_iff_eq_true. rewrite bool_decide_eq_true. apply Z.ltb_lt.
  - intros Hneg. unfold py_slice, slice_bound. fold n.
    destruct (Z.ltb_spec ((page - 1) * page_size) 0); [|nia].
    rewrite (Z.min_l ((page - 1) * page_size + page_size) n) by nia.
    destruct (Z.ltb_spec ((page - 1) * page_size + page_size) 0); [|nia].
    do 2 f_equal; lia.
Qed.

Lemma nonpositive_page_served_witness :
  let n := Z.of_nat (length (numbered_rows 5)) in
  exists rows pg,
    paginate (numbered_rows 5) (-1) 2 = GridPage rows pg
    /\ has_previous pg = false
    /\ total_rows pg = n
    /\ (-1 = 0 -> rows = [] /\ has_next pg = bool_decide (0 < n))
    /\ (-1 < 0 ->
        let s := Z.max 0 (n + (-1 - 1) * 2) in
        let e := Z.max 0 (n + -1 * 2) in
        rows = take (Z.to_nat (e - s)) (drop (Z.to_nat s) (numbered_rows 5))).
Proof. apply (nonpositive_page_served (numbered_rows 5) (-1) 2); lia. Defined.

(** X14.  With [page_size = 0] no page is ever served: the start index is 0
    whatever the page, so an empty table is answered with "Page out of
    range" and any other table runs into the division by zero of
    [total_pages]. *)
Theorem zero_page_size_never_served (data : list row) (page : Z) :
  paginate data page 0
  = if decide (data = []) then GridPageOutOfRange else GridZeroDivisionError.
Proof.
  unfold paginate. rewrite Z.mul_0_r.
  destruct data as [|r data]; [done|].
  rewrite decide_False by done.
  destruct (Z.geb_spec 0 (Z.of_nat (length (r :: data)))) as [H|H];
    [simpl in H; lia | done].
Qed.

End PageFacts.

(** * Row keys: [str] and [int] *)

Section RowKeys.

Variable u : Unicode.

Local Open Scope Z_scope.


(** X10.  The text of an integer in a number column.  [float] reads an
    integer written in decimal as the float of that integer,
    [float(str(n)) = float(n)], so the cell is accepted and stored as the
    binary64 number nearest to [n]; from 0 to [2^53] that number is [n]
    itself, [int(float(str(n))) = n]. *)
Theorem integer_text_in_number_column (py_str : json -> string)
    (schema : gmap string string) (row_index : Z) (column_name : string)
    (n : Z) :
  schema !! column_name = Some "number" ->
  validate_cell u py_str schema row_index column_name
    (JStr (PyStr.str_of_int n))
  = inr (JFloat (PyFloat.of_int n))
  /\ PyStr.float_of_str u (PyStr.str_of_int n) = Some (PyFloat.of_int n)
  /\ (0 <= n < 2 ^ 53 -> PyFloat.to_int (PyFloat.of_int n) = Some n).
Proof.
  intros Hcol. pose proof (float_of_str_of_int_eq u n) as Hf.
  split; [|split].
  - unfold validate_cell. rewrite Hcol. unfold coerce.
    rewrite decide_True by done. by rewrite Hf.
  - done.
  - intros [H0 Hn].
    destruct (decide (n = 0)) as [->|Hne]; [done|].
    destruct (of_int_spec n) as (m & e & -> & Hm & He & Hv); [lia|].
    cbn [PyFloat.to_int cond_Zopp]. f_equal.
    rewrite Z.shiftl_div_pow2, Hv by lia.
    apply Z.div_mul. apply Z.pow_nonzero; lia.
Qed.

End RowKeys.

Lemma integer_text_in_number_column_witness :
  validate_cell no_wide str_plain (get_schema demo_table) 0 "age"
    (JStr (PyStr.str_of_int 31))
  = inr (JFloat (PyFloat.of_int 31))
  /\ PyStr.float_of_str no_wide (PyStr.str_of_int 31)
     = Some (PyFloat.of_int 31)
  /\ ((0 <= 31 < 2 ^ 53)%Z -> PyFloat.to_int (PyFloat.of_int 31) = Some 31%Z).
Proof.
  apply (integer_text_in_number_column no_wide str_plain
           (get_schema demo_table) 0 "age" 31).
  reflexivity.
Defined.

(** * Cell edits: the overlay that requests build *)

Section OverlayFacts.

Variable u : Unicode.
Variable py_str : json -> string.
Variable database : Database.

Local Open Scope Z_scope.

Lemma coerce_fits (expected_type : string) (v w : json) :
  coerce u py_str expected_type v = Some w -> fits_type expected_type w = true.
Proof.
  unfold coerce, fits_type. intros H.
  destruct (decide (expected_type = "number")).
  { destruct v; simpl in H; try discriminate H;
      try (injection H as <-; done).
    destruct (PyStr.float_of_str u s); [|discriminate H].
    by injection H as <-. }
  destruct (decide (expected_type = "boolean")).
  { destruct v; simpl in H; try discriminate H; by injection H as <-. }
  destruct (decide (expected_type = "string")).
  { by injection H as <-. }
  by destruct w.
Qed.

Lemma validate_cell_fits (schema : gmap string string) (row_index : Z)
    (column_name : string) (v w : json) :
  validate_cell u py_str schema row_index column_name v = inr w ->
  exists expected_type,
    schema !! column_name = Some expected_type
    /\ fits_type expected_type w = true.
Proof.
  unfold validate_cell. intros H.
  destruct (schema !! column_name) as [ty|]; [|discriminate H].
  exists ty. split; [done|].
  destruct (coerce u py_str ty v) as [w'|] eqn:Hco.
  - destruct v; injection H as <-; try done; by eapply coerce_fits.
  - destruct v; try discriminate H. by injection H as <-.
Qed.

Lemma fold_patch_cell_ok (schema : gmap string string) (row_index : Z)
    (row_edits : list (string * json)) (acc : row)
    (errs : list ValidationError) :
  row_edits_ok schema acc ->
  row_edits_ok schema
    (fold_left (patch_cell u py_str schema row_index) row_edits (acc, errs)).1.
Proof.
  revert acc errs. induction row_edits as [|cell rest IH]; intros acc errs Hacc;
    [done|].
  cbn [fold_left]. unfold patch_cell at 2.
  destruct (validate_cell u py_str schema row_index cell.1 cell.2) as [err|w]
    eqn:Hv; [by apply IH|].
  apply IH. intros col v. destruct (decide (col = cell.1)) as [->|Hne].
  - rewrite lookup_insert_eq. intros [= <-]. by eapply validate_cell_fits.
  - rewrite lookup_insert_ne by done. apply Hacc.
Qed.

Lemma patch_row_ok (schema : gmap string string) (len_data : Z)
    (entry : string * json) (acc : gmap string row)
    (errs : list ValidationError) :
  overlay_ok schema len_data acc ->
  overlay_ok schema len_data
    (patch_row u py_str schema len_data (acc, errs) entry).1.
Proof.
  intros Hacc. unfold patch_row.
  destruct (PyStr.int_of_str u entry.1) as [row_index|]; [|done].
  destruct (negb _) eqn:Hrange; [done|].
  apply negb_false_iff, andb_true_iff in Hrange as [H0%Z.leb_le Hn%Z.ltb_lt].
  destruct entry.2 as [| | | | |?|row_edits]; try done.
  pose proof (fold_patch_cell_ok schema row_index row_edits ∅ errs) as Hrow.
  destruct (fold_left _ row_edits (∅, errs)) as [m e]. cbn [fst] in *.
  destruct (Nat.eqb_spec (size m) 0) as [Hsz|Hsz]; [done|]. cbn [fst].
  intros key r.
  destruct (decide (key = PyStr.str_of_int row_index)) as [->|Hne].
  - rewrite lookup_insert_eq. intros [= <-]. split; [by eauto|]. split.
    + intros ->. by rewrite map_size_empty in Hsz.
    + apply Hrow. intros col v. by rewrite lookup_empty.
  - rewrite lookup_insert_ne by done. apply Hacc.
Qed.

Lemma fold_patch_row_ok (schema : gmap string string) (len_data : Z)
    (edits : list (string * json)) (acc : gmap string row)
    (errs : list ValidationError) :
  overlay_ok schema len_data acc ->
  overlay_ok schema len_data
    (fold_left (patch_row u py_str schema len_data) edits (acc, errs)).1.
Proof.
  revert acc errs. induction edits as [|entry rest IH]; intros acc errs Hacc;
    [done|].
  cbn [fold_left].
  pose proof (patch_row_ok schema len_data entry acc errs Hacc) as H.
  destruct (patch_row u py_str schema len_data (acc, errs) entry) as [m e].
  by apply IH.
Qed.

Lemma validate_edits_ok (schema : gmap string string) (len_data : Z)
    (edits : list (string * json)) :
  overlay_ok schema len_data (validate_edits u py_str schema len_data edits).1.
Proof.
  apply fold_patch_row_ok. intros key r. by rewrite lookup_empty.
Qed.

(** The number of materialised rows does not depend on the overlay. *)
Lemma length_data_with_edits (t : DataTable) (e : gmap string row)
    (data : list row) :
  get_data_with_edits t = Some data ->
  exists data',
    get_data_with_edits (set_edited_data_json t e) = Some data'
    /\ length data' = length data.
Proof.
  unfold get_data_with_edits. cbn [full_data_json set_edited_data_json].
  destruct (full_data_json t) as [full|]; [|done]. simpl.
  intros [= <-]. eexists. split; [done|]. by rewrite !length_imap.
Qed.

(** What [patch] does, case by case. *)
Lemma patch_cases (t : DataTable) (data : list row)
    (edits : list (string * json)) :
  get_data_with_edits t = Some data ->
  let v := validate_edits u py_str (get_schema t) (Z.of_nat (length data))
             edits in
  let saved :=
    set_edited_data_json t (dict_update (get_edited_data t) v.1) in
  (v.2 <> []
   /\ DataGridView_patch u py_str database t (JObj edits)
      = (t, PatchValidationFailed v.2))
  \/ (v.2 = [] /\ save_ok database saved = true
      /\ DataGridView_patch u py_str database t (JObj edits)
         = (saved, PatchApplied v.1))
  \/ (v.2 = [] /\ save_ok database saved = false
      /\ DataGridView_patch u py_str database t (JObj edits)
         = (t, PatchSaveFailed)).
Proof.
  intros Hdata v saved. subst v saved. unfold DataGridView_patch.
  rewrite Hdata.
  destruct (validate_edits _ _ _ _ _) as [validated [|e errs]];
    cbn [fst snd].
  - destruct (save_ok database _) eqn:Hsave; [right; left|right; right]; done.
  - by left.
Qed.

(** X2.  Well-formedness of the overlay is an invariant of [patch]: if
    every key of the stored overlay is the decimal form of a row index
    within the data, and every cell belongs to a column of the schema and
    holds null or a value of the column's type, then the same is true after
    any request, whatever its outcome; the edits a request reports as
    applied are of this form as well. *)
Theorem patch_keeps_overlay_well_formed (t : DataTable) (data : list row)
    (edits : json) :
  get_data_with_edits t = Some data ->
  overlay_ok (get_schema t) (Z.of_nat (length data)) (get_edited_data t) ->
  let result := DataGridView_patch u py_str database t edits in
  overlay_ok (get_schema result.1) (Z.of_nat (length data))
    (get_edited_data result.1)
  /\ (exists data',
        get_data_with_edits result.1 = Some data'
        /\ length data' = length data)
  /\ forall applied,
       result.2 = PatchApplied applied ->
       overlay_ok (get_schema t) (Z.of_nat (length data)) applied.
Proof.
  intros Hdata Hok result. subst result.
  destruct edits as [| | | | | |edits];
    try (split; [done|]; split; [by eauto|]; intros applied [=]).
  pose proof (validate_edits_ok (get_schema t) (Z.of_nat (length data)) edits)
    as Hv.
  destruct (patch_cases t data edits Hdata)
    as [[Hne ->]|[(Hnil & Hsave & ->)|(Hnil & Hsave & ->)]]; cbn [fst snd].
  - split; [done|]. split; [by eauto|]. intros applied [=].
  - split; [|split].
    + intros key r. unfold get_edited_data, dict_update.
      cbn [edited_data_json set_edited_data_json].
      rewrite lookup_union_Some_raw. intros [H|[_ H]].
      * by apply Hv.
      * by apply Hok.
    + by apply length_data_with_edits.
    + by intros applied [= <-].
  - split; [done|]. split; [by eauto|]. intros applied [=].
Qed.

End OverlayFacts.

Lemma patch_keeps_overlay_well_formed_witness :
  let result :=
    DataGridView_patch no_wide str_plain json_columns demo_table
      (one_cell "1" "age" (JStr "26")) in
  overlay_ok (get_schema result.1)
    (Z.of_nat (length
       [ ({[ "age" := JInt 30; "height" := JInt 170 ]} : row);
         {[ "age" := JInt 25; "height" := JInt 180 ]} ]))
    (get_edited_data result.1)
  /\ (exists data',
        get_data_with_edits result.1 = Some data'
        /\ length data'
           = length
               [ ({[ "age" := JInt 30; "height" := JInt 170 ]} : row);
                 {[ "age" := JInt 25; "height" := JInt 180 ]} ])
  /\ forall applied,
       result.2 = PatchApplied applied ->
       overlay_ok (get_schema demo_table)
         (Z.of_nat (length
            [ ({[ "age" := JInt 30; "height" := JInt 170 ]} : row);
              {[ "age" := JInt 25; "height" := JInt 180 ]} ]))
         applied.
Proof.
  apply (patch_keeps_overlay_well_formed no_wide str_plain json_columns
           demo_table
           [ {[ "age" := JInt 30; "height" := JInt 170 ]};
             {[ "age" := JInt 25; "height" := JInt 180 ]} ]
           (one_cell "1" "age" (JStr "26"))).
  - reflexivity.
  - intros key r H. vm_compute in H. discriminate H.
Defined.

Section PatchMore.

Variable u : Unicode.
Variable py_str : json -> string.
Variable database : Database.

Local Open Scope Z_scope.


(** X4.  A request that was applied can be sent again: it is applied
    again, with the same reported edits, and the table stays as the first
    application left it. *)
Theorem patch_applied_twice (t t1 : DataTable) (edits : json)
    (applied : gmap string row) :
  DataGridView_patch u py_str database t edits = (t1, PatchApplied applied) ->
  DataGridView_patch u py_str database t1 edits
  = (t1, PatchApplied applied).
Proof.
  intros H. destruct edits as [| | | | | |edits]; try discriminate H.
  destruct (get_data_with_edits t) as [data|] eqn:Hdata;
    [|unfold DataGridView_patch in H; rewrite Hdata in H; discriminate H].
  destruct (patch_cases u py_str database t data edits Hdata)
    as [[_ H']|[(Hnil & Hsave & H')|(_ & _ & H')]];
    rewrite H' in H; [discriminate H| |discriminate H].
  injection H as <- <-.
  set (v := validate_edits u py_str (get_schema t) (Z.of_nat (length data))
              edits) in *.
  set (t1 := set_edited_data_json t (dict_update (get_edited_data t) v.1))
    in *.
  destruct (length_data_with_edits t
              (dict_update (get_edited_data t) v.1) data Hdata)
    as (data1 & Hdata1 & Hlen).
  assert (Hagain : set_edited_data_json t1
                     (dict_update (get_edited_data t1) v.1) = t1).
  { subst t1. unfold get_edited_data, dict_update.
    destruct t as [p f sch n smp full cur]. unfold set_edited_data_json.
    simpl. f_equal. by rewrite (assoc_L (∪)), (idemp_L (∪)). }
  destruct (patch_cases u py_str database t1 data1 edits Hdata1)
    as [[Hne _]|[(_ & _ & H2)|(_ & Hfail & _)]].
  - exfalso. apply Hne. rewrite Hlen. exact Hnil.
  - rewrite H2, Hlen.
    change (get_schema t1) with (get_schema t). fold v. by rewrite Hagain.
  - exfalso. rewrite Hlen in Hfail.
    change (get_schema t1) with (get_schema t) in Hfail. fold v in Hfail.
    rewrite Hagain in Hfail. congruence.
Qed.

(** The fields that [patch] never assigns. *)
Lemma patch_frame (t : DataTable) (edits : json) :
  let t' := (DataGridView_patch u py_str database t edits).1 in
  project t' = project t
  /\ source_file t' = source_file t
  /\ schema_json t' = schema_json t
  /\ num_rows t' = num_rows t
  /\ sample_json t' = sample_json t
  /\ full_data_json t' = full_data_json t.
Proof.
  unfold DataGridView_patch.
  destruct edits as [| | | | | |edits]; try done.
  destruct (get_data_with_edits t) as [data|]; [|done].
  destruct (validate_edits _ _ _ _ _) as [validated [|e errs]]; [|done].
  by destruct (save_ok database _).
Qed.

(** X3.  [patch] writes the overlay and nothing else: project, source file,
    schema, row count, sample and full rows are those of the table before,
    whatever the request; a request that is not applied leaves the whole
    table as it was; an applied request removes no row from the overlay and
    leaves the entry of every row it does not name as it was. *)
Theorem patch_touches_overlay_only (t : DataTable) (edits : json) :
  let result := DataGridView_patch u py_str database t edits in
  (project result.1 = project t
   /\ source_file result.1 = source_file t
   /\ schema_json result.1 = schema_json t
   /\ num_rows result.1 = num_rows t
   /\ sample_json result.1 = sample_json t
   /\ full_data_json result.1 = full_data_json t)
  /\ ((forall applied, result.2 <> PatchApplied applied) -> result.1 = t)
  /\ (forall key,
        is_Some (edited_data_json t !! key) ->
        is_Some (edited_data_json result.1 !! key))
  /\ (forall applied key,
        result.2 = PatchApplied applied -> applied !! key = None ->
        edited_data_json result.1 !! key = edited_data_json t !! key).
Proof.
  intros result. subst result. split; [apply patch_frame|].
  unfold DataGridView_patch.
  destruct edits as [| | | | | |edits];
    try (split_and!; [done| |]; [by intros | by intros ?? [=]]).
  destruct (get_data_with_edits t) as [data|];
    [|split_and!; [done| |]; [by intros | by intros ?? [=]]].
  destruct (validate_edits _ _ _ _ _) as [validated [|e errs]];
    [|split_and!; [done| |]; [by intros | by intros ?? [=]]].
  destruct (save_ok database _);
    [|split_and!; [done| |]; [by intros | by intros ?? [=]]].
  cbn [fst snd]. split_and!.
  - intros Hno. by destruct (Hno validated).
  - intros key [r Hr]. unfold dict_update, get_edited_data.
    cbn [edited_data_json set_edited_data_json].
    destruct (validated !! key) as [r'|] eqn:E.
    + exists r'. by apply lookup_union_Some_l.
    + exists r. by rewrite lookup_union_r.
  - intros applied key [= <-] Hnone. unfold dict_update, get_edited_data.
    cbn [edited_data_json set_edited_data_json]. by rewrite lookup_union_r.
Qed.

(** X6.  The cells that validation can reject.  A cell is rejected exactly
    when its column is not in the schema, or its value is not null and
    either the column is a [number] and the value is a string that [float]
    does not parse or is neither a string nor an int, float or bool, or
    the column is a [boolean] and the value is neither a string nor a
    bool.  So every string is accepted in a [boolean] column, an integer
    is not, and a column of any other declared type accepts every value. *)
Theorem validate_cell_rejects_iff (schema : gmap string string)
    (row_index : Z) (column_name : string) (v : json)
    (err : ValidationError) :
  validate_cell u py_str schema row_index column_name v = inl err
  <-> (schema !! column_name = None
       /\ err = UnknownColumn row_index column_name)
      \/ (exists expected_type,
            schema !! column_name = Some expected_type
            /\ err = InvalidValue row_index column_name v expected_type
            /\ v <> JNull
            /\ ((expected_type = "number"
                 /\ match v with
                    | JStr s => PyStr.float_of_str u s = None
                    | _ => isinstance_int_float v = false
                    end)
                \/ (expected_type = "boolean"
                    /\ isinstance_str v = false
                    /\ isinstance_bool v = false))).
Proof.
  unfold validate_cell.
  destruct (schema !! column_name) as [ty|] eqn:Hty.
  - split.
    + intros H. right. exists ty. split; [done|].
      unfold coerce in H.
      destruct (decide (ty = "number")) as [->|Hn].
      { destruct v; simpl in H; try discriminate H;
          try (injection H as <-; repeat (split; [done|]); left; done).
        destruct (PyStr.float_of_str u s) eqn:Hs; simpl in H;
          [discriminate H|].
        injection H as <-. repeat (split; [done|]). by left. }
      destruct (decide (ty = "boolean")) as [->|Hb].
      { destruct v; simpl in H; try discriminate H;
          injection H as <-; repeat (split; [done|]); right; done. }
      destruct (decide (ty = "string")); by destruct v.
    + intros [[[=] _]|(ty' & [= <-] & -> & Hnn & Hcase)].
      destruct Hcase as [[-> Hv]|(-> & Hs & Hb)].
      * destruct v; try done. simpl. unfold coerce. simpl.
        by rewrite Hv.
      * by destruct v.
  - split.
    + intros [= <-]. by left.
    + intros [[_ ->]|(ty & [=] & _)]. done.
Qed.

(** X7.  An accepted value is stable under validation: sent again for the
    same column, in any row, it is accepted and stored unchanged.  The one
    fact used of [str] is that it returns a string as it is. *)
Theorem accepted_value_stable (schema : gmap string string)
    (row_index row_index' : Z) (column_name : string) (v w : json) :
  (forall s, py_str (JStr s) = s) ->
  validate_cell u py_str schema row_index column_name v = inr w ->
  validate_cell u py_str schema row_index' column_name w = inr w.
Proof.
  intros Hstr. unfold validate_cell.
  destruct (schema !! column_name) as [ty|]; [|done].
  intros H.
  assert (Hw : w = JNull \/ coerce u py_str ty v = Some w).
  { destruct v; try (injection H as <-; by left);
      (destruct (coerce u py_str ty _) as [w'|]; [|discriminate H]);
      injection H as <-; by right. }
  destruct Hw as [->|Hco]; [done|].
  assert (Hco' : coerce u py_str ty w = Some w).
  { unfold coerce in *.
    destruct (decide (ty = "number")).
    { destruct v; simpl in Hco; try discriminate Hco;
        try (injection Hco as <-; done).
      destruct (PyStr.float_of_str u s); [|discriminate Hco].
      by injection Hco as <-. }
    destruct (decide (ty = "boolean")).
    { destruct v; simpl in Hco; try discriminate Hco;
        by injection Hco as <-. }
    destruct (decide (ty = "string")); [|done].
    injection Hco as <-. by rewrite Hstr. }
  rewrite Hco'. by destruct w.
Qed.


End PatchMore.

Lemma patch_applied_twice_witness :
  DataGridView_patch no_wide str_plain json_columns
    (set_edited_data_json demo_table {[ "0" := {[ "age" := JInt 31 ]} ]})
    (one_cell "0" "age" (JInt 31))
  = (set_edited_data_json demo_table {[ "0" := {[ "age" := JInt 31 ]} ]},
     PatchApplied {[ "0" := {[ "age" := JInt 31 ]} ]}).
Proof.
  apply (patch_applied_twice no_wide str_plain json_columns demo_table).
  vm_compute. reflexivity.
Defined.

Lemma accepted_value_stable_witness :
  validate_cell no_wide str_plain (get_schema demo_table) 1%Z "age"
    (JFloat (S754_finite false 8725724278030336 (-48)))
  = inr (JFloat (S754_finite false 8725724278030336 (-48))).
Proof.
  apply (accepted_value_stable no_wide str_plain (get_schema demo_table) 0%Z
           1%Z "age" (JStr "31")).
  - reflexivity.
  - vm_compute. reflexivity.
Defined.


(** * Cell edits: what an applied request stores *)

Section AppliedEdits.

Variable u : Unicode.
Variable py_str : json -> string.
Variable database : Database.

Local Open Scope Z_scope.

Lemma fold_patch_cell_fst (schema : gmap string string) (row_index : Z)
    (row_edits : list (string * json)) (acc : row)
    (errs errs' : list ValidationError) :
  (fold_left (patch_cell u py_str schema row_index) row_edits (acc, errs)).1
  = (fold_left (patch_cell u py_str schema row_index) row_edits (acc, errs')).1.
Proof.
  revert acc errs errs'.
  induction row_edits as [|cell rest IH]; intros acc errs errs'; [done|].
  cbn [fold_left]. unfold patch_cell at 2 4.
  destruct (validate_cell u py_str schema row_index cell.1 cell.2); apply IH.
Qed.

(** A column that the rest of the row does not name keeps its cell. *)
Lemma fold_patch_cell_keep (schema : gmap string string) (row_index : Z)
    (row_edits : list (string * json)) (acc : row)
    (errs : list ValidationError) (col : string) :
  col ∉ row_edits.*1 ->
  (fold_left (patch_cell u py_str schema row_index) row_edits (acc, errs)).1
    !! col
  = acc !! col.
Proof.
  revert acc errs.
  induction row_edits as [|cell rest IH]; intros acc errs Hcol; [done|].
  rewrite fmap_cons, not_elem_of_cons in Hcol. destruct Hcol as [Hne Hrest].
  cbn [fold_left]. unfold patch_cell at 2.
  destruct (validate_cell u py_str schema row_index cell.1 cell.2);
    rewrite IH by done; [done|]. by rewrite lookup_insert_ne.
Qed.

(** Every cell of the validated row comes from a cell of the request. *)
Lemma fold_patch_cell_source (schema : gmap string string) (row_index : Z)
    (row_edits : list (string * json)) (acc : row)
    (errs : list ValidationError) (col : string) (w : json) :
  (fold_left (patch_cell u py_str schema row_index) row_edits (acc, errs)).1
    !! col = Some w ->
  acc !! col = Some w
  \/ exists v,
       (col, v) ∈ row_edits
       /\ validate_cell u py_str schema row_index col v = inr w.
Proof.
  revert acc errs.
  induction row_edits as [|[c v] rest IH]; intros acc errs H; [by left|].
  cbn [fold_left] in H. unfold patch_cell at 2 in H. cbn [fst snd] in H.
  destruct (validate_cell u py_str schema row_index c v) as [err|w'] eqn:Hv.
  - apply IH in H as [H|(v' & Hin & Hv')]; [by left|].
    right. exists v'. split; [by right|done].
  - apply IH in H as [H|(v' & Hin & Hv')].
    + destruct (decide (col = c)) as [->|Hne].
      * rewrite lookup_insert_eq in H. injection H as ->.
        right. exists v. split; [left|done].
      * rewrite lookup_insert_ne in H by done. by left.
    + right. exists v'. split; [by right|done].
Qed.

(** With distinct column names every accepted cell is in the validated
    row. *)
Lemma fold_patch_cell_stored (schema : gmap string string) (row_index : Z)
    (row_edits : list (string * json)) (acc : row)
    (errs : list ValidationError) (col : string) (v w : json) :
  NoDup row_edits.*1 ->
  (col, v) ∈ row_edits ->
  validate_cell u py_str schema row_index col v = inr w ->
  (fold_left (patch_cell u py_str schema row_index) row_edits (acc, errs)).1
    !! col = Some w.
Proof.
  revert acc errs.
  induction row_edits as [|[c v'] rest IH]; intros acc errs Hnd Hin Hv.
  - by apply not_elem_of_nil in Hin.
  - rewrite fmap_cons in Hnd. apply NoDup_cons in Hnd as [Hc Hnd].
    cbn [fold_left]. apply elem_of_cons in Hin as [[= <- <-]|Hin].
    + unfold patch_cell at 2. cbn [fst snd]. rewrite Hv.
      rewrite fold_patch_cell_keep by done. apply lookup_insert_eq.
    + unfold patch_cell at 2.
      destruct (validate_cell u py_str schema row_index (c, v').1 (c, v').2);
        by apply IH.
Qed.

(** The overlay after one entry of the request. *)
Lemma patch_row_overlay (schema : gmap string string) (len_data : Z)
    (entry : string * json) (acc : gmap string row)
    (errs : list ValidationError) :
  (patch_row u py_str schema len_data (acc, errs) entry).1 = acc
  \/ exists row_index row_edits,
       PyStr.int_of_str u entry.1 = Some row_index
       /\ 0 <= row_index < len_data
       /\ entry.2 = JObj row_edits
       /\ (fold_left (patch_cell u py_str schema row_index) row_edits
             (∅, [])).1 <> ∅
       /\ (patch_row u py_str schema len_data (acc, errs) entry).1
          = <[PyStr.str_of_int row_index :=
                (fold_left (patch_cell u py_str schema row_index) row_edits
                   (∅, [])).1]> acc.
Proof.
  unfold patch_row.
  destruct (PyStr.int_of_str u entry.1) as [row_index|]; [|by left].
  destruct (negb _) eqn:Hrange; [by left|].
  apply negb_false_iff, andb_true_iff in Hrange as [H0%Z.leb_le Hn%Z.ltb_lt].
  destruct entry.2 as [| | | | |?|row_edits]; try by left.
  pose proof (fold_patch_cell_fst schema row_index row_edits ∅ errs [])
    as Hfst.
  destruct (fold_left _ row_edits (∅, errs)) as [m e]. cbn [fst] in Hfst.
  destruct (Nat.eqb_spec (size m) 0) as [Hsz|Hsz]; [by left|].
  right. exists row_index, row_edits. rewrite <- Hfst. split_and!; try done.
  intros ->. by rewrite map_size_empty in Hsz.
Qed.

(** A row that the rest of the request does not name keeps its entry. *)
Lemma fold_patch_row_keep (schema : gmap string string) (len_data : Z)
    (edits : list (string * json)) (acc : gmap string row)
    (errs : list ValidationError) (row_index : Z) :
  Some row_index ∉ (fun entry : string * json => PyStr.int_of_str u entry.1)
                     <$> edits ->
  (fold_left (patch_row u py_str schema len_data) edits (acc, errs)).1
    !! PyStr.str_of_int row_index
  = acc !! PyStr.str_of_int row_index.
Proof.
  revert acc errs.
  induction edits as [|entry rest IH]; intros acc errs Hn; [done|].
  rewrite fmap_cons, not_elem_of_cons in Hn. destruct Hn as [Hne Hrest].
  cbn [fold_left].
  destruct (patch_row_overlay schema len_data entry acc errs)
    as [Hsame|(n & row_edits & Hkey & _ & _ & _ & Hins)].
  - destruct (patch_row u py_str schema len_data (acc, errs) entry) as [m e].
    cbn [fst] in Hsame. subst m. by apply IH.
  - destruct (patch_row u py_str schema len_data (acc, errs) entry) as [m e].
    cbn [fst] in Hins. subst m. rewrite IH by done.
    apply lookup_insert_ne. intros Heq. apply (inj pretty) in Heq.
    congruence.
Qed.

(** Every entry of the validated edits comes from an entry of the
    request. *)
Lemma fold_patch_row_source (schema : gmap string string) (len_data : Z)
    (edits : list (string * json)) (acc : gmap string row)
    (errs : list ValidationError) (key : string) (cells : row) :
  (fold_left (patch_row u py_str schema len_data) edits (acc, errs)).1 !! key
  = Some cells ->
  acc !! key = Some cells
  \/ exists entry row_index row_edits,
       entry ∈ edits
       /\ PyStr.int_of_str u entry.1 = Some row_index
       /\ key = PyStr.str_of_int row_index
       /\ entry.2 = JObj row_edits
       /\ cells = (fold_left (patch_cell u py_str schema row_index) row_edits
                     (∅, [])).1.
Proof.
  revert acc errs.
  induction edits as [|entry rest IH]; intros acc errs H; [by left|].
  cbn [fold_left] in H.
  destruct (patch_row_overlay schema len_data entry acc errs)
    as [Hsame|(n & row_edits & Hkey & _ & Hobj & _ & Hins)];
    destruct (patch_row u py_str schema len_data (acc, errs) entry) as [m e];
    cbn [fst] in *; subst m;
    apply IH in H as [H|(entry' & n' & re' & Hin & H')];
    try (right; exists entry', n', re'; split; [by right|done]).
  - by left.
  - destruct (decide (key = PyStr.str_of_int n)) as [->|Hne].
    + rewrite lookup_insert_eq in H. injection H as <-.
      right. exists entry, n, row_edits. split; [left|done].
    + rewrite lookup_insert_ne in H by done. by left.
Qed.

Lemma patch_row_valid (schema : gmap string string) (len_data : Z)
    (entry : string * json) (acc : gmap string row)
    (errs : list ValidationError) (row_index : Z)
    (row_edits : list (string * json)) :
  PyStr.int_of_str u entry.1 = Some row_index ->
  0 <= row_index < len_data ->
  entry.2 = JObj row_edits ->
  (fold_left (patch_cell u py_str schema row_index) row_edits (∅, [])).1 <> ∅ ->
  (patch_row u py_str schema len_data (acc, errs) entry).1
  = <[PyStr.str_of_int row_index :=
        (fold_left (patch_cell u py_str schema row_index) row_edits
           (∅, [])).1]> acc.
Proof.
  intros Hkey Hrange Hobj Hne. unfold patch_row. rewrite Hkey, Hobj.
  destruct (Z.leb_spec 0 row_index); [|lia].
  destruct (Z.ltb_spec row_index len_data); [|lia].
  cbn [andb negb].
  pose proof (fold_patch_cell_fst schema row_index row_edits ∅ errs [])
    as Hfst.
  destruct (fold_left _ row_edits (∅, errs)) as [m errs'].
  cbn [fst] in Hfst. subst m.
  destruct (Nat.eqb_spec (size (fold_left
    (patch_cell u py_str schema row_index) row_edits (∅, [])).1) 0)
    as [Hsz|Hsz]; [by apply map_size_empty_iff in Hsz|done].
Qed.

(** With distinct row indices every entry that contributes cells is in
    the validated edits. *)
Lemma fold_patch_row_stored (schema : gmap string string) (len_data : Z)
    (edits : list (string * json)) (acc : gmap string row)
    (errs : list ValidationError) (entry : string * json) (row_index : Z)
    (row_edits : list (string * json)) :
  NoDup ((fun entry : string * json => PyStr.int_of_str u entry.1) <$> edits) ->
  entry ∈ edits ->
  PyStr.int_of_str u entry.1 = Some row_index ->
  0 <= row_index < len_data ->
  entry.2 = JObj row_edits ->
  (fold_left (patch_cell u py_str schema row_index) row_edits (∅, [])).1 <> ∅ ->
  (fold_left (patch_row u py_str schema len_data) edits (acc, errs)).1
    !! PyStr.str_of_int row_index
  = Some (fold_left (patch_cell u py_str schema row_index) row_edits
            (∅, [])).1.
Proof.
  revert acc errs.
  induction edits as [|entry' rest IH];
    intros acc errs Hnd Hin Hkey Hrange Hobj Hne.
  - by apply not_elem_of_nil in Hin.
  - rewrite fmap_cons in Hnd. apply NoDup_cons in Hnd as [Hfresh Hnd].
    cbn [fold_left]. apply elem_of_cons in Hin as [<-|Hin].
    + rewrite Hkey in Hfresh.
      pose proof (patch_row_valid schema len_data entry acc errs row_index
                    row_edits Hkey Hrange Hobj Hne) as Hins.
      destruct (patch_row u py_str schema len_data (acc, errs) entry)
        as [m errs']. cbn [fst] in Hins. subst m.
      rewrite fold_patch_row_keep by done. apply lookup_insert_eq.
    + destruct (patch_row u py_str schema len_data (acc, errs) entry')
        as [m errs']. by apply IH.
Qed.

(** A request without errors has valid cells only. *)
Lemma no_errors_cell_valid (schema : gmap string string) (len_data : Z)
    (edits row_edits : list (string * json)) (key col : string) (v : json) :
  (validate_edits u py_str schema len_data edits).2 = [] ->
  (key, JObj row_edits) ∈ edits ->
  (col, v) ∈ row_edits ->
  exists row_index w,
    PyStr.int_of_str u key = Some row_index
    /\ 0 <= row_index < len_data
    /\ validate_cell u py_str schema row_index col v = inr w.
Proof.
  intros Herrs Hentry Hcell. rewrite validate_edits_errors in Herrs.
  assert (Hvalid : ~ invalid_cell u py_str schema len_data key col v).
  { intros Hinv.
    destruct (invalid_cell_reported u py_str schema len_data key col v
                row_edits Hcell Hinv) as (err & _ & Hin).
    assert (err ∈ edits ≫= row_errors u py_str schema len_data) as Hin'.
    { apply list_elem_of_bind. by eexists. }
    rewrite Herrs in Hin'. by apply not_elem_of_nil in Hin'. }
  destruct (PyStr.int_of_str u key) as [row_index|] eqn:Hkey;
    [|destruct Hvalid; by apply invalid_unparseable_row].
  destruct (decide (0 <= row_index < len_data)) as [Hrange|Hrange];
    [|destruct Hvalid; by eapply invalid_row_out_of_range].
  destruct (validate_cell u py_str schema row_index col v) as [err|w] eqn:Hv;
    [|by eauto].
  destruct Hvalid. unfold validate_cell in Hv.
  destruct (schema !! col) as [ty|] eqn:Hty;
    [|by apply invalid_unknown_column].
  apply (invalid_incompatible_value _ _ _ _ _ _ _ ty); [done| |].
  - intros ->. discriminate Hv.
  - destruct (coerce u py_str ty v); [by destruct v|done].
Qed.

(** X1.  What an applied request stores.  Every cell of the reported
    edits is the accepted value of a cell that the request sends for that
    row and column.  And for a request that names each row once and, in a
    row, each column once, nothing is left out: every cell of the request
    is reported, with its accepted value, under the decimal form of its
    row index. *)
Theorem applied_edits_are_request_cells (t t' : DataTable)
    (edits : list (string * json)) (applied : gmap string row) :
  DataGridView_patch u py_str database t (JObj edits) = (t', PatchApplied applied) ->
  (forall key cells col w,
     applied !! key = Some cells -> cells !! col = Some w ->
     exists request_key row_edits row_index v,
       (request_key, JObj row_edits) ∈ edits
       /\ PyStr.int_of_str u request_key = Some row_index
       /\ key = PyStr.str_of_int row_index
       /\ (col, v) ∈ row_edits
       /\ validate_cell u py_str (get_schema t) row_index col v = inr w)
  /\ (NoDup ((fun entry : string * json => PyStr.int_of_str u entry.1)
               <$> edits) ->
      forall request_key row_edits row_index col v,
        (request_key, JObj row_edits) ∈ edits ->
        NoDup row_edits.*1 ->
        PyStr.int_of_str u request_key = Some row_index ->
        (col, v) ∈ row_edits ->
        exists cells w,
          applied !! PyStr.str_of_int row_index = Some cells
          /\ cells !! col = Some w
          /\ validate_cell u py_str (get_schema t) row_index col v = inr w).
Proof.
  intros H.
  destruct (get_data_with_edits t) as [data|] eqn:Hdata;
    [|unfold DataGridView_patch in H; rewrite Hdata in H; discriminate H].
  destruct (patch_cases u py_str database t data edits Hdata)
    as [[_ H']|[(Hnil & _ & H')|(_ & _ & H')]];
    rewrite H' in H; [discriminate H| |discriminate H].
  injection H as _ <-. unfold validate_edits in *. split.
  - intros key cells col w Hkey Hcol.
    apply fold_patch_row_source in Hkey
      as [Hkey|([rk rv] & n & row_edits & Hin & Hparse & -> & Hobj & ->)];
      [by rewrite lookup_empty in Hkey|].
    cbn [fst snd] in *. subst rv.
    apply fold_patch_cell_source in Hcol as [Hcol|(v & Hv & Hval)];
      [by rewrite lookup_empty in Hcol|].
    by exists rk, row_edits, n, v.
  - intros Hnd request_key row_edits row_index col v Hentry Hcols Hparse Hcell.
    destruct (no_errors_cell_valid (get_schema t) (Z.of_nat (length data))
                edits row_edits request_key col v Hnil Hentry Hcell)
      as (n & w & Hparse' & Hrange & Hval).
    assert (n = row_index) as -> by congruence.
    pose proof (fold_patch_cell_stored (get_schema t) row_index row_edits ∅
                  [] col v w Hcols Hcell Hval) as Hstored.
    eexists _, w. split; [|split; [exact Hstored|done]].
    apply (fold_patch_row_stored (get_schema t) (Z.of_nat (length data)) edits
             ∅ [] (request_key, JObj row_edits) row_index row_edits);
      try done.
    intros Hempty. rewrite Hempty in Hstored.
    by rewrite lookup_empty in Hstored.
Qed.

(** X30.  In a request the last entry for a row wins as a whole.  When
    several keys of one request read as the same row index (["1"] and
    ["01"], say), the applied edits and the stored overlay hold for that
    row the accepted cells of the last such entry only: every cell
    reported for the row is a cell of that entry, and cells that earlier
    entries send for other columns of the row are not stored, although the
    request is answered as applied. *)
Theorem last_entry_of_row_wins (t t' : DataTable)
    (front back row_edits : list (string * json)) (key : string)
    (row_index : Z) (applied : gmap string row) :
  DataGridView_patch u py_str database t
    (JObj (front ++ (key, JObj row_edits) :: back))
  = (t', PatchApplied applied) ->
  PyStr.int_of_str u key = Some row_index ->
  row_edits <> [] ->
  Some row_index ∉ (fun entry : string * json => PyStr.int_of_str u entry.1)
                     <$> back ->
  exists cells,
    applied !! PyStr.str_of_int row_index = Some cells
    /\ get_edited_data t' !! PyStr.str_of_int row_index = Some cells
    /\ (forall col w,
          cells !! col = Some w ->
          exists v,
            (col, v) ∈ row_edits
            /\ validate_cell u py_str (get_schema t) row_index col v = inr w).
Proof.
  intros H Hkey Hne Hback.
  destruct (get_data_with_edits t) as [data|] eqn:Hdata;
    [|unfold DataGridView_patch in H; rewrite Hdata in H; discriminate H].
  destruct (patch_cases u py_str database t data
              (front ++ (key, JObj row_edits) :: back) Hdata)
    as [[_ H']|[(Hnil & _ & H')|(_ & _ & H')]];
    rewrite H' in H; [discriminate H| |discriminate H].
  injection H as <- <-.
  set (schema := get_schema t) in *.
  set (len_data := Z.of_nat (length data)) in *.
  set (cells := (fold_left (patch_cell u py_str schema row_index) row_edits
                   (∅, [])).1).
  assert (Hlast : exists init col v,
            row_edits = init ++ [(col, v)]).
  { destruct (@exists_last _ row_edits Hne) as (init & [col v] & ->).
    by exists init, col, v. }
  destruct Hlast as (init & col & v & Hrow).
  destruct (no_errors_cell_valid schema len_data
              (front ++ (key, JObj row_edits) :: back) row_edits key col v)
    as (n & w & Hkey' & Hrange & Hval); [done|set_solver|set_solver|].
  assert (n = row_index) as -> by congruence.
  assert (Hcells : cells <> ∅).
  { subst cells. rewrite Hrow, fold_left_app. cbn [fold_left].
    destruct (fold_left _ init (∅, [])) as [m errs].
    unfold patch_cell. cbn [fst snd]. rewrite Hval. cbn [fst].
    apply insert_non_empty. }
  assert (Happlied :
    (validate_edits u py_str schema len_data
       (front ++ (key, JObj row_edits) :: back)).1
      !! PyStr.str_of_int row_index = Some cells).
  { unfold validate_edits. rewrite fold_left_app. cbn [fold_left].
    destruct (fold_left _ front (∅, [])) as [m errs].
    pose proof (patch_row_valid schema len_data (key, JObj row_edits) m errs
                  row_index row_edits Hkey Hrange eq_refl Hcells) as Hins.
    destruct (patch_row u py_str schema len_data (m, errs)
                (key, JObj row_edits)) as [m' errs'].
    cbn [fst] in Hins. subst m'. rewrite fold_patch_row_keep by done.
    apply lookup_insert_eq. }
  exists cells. split; [done|]. split.
  - unfold get_edited_data, dict_update.
    cbn [edited_data_json set_edited_data_json].
    by apply lookup_union_Some_l.
  - intros c w' Hc. subst cells.
    apply fold_patch_cell_source in Hc as [Hc|Hc];
      [by rewrite lookup_empty in Hc|done].
Qed.

End AppliedEdits.

Lemma last_entry_of_row_wins_witness :
  exists cells,
    ({[ "1" := {[ "height" := JInt 181 ]} ]} : gmap string row)
      !! PyStr.str_of_int 1 = Some cells
    /\ get_edited_data
         (set_edited_data_json demo_table
            {[ "1" := {[ "height" := JInt 181 ]} ]})
         !! PyStr.str_of_int 1 = Some cells
    /\ (forall col w,
          cells !! col = Some w ->
          exists v,
            (col, v) ∈ [("height", JInt 181)]
            /\ validate_cell no_wide str_plain (get_schema demo_table) 1 col v
               = inr w).
Proof.
  apply (last_entry_of_row_wins no_wide str_plain json_columns demo_table
           (set_edited_data_json demo_table
              {[ "1" := {[ "height" := JInt 181 ]} ]})
           [("1", JObj [("age", JInt 26)])] [] [("height", JInt 181)] "01" 1
           {[ "1" := {[ "height" := JInt 181 ]} ]}).
  - vm_compute. reflexivity.
  - reflexivity.
  - discriminate.
  - apply not_elem_of_nil.
Defined.

Lemma applied_edits_are_request_cells_witness :
  (forall key cells col w,
     ({[ "0" := {[ "age" := JInt 31 ]} ]} : gmap string row) !! key
     = Some cells ->
     cells !! col = Some w ->
     exists request_key row_edits row_index v,
       (request_key, JObj row_edits) ∈ [("0", JObj [("age", JInt 31)])]
       /\ PyStr.int_of_str no_wide request_key = Some row_index
       /\ key = PyStr.str_of_int row_index
       /\ (col, v) ∈ row_edits
       /\ validate_cell no_wide str_plain (get_schema demo_table) row_index col v
          = inr w)
  /\ (NoDup ((fun entry : string * json => PyStr.int_of_str no_wide entry.1)
               <$> [("0", JObj [("age", JInt 31)])]) ->
      forall request_key row_edits row_index col v,
        (request_key, JObj row_edits) ∈ [("0", JObj [("age", JInt 31)])] ->
        NoDup row_edits.*1 ->
        PyStr.int_of_str no_wide request_key = Some row_index ->
        (col, v) ∈ row_edits ->
        exists cells w,
          ({[ "0" := {[ "age" := JInt 31 ]} ]} : gmap string row)
            !! PyStr.str_of_int row_index = Some cells
          /\ cells !! col = Some w
          /\ validate_cell no_wide str_plain (get_schema demo_table) row_index col v
             = inr w).
Proof.
  apply (applied_edits_are_request_cells no_wide str_plain json_columns
           demo_table
           (set_edited_data_json demo_table
              {[ "0" := {[ "age" := JInt 31 ]} ]})
           [("0", JObj [("age", JInt 31)])]).
  vm_compute. reflexivity.
Defined.

(** * The values that are stored *)

Section StoredValues.

Variable u : Unicode.
Variable py_str : json -> string.
Variable database : Database.

Local Open Scope Z_scope.

Lemma fits_type_scalar (expected_type : string) (v : json) :
  expected_type ∈ ["number"; "boolean"; "string"] ->
  fits_type expected_type v = true ->
  is_scalar v = true.
Proof.
  intros Hty. unfold fits_type.
  destruct v; try done;
    repeat (apply elem_of_cons in Hty as [->|Hty]; [by vm_compute|]);
    by apply elem_of_nil in Hty.
Qed.

Lemma sanitize_value_safe (value : raw_value) :
  exists v,
    sanitize_value value = RawPlain v
    /\ v <> JFloat S754_nan
    /\ (raw_finite_scalar value = true -> json_safe_scalar v = true).
Proof.
  unfold sanitize_value.
  destruct (isna value) eqn:Hna; [by exists JNull|].
  destruct value as [|iso|[v|]|v].
  - done.
  - by exists (JStr iso).
  - exists v. split; [done|]. split; [by intros ->|].
    destruct v as [| | |[]| | |]; done.
  - by exists JNull.
  - exists v. split; [done|]. split; [by intros ->|].
    destruct v as [| | |[]| | |]; done.
Qed.

(** C3, as amended.  Every value that an applied request stores in the
    overlay is null or a value of the declared type of its column: an
    int, float or bool for [number], a bool for [boolean], a string for
    [string].  In these columns it is a JSON scalar, and a JSON-safe one,
    neither NaN nor infinite, on a database that refuses non-finite
    floats; the validation itself lets them pass.  A column of another
    declared type stores the value as it was sent.  Every cell that
    ingestion loads for the full rows is a plain value and never NaN, and
    it is a JSON-safe scalar when the parsed cell is a missing marker, a
    timestamp, or a boxed or plain scalar other than an infinity. *)
Theorem stored_values_fit_declared_type (t t' : DataTable) (edits : json)
    (applied : gmap string row) :
  DataGridView_patch u py_str database t edits = (t', PatchApplied applied) ->
  (forall key row_edits column_name v,
     applied !! key = Some row_edits ->
     row_edits !! column_name = Some v ->
     get_edited_data t' !! key = Some row_edits
     /\ exists expected_type,
          get_schema t !! column_name = Some expected_type
          /\ fits_type expected_type v = true
          /\ (expected_type ∈ ["number"; "boolean"; "string"] ->
              is_scalar v = true
              /\ (refuses_non_finite database ->
                  json_safe_scalar v = true)))
  /\ (forall value : raw_value,
        exists v,
          sanitize_value value = RawPlain v
          /\ v <> JFloat S754_nan
          /\ (raw_finite_scalar value = true -> json_safe_scalar v = true))
  /\ (forall env uploaded_file full_data record key v,
        load_full_data env uploaded_file = Some full_data ->
        record ∈ full_data ->
        record !! key = Some v ->
        v <> JFloat S754_nan).
Proof.
  intros H. split; [|split; [apply sanitize_value_safe|]].
  - destruct edits as [| | | | | |edits]; try discriminate H.
    destruct (get_data_with_edits t) as [data|] eqn:Hdata;
      [|unfold DataGridView_patch in H; rewrite Hdata in H; discriminate H].
    destruct (patch_cases u py_str database t data edits Hdata)
      as [[_ H']|[(Hnil & Hsave & H')|(_ & _ & H')]];
      rewrite H' in H; [discriminate H| |discriminate H].
    injection H as <- <-.
    pose proof (validate_edits_ok u py_str (get_schema t)
                  (Z.of_nat (length data)) edits) as Hok.
    intros key row_edits column_name v Hkey Hcol.
    assert (Hstored :
      get_edited_data
        (set_edited_data_json t
           (dict_update (get_edited_data t)
              (validate_edits u py_str (get_schema t)
                 (Z.of_nat (length data)) edits).1)) !! key
      = Some row_edits).
    { unfold get_edited_data, dict_update.
      cbn [edited_data_json set_edited_data_json].
      by apply lookup_union_Some_l. }
    split; [exact Hstored|].
    destruct (Hok key row_edits Hkey) as (_ & _ & Hrow).
    destruct (Hrow column_name v Hcol) as (ty & Hty & Hfits).
    exists ty. split; [done|]. split; [done|]. intros Hin.
    pose proof (fits_type_scalar ty v Hin Hfits) as Hscalar.
    split; [done|]. intros Hrefuses.
    destruct v as [| | |f| | |]; try done. simpl.
    destruct (PyFloat.is_finite f) eqn:Hf; [done|].
    rewrite (Hrefuses _ key row_edits column_name f Hstored Hcol Hf)
      in Hsave.
    discriminate Hsave.
  - intros env uploaded_file full_data record key v Hload Hrec Hkey.
    unfold load_full_data in Hload.
    assert (exists raw, full_data = sanitize_record <$> raw) as [raw ->].
    { destruct (decide (file_ext uploaded_file = ".csv")).
      - destruct (read_csv env uploaded_file) as [raw|]; [|done].
        injection Hload as <-. by eexists.
      - destruct (decide (file_ext uploaded_file = ".xlsx")); [|done].
        destruct (read_excel env uploaded_file) as [raw|]; [|done].
        injection Hload as <-. by eexists. }
    apply list_elem_of_fmap in Hrec as (r & -> & _).
    unfold sanitize_record in Hkey. rewrite lookup_fmap in Hkey.
    destruct (r !! key) as [value|]; [|done]. simpl in Hkey.
    injection Hkey as <-.
    destruct (sanitize_value_safe value) as (w & -> & Hw & _). done.
Qed.

End StoredValues.

Lemma stored_values_fit_declared_type_witness :
  (forall key row_edits column_name v,
     ({[ "0" := {[ "age" := JInt 31 ]} ]} : gmap string row) !! key
     = Some row_edits ->
     row_edits !! column_name = Some v ->
     get_edited_data
       (set_edited_data_json demo_table {[ "0" := {[ "age" := JInt 31 ]} ]})
       !! key = Some row_edits
     /\ exists expected_type,
          get_schema demo_table !! column_name = Some expected_type
          /\ fits_type expected_type v = true
          /\ (expected_type ∈ ["number"; "boolean"; "string"] ->
              is_scalar v = true
              /\ (refuses_non_finite json_columns ->
                  json_safe_scalar v = true)))
  /\ (forall value : raw_value,
        exists v,
          sanitize_value value = RawPlain v
          /\ v <> JFloat S754_nan
          /\ (raw_finite_scalar value = true -> json_safe_scalar v = true))
  /\ (forall env uploaded_file full_data record key v,
        load_full_data env uploaded_file = Some full_data ->
        record ∈ full_data ->
        record !! key = Some v ->
        v <> JFloat S754_nan).
Proof.
  apply (stored_values_fit_declared_type no_wide str_plain json_columns
           demo_table
           (set_edited_data_json demo_table
              {[ "0" := {[ "age" := JInt 31 ]} ]})
           (one_cell "0" "age" (JInt 31))
           {[ "0" := {[ "age" := JInt 31 ]} ]}).
  vm_compute. reflexivity.
Defined.

(** C3, as stated, fails on a column declared [date]: the validation has
    no branch for the type and keeps the value as sent, here a list, which
    the database of the examples stores like any other JSON value. *)
Lemma list_stored_in_date_column_counterexample :
  let result :=
    DataGridView_patch no_wide str_plain json_columns dated_table
      (one_cell "0" "when" (JArr [JInt 1; JInt 2])) in
  result.2 = PatchApplied {[ "0" := {[ "when" := JArr [JInt 1; JInt 2] ]} ]}
  /\ get_edited_data result.1 !! "0"
     = Some {[ "when" := JArr [JInt 1; JInt 2] ]}
  /\ get_data_with_edits result.1
     = Some [ {[ "when" := JArr [JInt 1; JInt 2] ]} ]
  /\ json_safe_scalar (JArr [JInt 1; JInt 2]) = false.
Proof. repeat apply conj; vm_compute; reflexivity. Qed.

(** * Preview sampling: how the sampled rows are spread *)

Section Coverage.

Local Open Scope Z_scope.

Lemma exact_floor_step (n limit i : Z) :
  1 <= limit -> 0 <= n -> 0 <= i ->
  let d := exact_floor_index n limit (i + 1) - exact_floor_index n limit i in
  n / limit <= d <= n / limit + 1
  /\ ((i * n) mod limit = 0 -> d = n / limit).
Proof.
  intros HL Hn Hi. unfold exact_floor_index. cbv zeta.
  pose proof (Z.div_mod (i * n) limit ltac:(lia)) as E1.
  pose proof (Z.mod_pos_bound (i * n) limit ltac:(lia)) as B1.
  pose proof (Z.div_mod ((i + 1) * n) limit ltac:(lia)) as E2.
  pose proof (Z.mod_pos_bound ((i + 1) * n) limit ltac:(lia)) as B2.
  pose proof (Z.div_mod n limit ltac:(lia)) as E3.
  pose proof (Z.mod_pos_bound n limit ltac:(lia)) as B3.
  set (ea := i * n / limit) in *. set (ra := (i * n) mod limit) in *.
  set (eb := (i + 1) * n / limit) in *.
  set (rb := ((i + 1) * n) mod limit) in *.
  set (q := n / limit) in *. set (r := n mod limit) in *.
  assert (E : limit * (eb - ea - q) = ra + r - rb) by lia.
  split; [split|]; [nia|nia|]. intros Hra. nia.
Qed.

(** X15.  The sample is spread evenly.  With at most 10 000 rows, two
    consecutive sampled indices differ by [len(rows) // limit], give or
    take one, and by at least one; the last sampled index lies within
    [len(rows) // limit + 2] of the end of the data. *)
Theorem preview_even_coverage (n limit : Z) (step : spec_float) :
  1 <= limit -> limit < n <= 10000 ->
  PyFloat.truediv n limit = Some step ->
  (forall i a b,
     0 <= i -> i + 1 < limit ->
     sample_index step i = Some a ->
     sample_index step (i + 1) = Some b ->
     n / limit - 1 <= b - a <= n / limit + 1 /\ 1 <= b - a)
  /\ exists last,
       sample_index step (limit - 1) = Some last
       /\ n - n / limit - 2 <= last < n.
Proof.
  intros HL Hn Hstep.
  assert (Hlimit : 1 <= limit <= 10000) by lia.
  assert (Hn' : limit < n < 2 ^ 53) by lia.
  destruct (step_spec n limit Hlimit Hn') as (ms & es & Hdiv & _).
  assert (step = S754_finite false ms es) as -> by congruence.
  split.
  - intros i a b Hi0 Hi Ha Hb.
    destruct (sample_index_near_exact n limit ms es Hlimit Hn' Hstep i)
      as (a' & Ha' & Har & Hae); [lia|lia|].
    destruct (sample_index_near_exact n limit ms es Hlimit Hn' Hstep (i + 1))
      as (b' & Hb' & Hbr & Hbe); [lia|lia|].
    assert (a' = a) as -> by congruence.
    assert (b' = b) as -> by congruence.
    assert (Hlt : a < b)
      by (by eapply (sample_index_step n limit ms es Hlimit Hn' Hstep i)).
    split; [|lia].
    destruct (exact_floor_step n limit i) as [Hd Hd0]; [lia..|].
    cbv zeta in Hd, Hd0.
    destruct (decide ((i * n) mod limit = 0)) as [Hz|Hnz].
    + specialize (Hd0 Hz). lia.
    + specialize (Hae Hnz). lia.
  - destruct (sample_index_near_exact n limit ms es Hlimit Hn' Hstep
                (limit - 1)) as (last & Hlast & Hr & _); [lia|lia|].
    destruct (sample_index_range n limit ms es Hlimit Hn' Hstep (limit - 1))
      as (last' & Hlast' & Hrange); [lia|].
    assert (last' = last) as -> by congruence.
    exists last. split; [done|]. split; [|lia].
    unfold exact_floor_index in Hr.
    pose proof (Z.div_mod ((limit - 1) * n) limit ltac:(lia)) as E1.
    pose proof (Z.mod_pos_bound ((limit - 1) * n) limit ltac:(lia)) as B1.
    pose proof (Z.div_mod n limit ltac:(lia)) as E3.
    pose proof (Z.mod_pos_bound n limit ltac:(lia)) as B3.
    set (e := (limit - 1) * n / limit) in *.
    set (q := n / limit) in *.
    assert (limit * (n - e - q) < limit * 2) by lia.
    assert (n - e - q < 2) by nia. lia.
Qed.

End Coverage.

Lemma preview_even_coverage_witness :
  (forall i a b,
     (0 <= i)%Z -> (i + 1 < 22)%Z ->
     sample_index (S754_finite false 6141272219141585 (-52)) i = Some a ->
     sample_index (S754_finite false 6141272219141585 (-52)) (i + 1)
     = Some b ->
     (30 / 22 - 1 <= b - a <= 30 / 22 + 1)%Z /\ (1 <= b - a)%Z)
  /\ exists last,
       sample_index (S754_finite false 6141272219141585 (-52)) (22 - 1)
       = Some last
       /\ (30 - 30 / 22 - 2 <= last < 30)%Z.
Proof.
  apply (preview_even_coverage 30 22); [lia | lia | vm_compute; reflexivity].
Defined.

(** * Ingestion: what is stored *)

Section IngestionMore.

Variable env : Collaborators.
Variable database : Database.

Local Open Scope Z_scope.

(** X16.  Sanitising a record keeps its columns and leaves no NaN behind: a
    missing cell and a NaN become null, a timestamp becomes its ISO string,
    a boxed scalar is unboxed (null when unboxing fails), and a plain value
    that is not missing is stored as it is. *)
Theorem sanitize_record_cells (record : gmap string raw_value) :
  dom (sanitize_record record) = dom record
  /\ (forall key v,
        sanitize_record record !! key = Some v -> v <> JFloat S754_nan)
  /\ (forall key value,
        record !! key = Some value ->
        sanitize_record record !! key
        = Some (if isna value then JNull
                else match value with
                     | RawMissing => JNull
                     | RawTimestamp iso => JStr iso
                     | RawBoxed (Some v) => v
                     | RawBoxed None => JNull
                     | RawPlain v => v
                     end)).
Proof.
  unfold sanitize_record. split; [apply dom_fmap_L|]. split.
  - intros key v. rewrite lookup_fmap.
    destruct (record !! key) as [value|]; [|done]. simpl. intros [= <-].
    destruct (sanitize_value_plain value) as (v & -> & Hv). done.
  - intros key value Hkey. rewrite lookup_fmap, Hkey. simpl. f_equal.
    unfold sanitize_value. destruct (isna value); [done|].
    by destruct value as [|iso|[v|]|v].
Qed.

(** What [post] does, case by case. *)
Lemma post_outcomes (db : list DataTable) (project_id : Z) (f : UploadedFile) :
  let result := DataIngestionView_post env database db project_id f in
  (exists i existing,
     list_find (table_matches project_id f) db = Some (i, existing)
     /\ ((result = (db, Ingest200 existing))
         \/ (exists full_data,
               full_data_json existing = None
               /\ num_rows existing <= 10000
               /\ load_full_data env f = Some full_data
               /\ ((save_ok database
                      (set_full_data_json existing (Some full_data)) = true
                    /\ result
                       = (<[i := set_full_data_json existing
                                  (Some full_data)]> db,
                          Ingest200
                            (set_full_data_json existing (Some full_data))))
                   \/ (save_ok database
                         (set_full_data_json existing (Some full_data))
                       = false
                       /\ result
                          = (db,
                             Ingest200
                               (set_full_data_json existing
                                  (Some full_data))))))))
  \/ (list_find (table_matches project_id f) db = None
      /\ ((result = (db, Ingest400) \/ result = (db, Ingest500))
          \/ exists parsed_data full_data,
               parse_file env f = ParseOk parsed_data
               /\ (is_Some full_data -> pd_num_rows parsed_data <= 10000)
               /\ result
                  = (db ++ [mkDataTable project_id (file_id f)
                              (pd_schema parsed_data)
                              (pd_num_rows parsed_data)
                              (pd_sample_data parsed_data) full_data ∅],
                     Ingest201
                       (mkDataTable project_id (file_id f)
                          (pd_schema parsed_data) (pd_num_rows parsed_data)
                          (pd_sample_data parsed_data) full_data ∅)))).
Proof.
  intros result. subst result. unfold DataIngestionView_post.
  destruct (list_find (table_matches project_id f) db)
    as [[i existing]|] eqn:Hfind.
  - left. exists i, existing. split; [done|].
    case_decide as Hc; [|by left].
    destruct (load_full_data env f) as [full_data|] eqn:Hload; [|by left].
    right. exists full_data. destruct Hc as [Hnone Hrows].
    split; [done|]. split; [done|]. split; [done|].
    destruct (save_ok database _); [by left|by right].
  - right. split; [done|].
    destruct (parse_file env f) as [parsed_data| |];
      [|by left; left|by left; right].
    destruct (create_ok database _); [|by left; right].
    right. eexists parsed_data, _. split; [done|]. split; [|done].
    destruct (Z.leb_spec (pd_num_rows parsed_data) 10000); [done|].
    by intros [? ?].
Qed.

(** X17.  Ingestion never stores a second table for a pair of project and
    source file: if the pairs of the stored tables are distinct before a
    request, they are distinct after it.  A table returned with 200 or 201
    carries the pair of the request, and it is the table stored under that
    pair, but for the full rows of a backfill that the database did not
    save: the response shows them and the stored table is without. *)
Theorem ingestion_keeps_tables_unique (db : list DataTable) (project_id : Z)
    (f : UploadedFile) :
  NoDup (table_key <$> db) ->
  let result := DataIngestionView_post env database db project_id f in
  NoDup (table_key <$> result.1)
  /\ forall t,
       result.2 = Ingest200 t \/ result.2 = Ingest201 t ->
       table_key t = (project_id, file_id f)
       /\ (t ∈ result.1
           \/ exists stored full_data,
                stored ∈ result.1
                /\ full_data_json stored = None
                /\ t = set_full_data_json stored (Some full_data)
                /\ save_ok database t = false
                /\ result.2 = Ingest200 t).
Proof.
  intros Hnd result. subst result.
  destruct (post_outcomes db project_id f)
    as [(i & existing & Hfind
         & [->|(full & Hnone & _ & _ & [[Hsave ->]|[Hsave ->]])])
       |(Hfind & [[->| ->]|(parsed & full & _ & _ & ->)])]; cbn [fst snd].
  - split; [done|]. intros t [[= <-]|[=]].
    apply list_find_Some in Hfind as (Hi & [Hp Hf] & _).
    split; [unfold table_key; by rewrite Hp, Hf|].
    left. by eapply list_elem_of_lookup_2.
  - apply list_find_Some in Hfind as (Hi & [Hp Hf] & _). split.
    + rewrite list_fmap_insert.
      replace (table_key (set_full_data_json existing (Some full)))
        with (table_key existing) by done.
      rewrite list_insert_id; [done|]. by rewrite list_lookup_fmap, Hi.
    + intros t [[= <-]|[=]]. split.
      * unfold table_key. simpl. by rewrite Hp, Hf.
      * left. apply list_elem_of_lookup. exists i.
        apply list_lookup_insert_eq. by eapply lookup_lt_Some.
  - split; [done|]. intros t [[= <-]|[=]].
    apply list_find_Some in Hfind as (Hi & [Hp Hf] & _).
    split; [unfold table_key; simpl; by rewrite Hp, Hf|].
    right. exists existing, full. split_and!; try done.
    by eapply list_elem_of_lookup_2.
  - split; [done|]. by intros t [[=]|[=]].
  - split; [done|]. by intros t [[=]|[=]].
  - split.
    + rewrite fmap_app. apply NoDup_app. split; [done|]. split.
      * intros key Hin Hin'. apply list_elem_of_singleton in Hin'.
        apply list_elem_of_fmap in Hin as (t & Ht & Hin).
        apply list_elem_of_lookup in Hin as [j Hj].
        apply list_find_None in Hfind.
        apply (proj1 (Forall_lookup _ _) Hfind j t Hj).
        unfold table_key in *. simpl in Hin'. subst key.
        injection Hin' as Hp Hf. split; congruence.
      * apply NoDup_singleton.
    + intros t [[=]|[= <-]]. split; [done|]. left.
      apply elem_of_app. right. by apply list_elem_of_singleton.
Qed.

(** X18.  Ingestion leaves the stored tables in their places and changes
    none of them, but for the full rows it backfills into the table of the
    request: a request adds at most one table; every table keeps its
    position, project, source file, schema, row count, sample and overlay;
    full rows that are present are never replaced; a table of another
    pair, and every table when the answer is 400 or 500, is left as it
    was. *)
Theorem ingestion_preserves_stored_tables (db : list DataTable)
    (project_id : Z) (f : UploadedFile) :
  let result := DataIngestionView_post env database db project_id f in
  (length db <= length result.1 <= S (length db))%nat
  /\ (result.2 = Ingest400 \/ result.2 = Ingest500 -> result.1 = db)
  /\ forall j t,
       db !! j = Some t ->
       exists t',
         result.1 !! j = Some t'
         /\ project t' = project t /\ source_file t' = source_file t
         /\ schema_json t' = schema_json t /\ num_rows t' = num_rows t
         /\ sample_json t' = sample_json t
         /\ edited_data_json t' = edited_data_json t
         /\ (forall d, full_data_json t = Some d -> full_data_json t' = Some d)
         /\ (table_key t <> (project_id, file_id f) -> t' = t).
Proof.
  intros result. subst result.
  destruct (post_outcomes db project_id f)
    as [(i & existing & Hfind
         & [->|(full & Hnone & _ & _ & [[Hsave ->]|[Hsave ->]])])
       |(Hfind & [[->| ->]|(parsed & full & _ & _ & ->)])]; cbn [fst snd].
  - split; [lia|]. split; [done|]. intros j t Hj. exists t. by split_and!.
  - apply list_find_Some in Hfind as (Hi & [Hp Hf] & _).
    rewrite length_insert. split; [lia|]. split; [by intros [[=]|[=]]|].
    intros j t Hj. destruct (decide (j = i)) as [->|Hne].
    + assert (t = existing) as -> by congruence.
      exists (set_full_data_json existing (Some full)).
      split; [apply list_lookup_insert_eq; by eapply lookup_lt_Some|].
      split_and!; try done.
      * intros d Hd. congruence.
      * intros Hkey. exfalso. apply Hkey. unfold table_key.
        by rewrite Hp, Hf.
    + exists t. rewrite list_lookup_insert_ne by done. by split_and!.
  - split; [lia|]. split; [done|]. intros j t Hj. exists t. by split_and!.
  - split; [lia|]. split; [done|]. intros j t Hj. exists t. by split_and!.
  - split; [lia|]. split; [done|]. intros j t Hj. exists t. by split_and!.
  - rewrite length_app. simpl. split; [lia|]. split; [by intros [[=]|[=]]|].
    intros j t Hj. exists t. split; [by apply lookup_app_l_Some|].
    by split_and!.
Qed.

(** X19.  Full rows are stored only within the cap: if every stored table
    that has full rows reports at most 10 000 rows, the same is true after
    any request, for the stored tables and for the table returned.  A
    table of more than 10 000 rows is thus never given full rows, neither
    when created nor by a later backfill. *)
Theorem ingestion_respects_cap (db : list DataTable) (project_id : Z)
    (f : UploadedFile) :
  Forall within_cap db ->
  let result := DataIngestionView_post env database db project_id f in
  Forall within_cap result.1
  /\ forall t,
       result.2 = Ingest200 t \/ result.2 = Ingest201 t -> within_cap t.
Proof.
  intros Hcap result. subst result.
  destruct (post_outcomes db project_id f)
    as [(i & existing & Hfind
         & [->|(full & _ & Hrows & _ & [[Hsave ->]|[Hsave ->]])])
       |(Hfind & [[->| ->]|(parsed & full & _ & Hrows & ->)])]; cbn [fst snd].
  - split; [done|]. intros t [[= <-]|[=]].
    apply list_find_Some in Hfind as (Hi & _).
    by apply (proj1 (Forall_lookup _ _) Hcap i).
  - assert (Hnew : within_cap (set_full_data_json existing (Some full)))
      by (by intros _).
    split; [|by intros t [[= <-]|[=]]].
    by apply Forall_insert.
  - split; [done|]. intros t [[= <-]|[=]]. by intros _.
  - split; [done|]. by intros t [[=]|[=]].
  - split; [done|]. by intros t [[=]|[=]].
  - assert (Hnew : within_cap
                     (mkDataTable project_id (file_id f) (pd_schema parsed)
                        (pd_num_rows parsed) (pd_sample_data parsed) full ∅))
      by (intros Hfull; by apply Hrows).
    split; [|by intros t [[=]|[= <-]]].
    apply Forall_app. split; [done|]. by constructor.
Qed.

End IngestionMore.

Lemma ingestion_keeps_tables_unique_witness :
  let result := DataIngestionView_post demo_env json_columns [] 1 demo_file in
  NoDup (table_key <$> result.1)
  /\ forall t,
       result.2 = Ingest200 t \/ result.2 = Ingest201 t ->
       table_key t = (1%Z, file_id demo_file)
       /\ (t ∈ result.1
           \/ exists stored full_data,
                stored ∈ result.1
                /\ full_data_json stored = None
                /\ t = set_full_data_json stored (Some full_data)
                /\ save_ok json_columns t = false
                /\ result.2 = Ingest200 t).
Proof.
  apply (ingestion_keeps_tables_unique demo_env json_columns [] 1 demo_file).
  constructor.
Defined.

Lemma ingestion_respects_cap_witness :
  let result :=
    DataIngestionView_post demo_env json_columns [demo_ingested] 1 demo_file in
  Forall within_cap result.1
  /\ forall t,
       result.2 = Ingest200 t \/ result.2 = Ingest201 t -> within_cap t.
Proof.
  apply (ingestion_respects_cap demo_env json_columns [demo_ingested] 1
           demo_file).
  constructor; [|constructor]. intros _. vm_compute. discriminate.
Defined.

(** * Reading an edit back *)

Section ReadBack.

Variable u : Unicode.
Variable py_str : json -> string.
Variable database : Database.

Local Open Scope Z_scope.

Lemma merge_row_empty (i : nat) (r : row) : merge_row ∅ i r = r.
Proof. unfold merge_row. by rewrite lookup_empty. Qed.


End ReadBack.


(** * A created table in the views *)

Section FreshTable.

Variable env : Collaborators.
Variable database : Database.

Local Open Scope Z_scope.

(** X20.  A table as ingestion creates it has an empty overlay, so its
    materialised data are its full rows; and when it reports more than
    10 000 rows it has no full rows: every page request, every preview
    and every edit request for it is answered with "full data not
    available", the table being left as it is. *)
Theorem created_table_views (db db' : list DataTable) (project_id : Z)
    (f : UploadedFile) (t : DataTable) :
  DataIngestionView_post env database db project_id f = (db', Ingest201 t) ->
  get_edited_data t = ∅
  /\ get_data_with_edits t = full_data_json t
  /\ (10000 < num_rows t ->
      (forall page page_size,
         DataGridView_get t page page_size = GridFullDataUnavailable)
      /\ (forall u limit_param,
            DataPreviewView_get u t limit_param = PreviewFullDataUnavailable)
      /\ (forall u py_str edits,
            DataGridView_patch u py_str database t (JObj edits)
            = (t, PatchFullDataUnavailable))).
Proof.
  intros H.
  destruct (post_outcomes env database db project_id f)
    as [(i & existing & _ & [H'|(full & _ & _ & _ & [[_ H']|[_ H']])])
       |(_ & [[H'|H']|(parsed & full & _ & Hrows & H')])];
    rewrite H' in H; try discriminate H.
  injection H as _ <-. split; [done|].
  assert (Hdata : forall full',
            get_data_with_edits
              (mkDataTable project_id (file_id f) (pd_schema parsed)
                 (pd_num_rows parsed) (pd_sample_data parsed) full' ∅)
            = full').
  { intros [rows|]; [|done]. unfold get_data_with_edits. simpl. f_equal.
    apply list_eq. intros j. rewrite list_lookup_imap.
    destruct (rows !! j); [|done]. simpl. by rewrite merge_row_empty. }
  split; [apply Hdata|]. cbn [num_rows]. intros Hbig.
  assert (full = None) as ->.
  { destruct full as [rows|]; [|done]. specialize (Hrows ltac:(eauto)). lia. }
  unfold DataGridView_get, DataPreviewView_get, DataGridView_patch.
  rewrite Hdata. done.
Qed.

End FreshTable.

Lemma created_table_views_witness :
  get_edited_data demo_sample_only = ∅
  /\ get_data_with_edits demo_sample_only = full_data_json demo_sample_only
  /\ ((10000 < num_rows demo_sample_only)%Z ->
      (forall page page_size,
         DataGridView_get demo_sample_only page page_size
         = GridFullDataUnavailable)
      /\ (forall u limit_param,
            DataPreviewView_get u demo_sample_only limit_param
            = PreviewFullDataUnavailable)
      /\ (forall u py_str edits,
            DataGridView_patch u py_str json_columns demo_sample_only
              (JObj edits)
            = (demo_sample_only, PatchFullDataUnavailable))).
Proof.
  apply (created_table_views demo_env_large json_columns [] [demo_sample_only]
           1 demo_file).
  vm_compute. reflexivity.
Defined.

(** * An edit and the page that shows it *)

Section EditThenPage.

Variable u : Unicode.
Variable py_str : json -> string.
Variable database : Database.

Local Open Scope Z_scope.

(** X27.  An applied edit shows on its page.  After a one-cell request for
    row [n] is answered as applied, the page request for page
    [n // page_size + 1] is served, and its row [n % page_size] is the
    stored full row [n] with the edited column set to the accepted value. *)
Theorem edited_cell_shows_on_its_page (t t' : DataTable) (full : list row)
    (key col : string) (n page_size : Z) (v w : json) (r : row)
    (applied : gmap string row) :
  full_data_json t = Some full ->
  full !! Z.to_nat n = Some r ->
  PyStr.int_of_str u key = Some n ->
  0 <= n ->
  validate_cell u py_str (get_schema t) n col v = inr w ->
  1 <= page_size ->
  DataGridView_patch u py_str database t (one_cell key col v)
  = (t', PatchApplied applied) ->
  applied = {[ PyStr.str_of_int n := {[ col := w ]} ]}
  /\ exists rows pg,
       DataGridView_get t' (n / page_size + 1) page_size = GridPage rows pg
       /\ rows !! Z.to_nat (n mod page_size) = Some (<[col := w]> r).
Proof.
  intros Hfull Hr Hkey Hn0 Hv Hps Hpatch.
  assert (Hn : n < Z.of_nat (length full)).
  { apply lookup_lt_Some in Hr. lia. }
  assert (Hdata : get_data_with_edits t
                  = Some (imap (merge_row (get_edited_data t)) full)).
  { unfold get_data_with_edits. by rewrite Hfull. }
  rewrite (patch_single_cell u py_str database t _ key col n v Hdata Hkey)
    in Hpatch by (rewrite length_imap; lia).
  rewrite Hv in Hpatch. cbv zeta in Hpatch.
  destruct (save_ok database _); [|discriminate Hpatch].
  injection Hpatch as <- <-. split; [done|].
  unfold DataGridView_get, get_data_with_edits.
  cbn [full_data_json set_edited_data_json]. rewrite Hfull.
  cbn [fmap option_fmap option_map].
  set (data' := imap _ full).
  assert (Hlen : length data' = length full) by apply length_imap.
  assert (Hrow : data' !! Z.to_nat n = Some (<[col := w]> r)).
  { subst data'. rewrite list_lookup_imap, Hr. simpl. f_equal.
    unfold merge_row, get_edited_data.
    cbn [edited_data_json set_edited_data_json].
    rewrite Z2Nat.id, dict_update_lookup_new by lia.
    by rewrite insert_union_singleton_l. }
  pose proof (Z.div_mod n page_size ltac:(lia)) as Hdm.
  pose proof (Z.mod_pos_bound n page_size ltac:(lia)) as Hmod.
  assert (Hq : 0 <= n / page_size) by (apply Z.div_pos; lia).
  assert (Hstart : (n / page_size + 1 - 1) * page_size
                   = page_size * (n / page_size)) by lia.
  rewrite paginate_ok by (try lia; rewrite Hstart, Hlen; lia).
  eexists _, _. split; [done|].
  rewrite lookup_take_lt, lookup_drop.
  - rewrite <- Hrow. f_equal. rewrite Hstart. nia.
  - rewrite Hstart, Hlen. nia.
Qed.

End EditThenPage.

Lemma edited_cell_shows_on_its_page_witness :
  ({[ "1" := {[ "age" := JInt 26 ]} ]} : gmap string row)
  = {[ PyStr.str_of_int 1 := {[ "age" := JInt 26 ]} ]}
  /\ exists rows pg,
       DataGridView_get
         (set_edited_data_json demo_table {[ "1" := {[ "age" := JInt 26 ]} ]})
         (1 / 1 + 1) 1 = GridPage rows pg
       /\ rows !! Z.to_nat (1 mod 1)
          = Some (<["age" := JInt 26]>
                    ({[ "age" := JInt 25; "height" := JInt 180 ]} : row)).
Proof.
  apply (edited_cell_shows_on_its_page no_wide str_plain json_columns
           demo_table
           (set_edited_data_json demo_table
              {[ "1" := {[ "age" := JInt 26 ]} ]})
           [ {[ "age" := JInt 30; "height" := JInt 170 ]};
             {[ "age" := JInt 25; "height" := JInt 180 ]} ]
           "1" "age" 1 1 (JInt 26) (JInt 26)
           {[ "age" := JInt 25; "height" := JInt 180 ]}
           {[ "1" := {[ "age" := JInt 26 ]} ]});
    [reflexivity | reflexivity | reflexivity | lia | reflexivity | lia
    | vm_compute; reflexivity].
Defined.

(** * Errors: rows of a request, readers of ingestion *)

Section RowErrors.

Variable u : Unicode.
Variable py_str : json -> string.
Variable database : Database.

Local Open Scope Z_scope.


End RowErrors.


Section Readers.

Variable database : Database.

Local Open Scope Z_scope.

(** X29.  What the readers of the full rows can change.  Take two runs
    that differ only in what the two readers return.  Tables returned by
    both agree on everything but the full rows.  When a table for the pair
    is stored, both runs answer 200 and store as many tables as before.
    When none is stored and the parser fails, both runs give the same
    answer, 400 or 500, and store nothing.  When the parser succeeds, a
    run is answered 201, or 500 with nothing stored where the database
    refuses the record; the two runs are the same when the parser reports
    more than 10 000 rows, the readers not being consulted then, and when
    the rows loaded are the same.  A reader that raises thus never fails a
    request by itself: the readers reach the status only through the
    record that the database is asked to create. *)
Theorem readers_reach_status_through_create (env env' : Collaborators)
    (db : list DataTable) (project_id : Z) (f : UploadedFile) :
  parse_file env f = parse_file env' f ->
  let result := DataIngestionView_post env database db project_id f in
  let result' := DataIngestionView_post env' database db project_id f in
  (forall t t',
     (result.2 = Ingest200 t /\ result'.2 = Ingest200 t')
     \/ (result.2 = Ingest201 t /\ result'.2 = Ingest201 t') ->
     set_full_data_json t None = set_full_data_json t' None)
  /\ (is_Some (list_find (table_matches project_id f) db) ->
      ingest_status result.2 = 200 /\ ingest_status result'.2 = 200
      /\ length result.1 = length db /\ length result'.1 = length db)
  /\ (list_find (table_matches project_id f) db = None ->
      match parse_file env f with
      | ParseValueError => result = (db, Ingest400) /\ result' = (db, Ingest400)
      | ParseException => result = (db, Ingest500) /\ result' = (db, Ingest500)
      | ParseOk parsed_data =>
          (10000 < pd_num_rows parsed_data -> result = result')
          /\ (load_full_data env f = load_full_data env' f ->
              result = result')
          /\ (ingest_status result.2 = 201
              \/ (result = (db, Ingest500)
                  /\ exists data_table,
                       create_ok database data_table = false
                       /\ project data_table = project_id
                       /\ source_file data_table = file_id f
                       /\ schema_json data_table = pd_schema parsed_data
                       /\ num_rows data_table = pd_num_rows parsed_data
                       /\ (is_Some (full_data_json data_table) ->
                           full_data_json data_table
                           = load_full_data env f)))
      end).
Proof.
  intros Hparse result result'. subst result result'.
  unfold DataIngestionView_post. rewrite <- Hparse.
  destruct (list_find (table_matches project_id f) db)
    as [[i existing]|] eqn:Hfind.
  - assert (Hcase : forall e,
      exists t,
        (if decide (full_data_json existing = None
                    /\ num_rows existing <= 10000)
         then match load_full_data e f with
              | Some full_data =>
                  if save_ok database
                       (set_full_data_json existing (Some full_data))
                  then
                    (<[i := set_full_data_json existing (Some full_data)]> db,
                     Ingest200 (set_full_data_json existing (Some full_data)))
                  else
                    (db,
                     Ingest200 (set_full_data_json existing (Some full_data)))
              | None => (db, Ingest200 existing)
              end
         else (db, Ingest200 existing)).2 = Ingest200 t
        /\ set_full_data_json t None = set_full_data_json existing None
        /\ length
             (if decide (full_data_json existing = None
                         /\ num_rows existing <= 10000)
              then match load_full_data e f with
                   | Some full_data =>
                       if save_ok database
                            (set_full_data_json existing (Some full_data))
                       then
                         (<[i := set_full_data_json existing
                                   (Some full_data)]> db,
                          Ingest200
                            (set_full_data_json existing (Some full_data)))
                       else
                         (db,
                          Ingest200
                            (set_full_data_json existing (Some full_data)))
                   | None => (db, Ingest200 existing)
                   end
              else (db, Ingest200 existing)).1 = length db).
    { intros e. case_decide; [|by exists existing].
      destruct (load_full_data e f) as [full_data|]; [|by exists existing].
      destruct (save_ok database _); eexists;
        (split; [reflexivity|]); (split; [done|]);
        cbn [fst]; by rewrite ?length_insert. }
    destruct (Hcase env) as (t1 & E1 & F1 & L1).
    destruct (Hcase env') as (t2 & E2 & F2 & L2).
    split; [|split; [|done]].
    + intros t t' [[H1 H2]|[H1 H2]].
      * rewrite E1 in H1. rewrite E2 in H2.
        injection H1 as <-. injection H2 as <-. congruence.
      * rewrite E1 in H1. discriminate H1.
    + intros _. rewrite E1, E2. done.
  - split; [|split; [by intros [? [=]]|intros _]].
    + intros t t' [[H1 H2]|[H1 H2]].
      * destruct (parse_file env f) as [parsed| |]; try discriminate H1.
        destruct (create_ok database _); discriminate H1.
      * destruct (parse_file env f) as [parsed| |]; try discriminate H1.
        destruct (create_ok database _) in H1; [|discriminate H1].
        destruct (create_ok database _) in H2; [|discriminate H2].
        cbn [snd] in H1, H2. injection H1 as <-. injection H2 as <-. done.
    + destruct (parse_file env f) as [parsed| |]; [|done..].
      split; [|split].
      * intros Hbig. destruct (Z.leb_spec (pd_num_rows parsed) 10000);
          [lia|done].
      * by intros ->.
      * destruct (create_ok database _) eqn:Hcreate; [by left|].
        right. split; [done|]. eexists. split; [exact Hcreate|].
        cbn [project source_file schema_json num_rows full_data_json].
        split_and!; try done.
        destruct (Z.leb_spec (pd_num_rows parsed) 10000); [done|].
        by intros [? [=]].
Qed.

End Readers.

Lemma readers_reach_status_through_create_witness :
  let result := DataIngestionView_post demo_env json_columns [] 1 demo_file in
  let result' :=
    DataIngestionView_post
      (mkCollaborators (parse_file demo_env) (fun _ => None) (fun _ => None))
      json_columns [] 1 demo_file in
  (forall t t',
     (result.2 = Ingest200 t /\ result'.2 = Ingest200 t')
     \/ (result.2 = Ingest201 t /\ result'.2 = Ingest201 t') ->
     set_full_data_json t None = set_full_data_json t' None)
  /\ (is_Some (list_find (table_matches 1 demo_file) []) ->
      ingest_status result.2 = 200%Z /\ ingest_status result'.2 = 200%Z
      /\ length result.1 = length ([] : list DataTable)
      /\ length result'.1 = length ([] : list DataTable))
  /\ (list_find (table_matches 1 demo_file) ([] : list DataTable) = None ->
      match parse_file demo_env demo_file with
      | ParseValueError => result = ([], Ingest400) /\ result' = ([], Ingest400)
      | ParseException => result = ([], Ingest500) /\ result' = ([], Ingest500)
      | ParseOk parsed_data =>
          ((10000 < pd_num_rows parsed_data)%Z -> result = result')
          /\ (load_full_data demo_env demo_file
              = load_full_data
                  (mkCollaborators (parse_file demo_env) (fun _ => None)
                     (fun _ => None)) demo_file ->
              result = result')
          /\ (ingest_status result.2 = 201%Z
              \/ (result = ([], Ingest500)
                  /\ exists data_table,
                       create_ok json_columns data_table = false
                       /\ project data_table = 1%Z
                       /\ source_file data_table = file_id demo_file
                       /\ schema_json data_table = pd_schema parsed_data
                       /\ num_rows data_table = pd_num_rows parsed_data
                       /\ (is_Some (full_data_json data_table) ->
                           full_data_json data_table
                           = load_full_data demo_env demo_file)))
      end).
Proof.
  apply (readers_reach_status_through_create json_columns demo_env
           (mkCollaborators (parse_file demo_env) (fun _ => None)
              (fun _ => None))
           [] 1 demo_file).
  reflexivity.
Defined.

(** * The views as a whole: lookups and isolation *)

Section RequestFacts.

Local Open Scope Z_scope.

Lemma get_project_None (projects : list Project) (project_id user : Z) :
  (forall p, p ∈ projects -> project_pk p = project_id -> owner p <> user) ->
  get_project projects project_id user = None.
Proof.
  intros H. unfold get_project.
  destruct (list_find _ projects) as [[i p]|] eqn:E; [|done].
  apply list_find_Some in E as (Hi & [Hp Ho] & _).
  destruct (H p); [by eapply list_elem_of_lookup_2|done..].
Qed.

Lemma get_project_Some (projects : list Project) (project_id user : Z)
    (p : Project) :
  get_project projects project_id user = Some p ->
  p ∈ projects /\ project_pk p = project_id /\ owner p = user.
Proof.
  unfold get_project.
  destruct (list_find _ projects) as [[i p']|] eqn:E; [|done].
  intros [= <-]. apply list_find_Some in E as (Hi & [Hp Ho] & _).
  split; [by eapply list_elem_of_lookup_2|done].
Qed.

(** X21.  No view serves a project to a user who does not own it: when no
    project with the requested id belongs to the user, the page, preview,
    edit and ingestion requests are all answered with "Project not found",
    and the edit and ingestion requests leave the stored tables as they
    are. *)
Theorem views_refuse_foreign_project (projects : list Project)
    (tables : list DataTable) (files : list FileRecord) (user project_id : Z) :
  (forall p, p ∈ projects -> project_pk p = project_id -> owner p <> user) ->
  (forall u query_params,
     DataGridView_get_request u projects tables user project_id query_params
     = ProjectNotFound)
  /\ (forall u query_params,
        DataPreviewView_get_request u projects tables user project_id
          query_params
        = ProjectNotFound)
  /\ (forall u py_str database data,
        DataGridView_patch_request u py_str database projects tables user
          project_id data
        = (tables, ProjectNotFound))
  /\ (forall env database uploaded_file_id,
        DataIngestionView_post_request env database projects files tables user
          project_id uploaded_file_id
        = (tables, ProjectNotFound)).
Proof.
  intros H. pose proof (get_project_None _ _ _ H) as Hnone.
  unfold DataGridView_get_request, DataPreviewView_get_request,
    DataGridView_patch_request, DataIngestionView_post_request.
  by rewrite Hnone.
Qed.

(** X22.  An edit request changes at most one stored table, the first
    table of the requested project, and of that table only the overlay.
    The tables keep their number and places; project, source file, schema,
    row count, sample and full rows of every table are kept; a table of any
    other project is left as it was; and a table that is not as it was is
    a table of the requested project with no table of that project before
    it, the request being answered as applied, so that two tables that
    changed are one and the same. *)
Theorem patch_request_isolated (u : Unicode) (py_str : json -> string)
    (database : Database) (projects : list Project)
    (tables : list DataTable) (user project_id : Z)
    (data : gmap string json) :
  let result :=
    DataGridView_patch_request u py_str database projects tables user
      project_id data in
  length result.1 = length tables
  /\ (forall j t,
        tables !! j = Some t ->
        exists t',
          result.1 !! j = Some t'
          /\ (project t <> project_id -> t' = t)
          /\ project t' = project t /\ source_file t' = source_file t
          /\ schema_json t' = schema_json t /\ num_rows t' = num_rows t
          /\ sample_json t' = sample_json t
          /\ full_data_json t' = full_data_json t)
  /\ (forall j t,
        tables !! j = Some t ->
        result.1 !! j <> Some t ->
        project t = project_id
        /\ (forall k t0,
              (k < j)%nat -> tables !! k = Some t0 ->
              project t0 <> project_id)
        /\ exists applied, result.2 = Answer (PatchApplied applied))
  /\ (forall j1 j2 t1 t2,
        tables !! j1 = Some t1 -> result.1 !! j1 <> Some t1 ->
        tables !! j2 = Some t2 -> result.1 !! j2 <> Some t2 ->
        j1 = j2).
Proof.
  intros result.
  assert (Hmain :
    length result.1 = length tables
    /\ (forall j t,
          tables !! j = Some t ->
          exists t',
            result.1 !! j = Some t'
            /\ (project t <> project_id -> t' = t)
            /\ project t' = project t /\ source_file t' = source_file t
            /\ schema_json t' = schema_json t /\ num_rows t' = num_rows t
            /\ sample_json t' = sample_json t
            /\ full_data_json t' = full_data_json t)
    /\ (forall j t,
          tables !! j = Some t ->
          result.1 !! j <> Some t ->
          project t = project_id
          /\ (forall k t0,
                (k < j)%nat -> tables !! k = Some t0 ->
                project t0 <> project_id)
          /\ exists applied, result.2 = Answer (PatchApplied applied))).
  { subst result. unfold DataGridView_patch_request.
    destruct (get_project projects project_id user) as [p|] eqn:Hp;
      [|split; [done|]; split;
        [intros j t Hj; exists t; by split_and!|by intros j t Hj []]].
    apply get_project_Some in Hp as (_ & Hpk & _).
    destruct (first_table tables p) as [[i data_table]|] eqn:Ht;
      [|split; [done|]; split;
        [intros j t Hj; exists t; by split_and!|by intros j t Hj []]].
    apply list_find_Some in Ht as (Hi & Hproj & Hfirst).
    pose proof (patch_frame u py_str database data_table
                  (default (JObj []) (data !! "edits"))) as Hframe.
    cbv zeta in Hframe.
    destruct (DataGridView_patch u py_str database data_table _)
      as [t1 response].
    cbn [fst] in Hframe.
    destruct Hframe as (F1 & F2 & F3 & F4 & F5 & F6).
    destruct response as [| |errors| |applied]; cbn [fst snd];
      try (split; [done|]; split;
           [intros j t Hj; exists t; by split_and!|by intros j t Hj []]).
    split; [by rewrite length_insert|]. split.
    - intros j t Hj. destruct (decide (j = i)) as [->|Hne].
      + assert (t = data_table) as -> by congruence.
        exists t1.
        split; [apply list_lookup_insert_eq; by eapply lookup_lt_Some|].
        split_and!; try done. intros Hother. congruence.
      + exists t. rewrite list_lookup_insert_ne by done. by split_and!.
    - intros j t Hj Hchanged. destruct (decide (j = i)) as [->|Hne].
      + assert (t = data_table) as -> by congruence.
        split; [congruence|]. split; [|by eexists].
        intros k t0 Hk Hk0 Hp0. apply (Hfirst k t0 Hk0 Hk). congruence.
      + rewrite list_lookup_insert_ne in Hchanged by done. done. }
  destruct Hmain as (H1 & H2 & H3). split; [done|]. split; [done|].
  split; [done|].
  intros j1 j2 t1 t2 Hj1 Hc1 Hj2 Hc2.
  destruct (H3 j1 t1 Hj1 Hc1) as (Hp1 & Hfirst1 & _).
  destruct (H3 j2 t2 Hj2 Hc2) as (Hp2 & Hfirst2 & _).
  destruct (Nat.lt_trichotomy j1 j2) as [Hlt|[Heq|Hgt]]; [|done|].
  - by destruct (Hfirst2 j1 t1 Hlt Hj1).
  - by destruct (Hfirst1 j2 t2 Hgt Hj2).
Qed.

(** What the scan has found after the files [seen]. *)
Lemma later_file_step (project_id : Z) (seen : list FileRecord)
    (best : option FileRecord) (f : FileRecord) :
  match best with
  | Some r =>
      r ∈ seen /\ fr_project r = project_id
      /\ forall g, g ∈ seen -> fr_project g = project_id ->
                   fr_created_at g <= fr_created_at r
  | None => forall g, g ∈ seen -> fr_project g <> project_id
  end ->
  match later_file project_id best f with
  | Some r =>
      r ∈ seen ++ [f] /\ fr_project r = project_id
      /\ forall g, g ∈ seen ++ [f] -> fr_project g = project_id ->
                   fr_created_at g <= fr_created_at r
  | None => forall g, g ∈ seen ++ [f] -> fr_project g <> project_id
  end.
Proof.
  intros H. unfold later_file.
  destruct (decide (fr_project f = project_id)) as [Hf|Hf].
  - destruct best as [b|].
    + destruct H as (Hin & Hproj & Hmax).
      destruct (Z.ltb_spec (fr_created_at b) (fr_created_at f)).
      * split; [set_solver|]. split; [done|].
        intros g [Hg|Hg%list_elem_of_singleton]%elem_of_app Hgp.
        -- specialize (Hmax g Hg Hgp). lia.
        -- subst g. lia.
      * split; [set_solver|]. split; [done|].
        intros g [Hg|Hg%list_elem_of_singleton]%elem_of_app Hgp.
        -- by apply Hmax.
        -- by subst g.
    + split; [set_solver|]. split; [done|].
      intros g [Hg|Hg%list_elem_of_singleton]%elem_of_app Hgp.
      * by destruct (H g Hg).
      * subst g. lia.
  - destruct best as [b|].
    + destruct H as (Hin & Hproj & Hmax). split; [set_solver|].
      split; [done|].
      intros g [Hg|Hg%list_elem_of_singleton]%elem_of_app Hgp.
      * by apply Hmax.
      * by subst g.
    + intros g [Hg|Hg%list_elem_of_singleton]%elem_of_app.
      * by apply H.
      * by subst g.
Qed.

Lemma fold_later_file (project_id : Z) (rest seen : list FileRecord)
    (best : option FileRecord) :
  match best with
  | Some r =>
      r ∈ seen /\ fr_project r = project_id
      /\ forall g, g ∈ seen -> fr_project g = project_id ->
                   fr_created_at g <= fr_created_at r
  | None => forall g, g ∈ seen -> fr_project g <> project_id
  end ->
  match fold_left (later_file project_id) rest best with
  | Some r =>
      r ∈ seen ++ rest /\ fr_project r = project_id
      /\ forall g, g ∈ seen ++ rest -> fr_project g = project_id ->
                   fr_created_at g <= fr_created_at r
  | None => forall g, g ∈ seen ++ rest -> fr_project g <> project_id
  end.
Proof.
  revert seen best. induction rest as [|f rest IH]; intros seen best H.
  - by rewrite app_nil_r.
  - cbn [fold_left]. rewrite (cons_middle f seen rest), app_assoc.
    apply IH. by apply later_file_step.
Qed.

Lemma latest_uploaded_file_spec (files : list FileRecord) (project_id : Z) :
  match latest_uploaded_file files project_id with
  | Some r =>
      r ∈ files /\ fr_project r = project_id
      /\ forall g, g ∈ files -> fr_project g = project_id ->
                   fr_created_at g <= fr_created_at r
  | None => forall g, g ∈ files -> fr_project g <> project_id
  end.
Proof.
  apply (fold_later_file project_id files [] None).
  intros g Hg. by apply not_elem_of_nil in Hg.
Qed.

Lemma post_response_table (env : Collaborators) (database : Database)
    (db : list DataTable) (project_id : Z) (f : UploadedFile)
    (t : DataTable) :
  (DataIngestionView_post env database db project_id f).2 = Ingest200 t
  \/ (DataIngestionView_post env database db project_id f).2 = Ingest201 t ->
  project t = project_id /\ source_file t = file_id f.
Proof.
  destruct (post_outcomes env database db project_id f)
    as [(i & existing & Hfind
         & [->|(full & _ & _ & _ & [[_ ->]|[_ ->]])])
       |(Hfind & [[->| ->]|(parsed & full & _ & _ & ->)])]; cbn [snd];
    intros [[=]|[=]]; subst; try done;
    by apply list_find_Some in Hfind as (_ & [Hp Hf] & _).
Qed.

(** X23.  The file that an ingestion request parses is a file of the
    requested project.  A table returned with 200 or 201 belongs to that
    project and has as source one of its uploaded files: the file with the
    given id, or, when no id (or 0) is given, a file uploaded no earlier
    than any other of the project.  An id that no file of the project
    carries is answered with 404, the stored tables left as they are. *)
Theorem ingestion_request_uses_project_file (env : Collaborators)
    (database : Database) (projects : list Project)
    (files : list FileRecord) (db : list DataTable) (user project_id : Z)
    (uploaded_file_id : option Z) :
  let result :=
    DataIngestionView_post_request env database projects files db user
      project_id uploaded_file_id in
  (forall t,
     result.2 = Answer (Ingest200 t) \/ result.2 = Answer (Ingest201 t) ->
     project t = project_id
     /\ exists f,
          f ∈ files /\ fr_project f = project_id
          /\ source_file t = file_id (fr_file f)
          /\ (forall id,
                uploaded_file_id = Some id -> id <> 0 ->
                file_id (fr_file f) = id)
          /\ (uploaded_file_id = None \/ uploaded_file_id = Some 0 ->
              forall g, g ∈ files -> fr_project g = project_id ->
                        fr_created_at g <= fr_created_at f))
  /\ (forall id,
        uploaded_file_id = Some id -> id <> 0 ->
        (forall f, f ∈ files -> file_id (fr_file f) = id ->
                   fr_project f <> project_id) ->
        result = (db, ProjectNotFound) \/ result = (db, NotFound)).
Proof.
  intros result. subst result. unfold DataIngestionView_post_request.
  destruct (get_project projects project_id user) as [p|] eqn:Hp;
    [|split; [by intros t [[=]|[=]]|by left]].
  apply get_project_Some in Hp as (_ & <- & _).
  assert (Hanswer : forall f t,
    (let '(db0, response) :=
       DataIngestionView_post env database db (project_pk p) (fr_file f) in
     (db0, Answer response)).2 = Answer (Ingest200 t)
    \/ (let '(db0, response) :=
          DataIngestionView_post env database db (project_pk p) (fr_file f) in
        (db0, Answer response)).2 = Answer (Ingest201 t) ->
    project t = project_pk p /\ source_file t = file_id (fr_file f)).
  { intros f t Hresp.
    apply (post_response_table env database db (project_pk p) (fr_file f) t).
    destruct (DataIngestionView_post env database db (project_pk p)
                (fr_file f)) as [db0 response]. cbn [snd] in *.
    destruct Hresp as [[= ->]|[= ->]]; [by left|by right]. }
  assert (Hlatest : forall t,
    match latest_uploaded_file files (project_pk p) with
    | Some f =>
        let '(db0, response) :=
          DataIngestionView_post env database db (project_pk p) (fr_file f) in
        (db0, Answer response)
    | None => (db, NotFound)
    end.2 = Answer (Ingest200 t)
    \/ match latest_uploaded_file files (project_pk p) with
       | Some f =>
           let '(db0, response) :=
             DataIngestionView_post env database db (project_pk p) (fr_file f) in
           (db0, Answer response)
       | None => (db, NotFound)
       end.2 = Answer (Ingest201 t) ->
    project t = project_pk p
    /\ exists f,
         f ∈ files /\ fr_project f = project_pk p
         /\ source_file t = file_id (fr_file f)
         /\ forall g, g ∈ files -> fr_project g = project_pk p ->
                      fr_created_at g <= fr_created_at f).
  { intros t Ht.
    pose proof (latest_uploaded_file_spec files (project_pk p)) as Hspec.
    destruct (latest_uploaded_file files (project_pk p)) as [f|];
      [|by destruct Ht as [[=]|[=]]].
    destruct Hspec as (Hin & Hproj & Hmax).
    destruct (Hanswer f t Ht) as [Ht1 Ht2]. split; [done|]. by exists f. }
  assert (Hget : forall id t,
    match get_uploaded_file files id (project_pk p) with
    | Some f =>
        let '(db0, response) :=
          DataIngestionView_post env database db (project_pk p) (fr_file f) in
        (db0, Answer response)
    | None => (db, NotFound)
    end.2 = Answer (Ingest200 t)
    \/ match get_uploaded_file files id (project_pk p) with
       | Some f =>
           let '(db0, response) :=
             DataIngestionView_post env database db (project_pk p) (fr_file f) in
           (db0, Answer response)
       | None => (db, NotFound)
       end.2 = Answer (Ingest201 t) ->
    project t = project_pk p
    /\ exists f,
         f ∈ files /\ fr_project f = project_pk p
         /\ source_file t = file_id (fr_file f)
         /\ file_id (fr_file f) = id).
  { intros id t Ht. unfold get_uploaded_file in *.
    destruct (list_find _ files) as [[i f]|] eqn:E;
      [|by destruct Ht as [[=]|[=]]].
    simpl in Ht. apply list_find_Some in E as (Hi & [Hid Hproj] & _).
    destruct (Hanswer f t Ht) as [Ht1 Ht2]. split; [done|].
    exists f. split; [by eapply list_elem_of_lookup_2|]. done. }
  split.
  - intros t Ht.
    assert (Hsel :
      (exists id, uploaded_file_id = Some id /\ id <> 0
                  /\ project t = project_pk p
                  /\ exists f,
                       f ∈ files /\ fr_project f = project_pk p
                       /\ source_file t = file_id (fr_file f)
                       /\ file_id (fr_file f) = id)
      \/ ((uploaded_file_id = None \/ uploaded_file_id = Some 0)
          /\ project t = project_pk p
          /\ exists f,
               f ∈ files /\ fr_project f = project_pk p
               /\ source_file t = file_id (fr_file f)
               /\ forall g, g ∈ files -> fr_project g = project_pk p ->
                            fr_created_at g <= fr_created_at f)).
    { destruct uploaded_file_id as [[|id|id]|]; cbn [Z.eqb] in Ht.
      - right. split; [by right|]. by apply Hlatest.
      - left. exists (Z.pos id). split; [done|]. split; [done|].
        by apply Hget.
      - left. exists (Z.neg id). split; [done|]. split; [done|].
        by apply Hget.
      - right. split; [by left|]. by apply Hlatest. }
    destruct Hsel as [(id & -> & Hid & Hproj & f & Hin & Hfp & Hsrc & Hfid)
                     |(Hnone & Hproj & f & Hin & Hfp & Hsrc & Hmax)].
    + split; [done|]. exists f. split_and!; try done.
      * by intros id' [= <-] _.
      * intros [[=]|[= ->]]. done.
    + split; [done|]. exists f. split_and!; try done.
      intros id -> Hid. by destruct Hnone as [[=]|[= ->]].
  - intros id -> Hid Hforeign. right.
    destruct (Z.eqb_spec id 0); [done|].
    unfold get_uploaded_file.
    destruct (list_find _ files) as [[i f]|] eqn:E; [|done].
    apply list_find_Some in E as (Hi & [Hfid Hproj] & _).
    destruct (Hforeign f); [by eapply list_elem_of_lookup_2|done..].
Qed.

End RequestFacts.

Lemma views_refuse_foreign_project_witness :
  (forall u query_params,
     DataGridView_get_request u [mkProject 1 7] [demo_table] 8 1 query_params
     = ProjectNotFound)
  /\ (forall u query_params,
        DataPreviewView_get_request u [mkProject 1 7] [demo_table] 8 1
          query_params
        = ProjectNotFound)
  /\ (forall u py_str database data,
        DataGridView_patch_request u py_str database [mkProject 1 7]
          [demo_table] 8 1 data
        = ([demo_table], ProjectNotFound))
  /\ (forall env database uploaded_file_id,
        DataIngestionView_post_request env database [mkProject 1 7]
          [mkFileRecord demo_file 1 0] [demo_table] 8 1 uploaded_file_id
        = ([demo_table], ProjectNotFound)).
Proof.
  apply (views_refuse_foreign_project [mkProject 1 7] [demo_table]
           [mkFileRecord demo_file 1 0] 8 1).
  intros p Hp _. apply list_elem_of_singleton in Hp. subst p. simpl. lia.
Defined.

(** * File upload *)

Section UploadFacts.

Variable u : Unicode.

Local Open Scope Z_scope.

(** The characters that separate path components, the slash (47) and the
    backslash (92), are not kept. *)
Lemma safe_char_not_separator (c : N) :
  is_safe_char u c = true -> c <> 47%N /\ c <> 92%N.
Proof.
  unfold is_safe_char, is_alnum. intros H.
  split; intros ->; vm_compute in H; discriminate H.
Qed.

Lemma str_of_int_codes (n : Z) :
  PyStr.codes (PyStr.str_of_int n) <> []
  /\ Forall (fun c => c <> 47%N /\ c <> 92%N)
       (PyStr.codes (PyStr.str_of_int n)).
Proof.
  assert (Hdigit : forall c : ascii,
            PyStr.is_digit c = true ->
            PyStr.code c <> 47%N /\ PyStr.code c <> 92%N).
  { unfold PyStr.is_digit.
    intros c [H1%N.leb_le H2%N.leb_le]%andb_true_iff. lia. }
  unfold PyStr.codes, PyStr.str_of_int, pretty, pretty_Z.
  destruct n as [|p|p].
  - split; [done|]. repeat constructor; by vm_compute.
  - change (pretty p) with (pretty (N.pos p)).
    destruct (pretty_pos_facts p) as (c & rest & k & -> & Hds & _).
    split; [done|]. apply Forall_fmap. eapply Forall_impl; [exact Hds|].
    intros c'. apply Hdigit.
  - change (pretty p) with (pretty (N.pos p)). rewrite chars_app.
    destruct (pretty_pos_facts p) as (c & rest & k & -> & Hds & _).
    split; [done|]. apply Forall_fmap. apply Forall_app.
    split; [repeat constructor; by vm_compute|].
    eapply Forall_impl; [exact Hds|]. intros c'. apply Hdigit.
Qed.

Lemma safe_filename_chars (name : text) :
  Forall (fun c => is_safe_char u c = true) (safe_filename u name).
Proof.
  unfold safe_filename. apply Forall_forall.
  intros c Hc. apply list_elem_of_In, filter_In in Hc. tauto.
Qed.

(** X25.  The path under which an upload is stored stays inside the
    directory of its project, whatever the file name: it is
    [projects/<project_id>/files/] followed by one path component, which
    holds neither a slash (code 47) nor a backslash (code 92) and is none
    of the empty name, [.] and [..]. *)
Theorem storage_path_in_project_directory (project_id timestamp : Z)
    (original_filename : text) :
  exists component,
    storage_path u project_id timestamp original_filename
    = PyStr.codes "projects/" ++ PyStr.codes (PyStr.str_of_int project_id)
      ++ PyStr.codes "/files/" ++ component
    /\ Forall (fun c => c <> 47%N /\ c <> 92%N) component
    /\ component <> [] /\ component <> PyStr.codes "."
    /\ component <> PyStr.codes "..".
Proof.
  exists (PyStr.codes (PyStr.str_of_int timestamp) ++ PyStr.codes "_"
          ++ safe_filename u original_filename).
  split; [done|].
  destruct (str_of_int_codes timestamp) as [Hne Hts].
  assert (Hunder : 95%N ∈ PyStr.codes (PyStr.str_of_int timestamp)
                          ++ PyStr.codes "_"
                          ++ safe_filename u original_filename).
  { apply elem_of_app. right. apply elem_of_app. left.
    by apply list_elem_of_singleton. }
  split; [|split_and!].
  - apply Forall_app. split; [done|].
    apply Forall_app. split; [repeat constructor; by vm_compute|].
    eapply Forall_impl; [apply safe_filename_chars|].
    intros c. apply safe_char_not_separator.
  - intros E. rewrite E in Hunder. by apply not_elem_of_nil in Hunder.
  - intros E. rewrite E in Hunder.
    by apply list_elem_of_singleton in Hunder.
  - intros E. rewrite E in Hunder.
    apply elem_of_cons in Hunder as [?|Hunder]; [done|].
    by apply list_elem_of_singleton in Hunder.
Qed.

(** X26.  The sanitised file name.  It holds the characters of the name
    for which [c.isalnum() or c in "._-"] is true, in their order, and no
    others: within ASCII the digits, the letters and the three marks, and
    outside ASCII the characters that [str.isalnum] accepts.  Sanitising it
    again changes nothing, and a name made of such characters only is kept
    as it is. *)
Theorem safe_filename_stable (original_filename : text) :
  safe_filename u (safe_filename u original_filename)
  = safe_filename u original_filename
  /\ (Forall (fun c => is_safe_char u c = true) original_filename ->
      safe_filename u original_filename = original_filename)
  /\ safe_filename u original_filename `sublist_of` original_filename
  /\ (forall c,
        c ∈ safe_filename u original_filename
        <-> c ∈ original_filename /\ is_safe_char u c = true)
  /\ (forall c,
        is_safe_char u c = true
        <-> ((c < 128)%N
             /\ ((48 <= c <= 57)%N \/ (65 <= c <= 90)%N \/ (97 <= c <= 122)%N
                 \/ c = 46%N \/ c = 95%N \/ c = 45%N))
            \/ ((128 <= c)%N /\ alnum_wide u c = true)).
Proof.
  assert (Hid : forall l,
            Forall (fun c => is_safe_char u c = true) l ->
            List.filter (is_safe_char u) l = l).
  { induction 1 as [|c l Hc _ IH]; [done|]. simpl. by rewrite Hc, IH. }
  split_and!.
  - unfold safe_filename at 1. apply Hid, safe_filename_chars.
  - intros Hall. unfold safe_filename. by apply Hid.
  - unfold safe_filename.
    induction original_filename as [|c l IH]; [done|].
    simpl. destruct (is_safe_char u c); by constructor.
  - intros c. unfold safe_filename.
    rewrite list_elem_of_In, filter_In, <- list_elem_of_In. done.
  - intros c. unfold is_safe_char, is_alnum.
    rewrite orb_true_iff, bool_decide_eq_true.
    change (PyStr.codes "._-") with [46%N; 95%N; 45%N].
    rewrite !elem_of_cons, elem_of_nil.
    destruct (N.ltb_spec c 128) as [Hlt|Hge].
    + rewrite !orb_true_iff, !andb_true_iff, !N.leb_le. split.
      * intros H. left. split; [done|]. tauto.
      * intros [[_ H]|[H _]]; [tauto|lia].
    + split.
      * intros [H|H]; [by right|]. lia.
      * intros [[H _]|[_ H]]; [lia|by left].
Qed.

Variable settings : Settings.
Variable path_suffix_lower : text -> text.
Variable sha256_hexdigest : string -> string.
Variable storage_save : text -> string -> option text.
Variable create_upload : StoredUpload -> bool.

(** X24.  No upload gets around the limits.  If every stored upload is at
    most [MAX_FILE_SIZE] large, has an allowed extension (the lowered
    suffix of its name) and a content type, the same is true after any
    upload request.  A request adds at most the one record it reports as
    created, which the database took and which carries the project, the
    original file name, the size, the checksum of the content and the path
    the storage returned for the content saved at [storage_path]; every
    other answer leaves the records as they were, and a file that is too
    large is refused as such whatever its name. *)
Theorem upload_respects_limits (files : list StoredUpload)
    (project_id timestamp : Z) (file : option FileUpload) :
  Forall (upload_within_limits settings path_suffix_lower) files ->
  let result :=
    FileUploadView_post u settings path_suffix_lower sha256_hexdigest
      storage_save create_upload files project_id timestamp file in
  Forall (upload_within_limits settings path_suffix_lower) result.1
  /\ (forall r,
        result.2 = UploadCreated r ->
        result.1 = files ++ [r]
        /\ create_upload r = true
        /\ exists f,
             file = Some f
             /\ up_project r = project_id
             /\ up_filename r = upload_name f
             /\ up_size_bytes r = upload_size f
             /\ up_checksum r = sha256_hexdigest (upload_content f)
             /\ storage_save
                  (storage_path u project_id timestamp (upload_name f))
                  (upload_content f)
                = Some (up_storage_key r))
  /\ ((forall r, result.2 <> UploadCreated r) -> result.1 = files)
  /\ (forall f,
        file = Some f -> MAX_FILE_SIZE settings < upload_size f ->
        result = (files, UploadTooLarge (upload_size f))).
Proof.
  intros Hfiles result. subst result. unfold FileUploadView_post.
  destruct file as [f|];
    [|split_and!; [done|by intros r [=]|done|by intros f [=]]].
  destruct (Z.gtb_spec (upload_size f) (MAX_FILE_SIZE settings)) as [Hbig|Hok];
    [split_and!; [done|by intros r [=]|done|by intros f' [= <-]]|].
  case_decide as Hext;
    [|split_and!; [done|by intros r [=]|done|intros f' [= <-]; lia]].
  destruct (storage_save _ _) as [file_path|] eqn:Hsave;
    [|split_and!; [done|by intros r [=]|done|intros f' [= <-]; lia]].
  destruct (create_upload _) eqn:Hcreate;
    [|split_and!; [done|by intros r [=]|done|intros f' [= <-]; lia]].
  cbn [fst snd]. split_and!.
  - apply Forall_app. split; [done|]. constructor; [|done].
    unfold upload_within_limits. cbn [up_size_bytes up_filename
      up_content_type]. split; [lia|]. split; [done|].
    case_decide as Hct; [|done]. done.
  - intros r [= <-]. split; [done|]. split; [done|]. exists f.
    by split_and!.
  - intros Hno. by destruct (Hno _ eq_refl).
  - intros f' [= <-]. lia.
Qed.

End UploadFacts.

Lemma upload_respects_limits_witness :
  let result :=
    FileUploadView_post no_wide demo_settings (fun _ => PyStr.codes ".csv")
      (fun content => content) (fun path _ => Some path) (fun _ => true) []
      1 1700000000
      (Some (mkFileUpload (PyStr.codes "../My Data.CSV") 12 None "a,b")) in
  Forall (upload_within_limits demo_settings (fun _ => PyStr.codes ".csv"))
    result.1
  /\ (forall r,
        result.2 = UploadCreated r ->
        result.1 = [] ++ [r]
        /\ true = true
        /\ exists f,
             Some (mkFileUpload (PyStr.codes "../My Data.CSV") 12 None "a,b")
             = Some f
             /\ up_project r = 1%Z
             /\ up_filename r = upload_name f
             /\ up_size_bytes r = upload_size f
             /\ up_checksum r = upload_content f
             /\ Some (storage_path no_wide 1 1700000000 (upload_name f))
                = Some (up_storage_key r))
  /\ ((forall r, result.2 <> UploadCreated r) -> result.1 = [])
  /\ (forall f,
        Some (mkFileUpload (PyStr.codes "../My Data.CSV") 12 None "a,b")
        = Some f ->
        (MAX_FILE_SIZE demo_settings < upload_size f)%Z ->
        result = ([], UploadTooLarge (upload_size f))).
Proof.
  apply (upload_respects_limits no_wide demo_settings
           (fun _ => PyStr.codes ".csv") (fun content => content)
           (fun path _ => Some path) (fun _ => true) [] 1 1700000000
           (Some (mkFileUpload (PyStr.codes "../My Data.CSV") 12 None
                    "a,b"))).
  constructor.
Defined.

